(** * A CSV file used as a small database: [connector.py]

    The class [CSVConnector] keeps one pandas data frame in memory, mirrors it
    in one CSV file and offers [read], [get_filtered_dataframe_with_key],
    [register], [delete] and [update].  This development embeds the class in
    Rocq and proves what its methods do.

    The class is written against pandas, so the embedding starts with the
    fragment of pandas the class calls (module [pd]).  That fragment is
    described by functions on a row-major picture of a data frame; its scope
    is stated where each function is defined. *)

From Stdlib Require Import ZArith Ascii String DecimalString DecimalZ.
From stdpp Require Import base option list gmap strings.

Local Open Scope Z_scope.

(** ** Scalars

    A cell holds a Python scalar.  The model has text, integers, booleans and
    the missing value [NaN] that pandas puts into a cell nobody filled.
    Floats other than [NaN] and timestamps are left out: their arithmetic and
    their decimal rendering are not described here. *)

Inductive scalar : Type :=
  | PyStr (s : string)
  | PyInt (z : Z)
  | PyBool (b : bool)
  | NaN.

#[global] Instance scalar_eq_dec : EqDecision scalar.
Proof. solve_decision. Defined.

(** The number a scalar stands for under [==]: Python's [bool] is a subtype
    of [int], so [True == 1] and [False == 0]. *)
Definition as_number (v : scalar) : option Z :=
  match v with
  | PyInt z => Some z
  | PyBool b => Some (if b then 1 else 0)
  | PyStr _ | NaN => None
  end.

(** [a == b] on scalars: texts compare by content, numbers by value, a text
    never equals a number, and [NaN] equals nothing, not even itself. *)
Definition py_eq (a b : scalar) : bool :=
  match a, b with
  | PyStr s, PyStr t => bool_decide (s = t)
  | NaN, _ | _, NaN => false
  | _, _ =>
      match as_number a, as_number b with
      | Some x, Some y => bool_decide (x = y)
      | _, _ => false
      end
  end.

(** [str(z)] for a Python integer. *)
Definition str_of_int (z : Z) : string := NilZero.string_of_int (Z.to_int z).

(** The integer a field of a file stands for, when it is written as an
    optional minus sign followed by decimal digits. *)
Definition int_of_str (s : string) : option Z :=
  Z.of_int <$> NilZero.int_of_string s.

(** What [to_csv] writes for a cell (its defaults: [na_rep=''], booleans as
    [True] and [False], integers in decimal, text as it is). *)
Definition to_text (v : scalar) : string :=
  match v with
  | PyStr s => s
  | PyInt z => str_of_int z
  | PyBool true => "True"
  | PyBool false => "False"
  | NaN => ""
  end.

(** ** Exceptions and results *)

Inductive label : Type :=
  | Column (name : string)
  | Row (i : Z).

(** The exceptions of the class and of the pandas calls it makes.
    [OutsideModel] is not a Python exception: it marks a pandas call whose
    outcome this model does not describe (see [pd.read_csv]). *)
Inductive exn : Type :=
  | FileNotFoundError (path : string)
  | ValueError
  | IndexError (idx : Z)
  | KeyError (k : label)
  | EmptyDataError
  | UnboundLocalError
  | TypeError
  | OutsideModel.

Inductive result (A : Type) : Type :=
  | Ok (a : A)
  | Raise (e : exn).
Arguments Ok {A} a.
Arguments Raise {A} e.

(** The names the specification gives to the failures of the class. *)
Definition NotFoundError (path : string) : exn := FileNotFoundError path.
Definition SchemaMismatchError : exn := ValueError.
Definition EmptyTableError : exn := ValueError.
Definition IndexOutOfRangeError (idx : Z) : exn := IndexError idx.
Definition KeyNotFoundError (key : string) : exn := KeyError (Column key).

(** ** Data frames *)

(** A data frame: its column names in order, and its rows in order, each row
    with its label (the row index of pandas) and one cell per column.

    A column of pandas also has a type, and a value of another type that
    joins the column can change how its other cells are stored: integers
    become floats when a float or [NaN] joins them.  The model has no floats
    and does not follow this: a cell keeps the scalar it was given, as it
    does in pandas in a column of type [object].  The functions that join a
    value to a column, [pd.loc_setitem] and [pd.concat_ignore_index], are
    therefore exact on the cells where the value is of the kind of the cells
    the column holds (see [fits]), and the theorems that give the cells of
    a table after [register] or [update] are stated there. *)
Record DataFrame : Type := {
  columns : list string;
  rows : list (Z * list scalar)
}.

(** [df.index.to_list()] and the cell values without the labels. *)
Definition index (d : DataFrame) : list Z := (rows d).*1.
Definition values (d : DataFrame) : list (list scalar) := (rows d).*2.

(** The labels [0, 1, ..., n-1] of a fresh [RangeIndex]. *)
Definition range_index (n : nat) : list Z := Z.of_nat <$> seq 0 n.

Definition relabel (cells : list (list scalar)) : list (Z * list scalar) :=
  zip (range_index (length cells)) cells.

(** The text of a CSV file after the quoting of the csv dialect is undone:
    one record per line, one field per comma-separated item. *)
Abbreviation csv_text := (list (list string)).

Module pd.

(** [pd.DataFrame([], columns=names)] *)
Definition DataFrame_empty (names : list string) : DataFrame :=
  {| columns := names; rows := [] |}.

(** [pd.DataFrame({k: [v], ...}, columns=tuple(keys))]: one row, labelled
    [0], the columns in the order of the keys. *)
Definition DataFrame_one_row (kv : list (string * scalar)) : DataFrame :=
  {| columns := kv.*1; rows := [(0, kv.*2)] |}.

(** The position of a column name, the first one when it is repeated. *)
Fixpoint get_loc (key : string) (names : list string) : option nat :=
  match names with
  | [] => None
  | name :: rest =>
      if decide (name = key) then Some 0%nat else S <$> get_loc key rest
  end.

(** The cell of a row under a column name; [NaN] when the row's frame has
    no such column. *)
Definition cell (names : list string) (cells : list scalar) (key : string)
  : scalar :=
  default NaN (i ← get_loc key names; cells !! i).

(** A row of frame [d] laid out along the columns [names]. *)
Definition reindex_row (names : list string) (d : DataFrame)
    (cells : list scalar) : list scalar :=
  (cell (columns d) cells) <$> names.

(** [pd.concat([a, b], ignore_index=True)]: the columns of [a] followed by
    those of [b] that [a] lacks, the rows of [a] followed by those of [b],
    each laid out along the joint columns, relabelled from [0].

    The cells are kept as they are.  In pandas that holds when the cells
    that meet in a column are of one kind; integers that meet [NaN] become
    floats. *)
Definition concat_ignore_index (a b : DataFrame) : DataFrame :=
  let names :=
    columns a ++ filter (λ c, c ∉ columns a) (columns b) in
  {| columns := names;
     rows := relabel ((reindex_row names a <$> values a)
                      ++ (reindex_row names b <$> values b)) |}.

(** [d.drop(idx)]: every row labelled [idx] goes; [KeyError] when there is
    none. *)
Definition drop (idx : Z) (d : DataFrame) : result DataFrame :=
  if decide (idx ∈ index d)
  then Ok {| columns := columns d;
             rows := filter (λ r, r.1 ≠ idx) (rows d) |}
  else Raise (KeyError (Row idx)).

(** [d.reset_index(drop=True)] *)
Definition reset_index (d : DataFrame) : DataFrame :=
  {| columns := columns d; rows := relabel (values d) |}.

(** [d[key]]: the labelled cells of one column; [KeyError] when [key] is
    not a column. *)
Definition getitem (key : string) (d : DataFrame)
  : result (list (Z * scalar)) :=
  match get_loc key (columns d) with
  | Some i => Ok ((λ r, (r.1, default NaN (r.2 !! i))) <$> rows d)
  | None => Raise (KeyError (Column key))
  end.

(** [series == value]: one boolean per row. *)
Definition eq_mask (series : list (Z * scalar)) (value : scalar)
  : list bool :=
  (λ c, py_eq c.2 value) <$> series.

(** [d[mask]]: the rows whose mask entry is [True], with their labels. *)
Definition getitem_mask (mask : list bool) (d : DataFrame) : DataFrame :=
  {| columns := columns d;
     rows := (filter (λ p, p.1 = true) (zip mask (rows d))).*2 |}.

(** [d.loc[row_index, key] = value].  A cell that exists is replaced.  A
    label that no row has makes pandas append a row with that label, [NaN]
    in its other cells; a name that no column has makes it append a
    column, [NaN] in its other cells.

    The other cells are kept as they are.  In pandas that holds when no
    column changes its type: when [value] is of the kind of the cells of
    its column and, for a row that is appended, when no column holds
    integers or booleans, which the [NaN] of the new row would turn into
    floats or objects. *)
Definition loc_setitem (row_index : Z) (key : string) (value : scalar)
    (d : DataFrame) : DataFrame :=
  let widened :=
    if decide (key ∈ columns d) then d
    else {| columns := columns d ++ [key];
            rows := (λ r, (r.1, r.2 ++ [NaN])) <$> rows d |} in
  let i := default 0%nat (get_loc key (columns widened)) in
  if decide (row_index ∈ index widened)
  then {| columns := columns widened;
          rows := (λ r, if decide (r.1 = row_index)
                        then (r.1, <[i := value]> r.2) else r)
                  <$> rows widened |}
  else {| columns := columns widened;
          rows := rows widened ++
            [(row_index,
              <[i := value]> (replicate (length (columns widened)) NaN))] |}.

(** [d.to_csv(path, index=False)]: the header, then one record per row. *)
Definition to_csv (d : DataFrame) : csv_text :=
  columns d :: ((λ cells : list scalar, to_text <$> cells) <$> values d).

(** *** Reading a file back

    [pd.read_csv(path)] with its defaults.  The first record that is not
    blank is the header, every later one a row; each column then gets the
    first type, of [int64], [float64], [bool], [object], that all its
    fields parse as.  The model answers where that outcome does not depend
    on the pandas version, and answers [OutsideModel] elsewhere:
    - a record of one field made of spaces and tabs only (pandas skips the
      line when the field was written without quotes);
    - a header with an empty name, or with a repeated name whose new name
      is already a name of the header;
    - a row with more or fewer fields than the header;
    - a column that is neither all integers of the signed 64-bit range,
      nor all booleans, nor all plain text: text that starts with a letter
      and is not a word pandas reads as a missing value, a boolean or a
      number (so floats, missing values, dates and mixed columns are left
      out). *)

Definition is_space (c : ascii) : bool :=
  bool_decide (c = " "%char) || bool_decide (c = "009"%char).

Definition whitespace_line (record : list string) : bool :=
  match record with
  | [field] =>
      bool_decide (field ≠ "")
      && forallb is_space (list_ascii_of_string field)
  | _ => false
  end.

(** The renaming of repeated header names: the second [a] becomes [a.1],
    the third [a.2], and so on; [seen] holds the names met so far. *)
Fixpoint dedup_names (header seen names : list string)
  : option (list string) :=
  match names with
  | [] => Some []
  | col :: rest =>
      let cur_count := length (filter (λ c, c = col) seen) in
      if decide (cur_count = 0%nat)
      then (col ::.) <$> dedup_names header (col :: seen) rest
      else
        let renamed := col +:+ "." +:+ str_of_int (Z.of_nat cur_count) in
        if decide (renamed ∈ header) then None
        else (renamed ::.) <$> dedup_names header (col :: seen) rest
  end.

Inductive dtype : Type := int64 | bool_ | object.

#[global] Instance dtype_eq_dec : EqDecision dtype.
Proof. solve_decision. Defined.

Definition in_int64 (z : Z) : bool :=
  bool_decide (- 2 ^ 63 ≤ z < 2 ^ 63).

Definition is_int64_literal (field : string) : bool :=
  match int_of_str field with
  | Some z => in_int64 z
  | None => false
  end.

Definition bool_of_str (field : string) : option bool :=
  if decide (field ∈ ["True"; "TRUE"; "true"]) then Some true
  else if decide (field ∈ ["False"; "FALSE"; "false"]) then Some false
  else None.

Definition is_bool_literal (field : string) : bool :=
  bool_decide (is_Some (bool_of_str field)).

Definition is_upper (c : ascii) : bool :=
  (65 <=? nat_of_ascii c)%nat && (nat_of_ascii c <=? 90)%nat.

Definition is_letter (c : ascii) : bool :=
  is_upper c || (97 <=? nat_of_ascii c)%nat && (nat_of_ascii c <=? 122)%nat.

Definition to_lower (c : ascii) : ascii :=
  if is_upper c then ascii_of_nat (nat_of_ascii c + 32) else c.

Fixpoint lower (s : string) : string :=
  match s with
  | EmptyString => EmptyString
  | String c rest => String (to_lower c) (lower rest)
  end.

(** The words that start with a letter and that pandas, in some spelling,
    reads as a missing value, a boolean or a float. *)
Definition reserved_words : list string :=
  ["na"; "n/a"; "nan"; "null"; "none"; "true"; "false"; "inf"; "infinity"].

Definition plain_text (field : string) : bool :=
  match field with
  | EmptyString => false
  | String c _ => is_letter c && bool_decide (lower field ∉ reserved_words)
  end.

(** The type of a column from its fields; a column without fields is of
    type [object]. *)
Definition infer_dtype (fields : list string) : option dtype :=
  match fields with
  | [] => Some object
  | _ =>
      if forallb is_int64_literal fields then Some int64
      else if forallb is_bool_literal fields then Some bool_
      else if forallb plain_text fields then Some object
      else None
  end.

Definition parse (t : dtype) (field : string) : scalar :=
  match t with
  | int64 => PyInt (default 0 (int_of_str field))
  | bool_ => PyBool (default false (bool_of_str field))
  | object => PyStr field
  end.

(** The fields of column [j] of the rows of a file. *)
Definition column_fields (body : csv_text) (j : nat) : list string :=
  (λ record : list string, default "" (record !! j)) <$> body.

Definition read_csv (text : csv_text) : result DataFrame :=
  if existsb whitespace_line text then Raise OutsideModel
  else
    match filter (λ record, record ≠ []) text with
    | [] => Raise EmptyDataError
    | header :: body =>
        if decide ("" ∈ header) then Raise OutsideModel
        else if negb (forallb (λ record : list string,
                        bool_decide (length record = length header)) body)
        then Raise OutsideModel
        else
          match dedup_names header [] header,
                mapM (λ j, infer_dtype (column_fields body j))
                     (seq 0 (length header)) with
          | Some names, Some dtypes =>
              Ok {| columns := names;
                    rows := relabel (zip_with parse dtypes <$> body) |}
          | _, _ => Raise OutsideModel
          end
    end.

End pd.

(** ** The world of the program

    Data frames are mutable objects: the heap holds them, and a variable
    holds a reference, the position of its frame in the heap.  The disk maps
    a path to the text of the file there.  [written] lists the paths that
    [to_csv] wrote, the latest first. *)

Record World : Type := {
  heap : list DataFrame;
  disk : gmap string csv_text;
  written : list string
}.

(** The frame behind a reference. *)
Definition deref (w : World) (ref : nat) : DataFrame :=
  default (pd.DataFrame_empty []) (heap w !! ref).

(** A new object; its reference is returned. *)
Definition alloc (d : DataFrame) (w : World) : nat * World :=
  (length (heap w),
   {| heap := heap w ++ [d]; disk := disk w; written := written w |}).

(** An object changed in place. *)
Definition store (ref : nat) (d : DataFrame) (w : World) : World :=
  {| heap := <[ref := d]> (heap w); disk := disk w; written := written w |}.

(** The modes a file is written in: ["w"] replaces what the file held,
    ["a"] adds to its end. *)
Inductive mode : Type := mode_w | mode_a.

Definition write_file (m : mode) (path : string) (text : csv_text) (w : World)
  : World :=
  {| heap := heap w;
     disk := <[path := match m with
                        | mode_w => text
                        | mode_a => default [] (disk w !! path) ++ text
                        end]> (disk w);
     written := path :: written w |}.

(** The attributes of one [CSVConnector] object. *)
Record Self : Type := {
  self_csv : string;   (* self.__csv *)
  self_df : nat        (* self.__df, a reference *)
}.

(** A method body: it runs on the object and the world, may change both, and
    returns a value or raises; what it changed before raising stays. *)
Definition M (A : Type) : Type := Self * World → result A * (Self * World).

#[global] Instance M_ret : MRet M := λ A a st, (Ok a, st).
#[global] Instance M_bind : MBind M := λ A B k m st,
  match m st with
  | (Ok a, st') => k a st'
  | (Raise e, st') => (Raise e, st')
  end.

Definition raise {A} (e : exn) : M A := λ st, (Raise e, st).
Definition get_self : M Self := λ st, (Ok st.1, st).
Definition get_world : M World := λ st, (Ok st.2, st).
Definition set_df (ref : nat) : M unit :=
  λ st, (Ok (), ({| self_csv := self_csv st.1; self_df := ref |}, st.2)).
Definition modify_world (f : World → World) : M unit :=
  λ st, (Ok (), (st.1, f st.2)).
Definition new_object (d : DataFrame) : M nat :=
  λ st, let '(ref, w) := alloc d st.2 in (Ok ref, (st.1, w)).
Definition lift {A} (r : result A) : M A := λ st, (r, st).

(** ** The class *)

Module CSVConnector.

(** [min(idx)] and [max(idx)] on a list that is not empty. *)
Definition py_min (l : list Z) : Z :=
  match l with
  | [] => 0
  | x :: rest => foldl Z.min x rest
  end.

Definition py_max (l : list Z) : Z :=
  match l with
  | [] => 0
  | x :: rest => foldl Z.max x rest
  end.

(** [pd.read_csv(self.__csv)]: a new frame from the file. *)
Definition __read_csv : M nat :=
  self ← get_self;
  w ← get_world;
  match disk w !! self_csv self with
  | None => raise (FileNotFoundError (self_csv self))
  | Some text => d ← lift (pd.read_csv text); new_object d
  end.

(** [frame.to_csv(path, mode=m, index=False)] *)
Definition to_csv (frame : nat) (path : string) (m : mode) : M unit :=
  modify_world (λ w, write_file m path (pd.to_csv (deref w frame)) w).

(** [__write_csv(mode)]: the whole frame goes to the file; the frame
    itself, not a copy, is returned.  Every call in the class leaves [mode]
    at its default, ["w"]. *)
Definition __write_csv (m : mode) : M nat :=
  self ← get_self;
  to_csv (self_df self) (self_csv self) m;;
  mret (self_df self).

(** [__reset_index]: the rows are relabelled in place. *)
Definition __reset_index : M nat :=
  self ← get_self;
  modify_world (λ w,
    store (self_df self) (pd.reset_index (deref w (self_df self))) w);;
  mret (self_df self).

(** [frame.copy()]: a new object with the same content. *)
Definition copy (frame : nat) : M nat :=
  w ← get_world;
  new_object (deref w frame).

(** [__init__(csv_file, initial_keys)].  [initial_keys] is [None] when the
    argument is left out; [not initial_keys] holds for [None] and for an
    empty list. *)
Definition __init__ (csv_file : string) (initial_keys : option (list string))
    (w : World) : result Self * World :=
  let created : result unit * World :=
    match disk w !! csv_file with
    | Some _ => (Ok (), w)
    | None =>
        match initial_keys with
        | None | Some [] => (Raise (FileNotFoundError csv_file), w)
        | Some keys =>
            let '(initial_dataframe, w1) :=
              alloc (pd.DataFrame_empty keys) w in
            (Ok (),
             write_file mode_w csv_file
               (pd.to_csv (deref w1 initial_dataframe)) w1)
        end
    end in
  match created with
  | (Raise e, w1) => (Raise e, w1)
  | (Ok _, w1) =>
      (* [self.__df] is not bound yet; [__read_csv] does not read it *)
      let unset := {| self_csv := csv_file; self_df := length (heap w1) |} in
      match __read_csv (unset, w1) with
      | (Ok ref, (_, w2)) =>
          (Ok {| self_csv := csv_file; self_df := ref |}, w2)
      | (Raise e, (_, w2)) => (Raise e, w2)
      end
  end.

(** [read()] *)
Definition read : M nat :=
  self ← get_self;
  copy (self_df self).

(** [get_filtered_dataframe_with_key(key, value)] *)
Definition get_filtered_dataframe_with_key (key : string) (value : scalar)
  : M nat :=
  self ← get_self;
  w ← get_world;
  series ← lift (pd.getitem key (deref w (self_df self)));
  selected ← new_object
    (pd.getitem_mask (pd.eq_mask series value) (deref w (self_df self)));
  copy selected.

(** The keyword arguments Python can bind to the parameters
    [self, **key_and_values] of [register].  A keyword named [self] meets
    the parameter of that name, which the object already fills, and a name
    given twice (by two unpacked dictionaries; written out twice, the call
    does not compile) would get two values. *)
Definition keywords_ok (key_and_values : list (string * scalar)) : Prop :=
  ("self" ∉ key_and_values.*1) ∧ NoDup key_and_values.*1.

#[global] Instance keywords_ok_dec (key_and_values : list (string * scalar)) :
  Decision (keywords_ok key_and_values).
Proof. unfold keywords_ok. apply _. Defined.

(** [register], called with keyword arguments; [key_and_values] holds
    them in the order given.  Keywords that cannot be bound make the call
    raise [TypeError] before the body runs. *)
Definition register (key_and_values : list (string * scalar)) : M nat :=
  if decide (keywords_ok key_and_values) then
    self ← get_self;
    w ← get_world;
    if decide ((list_to_set key_and_values.*1 : gset string)
               ≠ list_to_set (columns (deref w (self_df self))))
    then raise ValueError
    else
      new_row ← new_object (pd.DataFrame_one_row key_and_values);
      w ← get_world;
      joined ← new_object
        (pd.concat_ignore_index (deref w (self_df self)) (deref w new_row));
      set_df joined;;
      __write_csv mode_w;;
      read
  else raise TypeError.

(** The loop [for idx in row_index: self.__df.drop(idx, inplace=True)].
    [idx] is the loop variable: unbound before the first round, and still
    bound to its last value when the loop ends or raises. *)
Fixpoint drop_each (row_index : list Z) (idx : option Z) (st : Self * World)
  : option Z * (result unit * (Self * World)) :=
  match row_index with
  | [] => (idx, (Ok (), st))
  | i :: rest =>
      match pd.drop i (deref st.2 (self_df st.1)) with
      | Ok d => drop_each rest (Some i) (st.1, store (self_df st.1) d st.2)
      | Raise e => (Some i, (Raise e, st))
      end
  end.

(** [delete], called with any number of row labels. *)
Definition delete (row_index : list Z) : M nat := λ st,
  let '(idx, tried) :=
    match drop_each row_index None st with
    | (idx, (Ok _, st1)) =>
        (idx, (__reset_index;; __write_csv mode_w;; mret ()) st1)
    | (idx, (Raise e, st1)) => (idx, (Raise e, st1))
    end in
  match tried with
  | (Raise (KeyError _), st1) =>
      match idx with
      | Some i => (Raise (IndexError i), st1)
      | None => (Raise UnboundLocalError, st1)
      end
  | (Raise e, st1) => (Raise e, st1)
  | (Ok _, st1) => read st1
  end.

(** [update(row_index, key, value)] *)
Definition update (row_index : Z) (key : string) (value : scalar) : M nat :=
  self ← get_self;
  w ← get_world;
  let idx := index (deref w (self_df self)) in
  let cols := columns (deref w (self_df self)) in
  if decide (length idx = 0%nat) then raise ValueError
  else if negb (bool_decide (py_min idx ≤ row_index)
                && bool_decide (row_index ≤ py_max idx))
  then raise (IndexError row_index)
  else if decide (key ∉ cols) then raise (KeyError (Column key))
  else
    modify_world (λ w,
      store (self_df self)
            (pd.loc_setitem row_index key value (deref w (self_df self))) w);;
    __write_csv mode_w;;
    read.

End CSVConnector.

Import CSVConnector.

(** ** Reading a state *)

(** The table in memory: the frame [self.__df] refers to. *)
Definition table (st : Self * World) : DataFrame := deref st.2 (self_df st.1).

(** The backing file, if there is one. *)
Definition file (st : Self * World) : option csv_text :=
  disk st.2 !! self_csv st.1.

(** What every data frame of pandas satisfies when its column names and its
    row labels are distinct: each row has one cell per column. *)
Record frame_ok (d : DataFrame) : Prop := {
  columns_distinct : NoDup (columns d);
  labels_distinct : NoDup (index d);
  rows_full : Forall (λ r, length r.2 = length (columns d)) (rows d)
}.

(** The connector's reference points into the heap. *)
Definition allocated (st : Self * World) : Prop :=
  (self_df st.1 < length (heap st.2))%nat.

(** A state of a live connector: its reference points into the heap, at a
    frame as above. *)
Record state_ok (st : Self * World) : Prop := {
  df_allocated : allocated st;
  df_ok : frame_ok (table st)
}.

(** [ref] is a copy made by a call that started in [st] and ended in [st']:
    an object that did not exist before, different from the connector's own
    frame, with the content of that frame. *)
Definition fresh_copy (st st' : Self * World) (ref : nat) : Prop :=
  (length (heap st.2) ≤ ref)%nat
  ∧ ref ≠ self_df st'.1
  ∧ heap st'.2 !! ref = Some (table st').

(** The call that took [st] to [st'] wrote the whole table to the backing
    file, once. *)
Definition rewrote_file (st st' : Self * World) : Prop :=
  file st' = Some (pd.to_csv (table st'))
  ∧ written st'.2 = self_csv st.1 :: written st.2
  ∧ self_csv st'.1 = self_csv st.1.

(** Two states used to try the theorems: a table of three rows and an empty
    one, each in step with its file. *)
Definition three_rows : DataFrame :=
  {| columns := ["name"; "age"];
     rows := [(0, [PyStr "ann"; PyInt 31]);
              (1, [PyStr "bob"; PyInt 27]);
              (2, [PyStr "cy"; PyInt 45])] |}.

Definition demo : Self * World :=
  ({| self_csv := "people.csv"; self_df := 0 |},
   {| heap := [three_rows];
      disk := {[ "people.csv" := pd.to_csv three_rows ]};
      written := [] |}).

Definition demo_empty : Self * World :=
  ({| self_csv := "people.csv"; self_df := 0 |},
   {| heap := [pd.DataFrame_empty ["name"; "age"]];
      disk := {[ "people.csv" := [["name"; "age"]] ]};
      written := [] |}).

(** The rows of a frame, in order and with their labels, whose cell under
    [key] is [== value]. *)
Definition rows_equal_to (key : string) (value : scalar) (d : DataFrame)
  : DataFrame :=
  {| columns := columns d;
     rows := filter (λ r, py_eq (pd.cell (columns d) r.2 key) value = true)
                    (rows d) |}.

(** Column names that a header line gives back as they are: there is one at
    least, they are pairwise distinct, none is empty, and they are not one
    single name made of blanks. *)
Record header_ok (names : list string) : Prop := {
  names_some : names ≠ [];
  names_distinct : NoDup names;
  names_filled : "" ∉ names;
  names_visible : pd.whitespace_line names = false
}.



(** A world without objects and files. *)
Definition empty_world : World := {| heap := []; disk := ∅; written := [] |}.

(** The least and the greatest label of a list of labels. *)
Definition least (lo : Z) (l : list Z) : Prop := lo ∈ l ∧ ∀ y, y ∈ l → lo ≤ y.
Definition greatest (hi : Z) (l : list Z) : Prop :=
  hi ∈ l ∧ ∀ y, y ∈ l → y ≤ hi.

(** Every object that was in the heap of [st], the connector's own frame
    apart, is in the heap of [st'] as it was. *)
Definition others_kept (st st' : Self * World) : Prop :=
  ∀ ref, (ref < length (heap st.2))%nat → ref ≠ self_df st.1 →
         heap st'.2 !! ref = heap st.2 !! ref.

(** The backing file holds the table. *)
Definition in_step (st : Self * World) : Prop :=
  file st = Some (pd.to_csv (table st)).

(** The rows are labelled [0, 1, ..., n-1], in order. *)
Definition contiguous (d : DataFrame) : Prop :=
  index d = range_index (length (rows d)).

(** A mutating method writes through: a call that returns leaves the file
    holding the table, written once, and returns a copy; a call that raises
    writes nothing. *)
Definition writes_through (method : M nat) (st : Self * World) : Prop :=
  (∀ ref st', method st = (Ok ref, st') →
     in_step st'
     ∧ written st'.2 = self_csv st.1 :: written st.2
     ∧ self_csv st'.1 = self_csv st.1
     ∧ fresh_copy st st' ref)
  ∧ (∀ e st', method st = (Raise e, st') →
       disk st'.2 = disk st.2 ∧ written st'.2 = written st.2
       ∧ self_csv st'.1 = self_csv st.1).

(** The table of three rows after a [delete(1, 7)] that failed at [7]: row
    [1] is gone from memory, the labels are not renumbered, and the file
    still holds the three rows. *)
Definition demo_hole : Self * World :=
  ({| self_csv := "people.csv"; self_df := 0 |},
   {| heap := [{| columns := ["name"; "age"];
                  rows := [(0, [PyStr "ann"; PyInt 31]);
                           (2, [PyStr "cy"; PyInt 45])] |}];
      disk := {[ "people.csv" := pd.to_csv three_rows ]};
      written := [] |}).

(** How a call of a mutating method ends.  It raises before anything is
    written, with at most the connector's own frame changed in memory and
    the columns of that frame kept; or it reaches the common end,
    [__write_csv] followed by [read], on a state whose frame has the columns
    of the table, the disk and the earlier objects being as they were; the
    frame is the one the connector had or a new object. *)
Inductive ending (st : Self * World) (out : result nat * (Self * World))
  : Prop :=
  | raised (e : exn) (w' : World) :
      out = (Raise e, (st.1, w')) →
      disk w' = disk st.2 → written w' = written st.2 →
      length (heap w') = length (heap st.2) →
      (∀ ref, ref ≠ self_df st.1 → heap w' !! ref = heap st.2 !! ref) →
      columns (deref w' (self_df st.1)) = columns (table st) →
      ending st out
  | reached (self' : Self) (w' : World) :
      out = (__write_csv mode_w;; read) (self', w') →
      self_csv self' = self_csv st.1 →
      (self_df self' < length (heap w'))%nat →
      self_df self' = self_df st.1
      ∨ (length (heap st.2) ≤ self_df self')%nat →
      (length (heap st.2) ≤ length (heap w'))%nat →
      disk w' = disk st.2 → written w' = written st.2 →
      (∀ ref, (ref < length (heap st.2))%nat → ref ≠ self_df st.1 →
              heap w' !! ref = heap st.2 !! ref) →
      columns (deref w' (self_df self')) = columns (table st) →
      ending st out.

(** ** Values that fit a column

    A column of pandas has one type, and a value of another type that is
    stored in it or joined to it changes how the column is held: integers
    become floats when [NaN] joins them, a column of integers or booleans
    becomes a column of objects when text joins it, and a recent pandas
    refuses such a store with [TypeError].  None of that happens when the
    value is of the kind of every cell the column holds. *)

Inductive kind : Type := kind_text | kind_int | kind_bool.

#[global] Instance kind_eq_dec : EqDecision kind.
Proof. solve_decision. Defined.

Definition kind_of (v : scalar) : option kind :=
  match v with
  | PyStr _ => Some kind_text
  | PyInt _ => Some kind_int
  | PyBool _ => Some kind_bool
  | NaN => None
  end.

(** The values a typed column takes: text, booleans and the integers of the
    signed 64-bit range; not the missing value. *)
Definition storable (v : scalar) : bool :=
  match v with
  | PyInt z => pd.in_int64 z
  | PyStr _ | PyBool _ => true
  | NaN => false
  end.

(** [v] fits the column [key] of [d]: it is such a value, and every cell of
    the column is of its kind. *)
Definition fits (key : string) (v : scalar) (d : DataFrame) : Prop :=
  storable v = true
  ∧ Forall (λ r, kind_of (pd.cell (columns d) r.2 key) = kind_of v) (rows d).

(** Every value of a mapping fits the column it is given for. *)
Definition row_fits (kv : list (string * scalar)) (d : DataFrame) : Prop :=
  Forall (λ p, fits p.1 p.2 d) kv.

(** No cell of the frame is an integer or a boolean: a row of [NaN] can be
    appended without any column changing its type. *)
Definition textual (v : scalar) : bool :=
  match v with
  | PyStr _ | NaN => true
  | PyInt _ | PyBool _ => false
  end.

Definition holds_text (d : DataFrame) : Prop :=
  Forall (λ r, Forall (λ c, textual c = true) r.2) (rows d).

(** A table with a column named [self], in step with its file. *)
Definition demo_self : Self * World :=
  ({| self_csv := "notes.csv"; self_df := 0 |},
   {| heap := [{| columns := ["self"; "note"];
                  rows := [(0, [PyStr "me"; PyStr "hello"])] |}];
      disk := {[ "notes.csv" := [["self"; "note"]; ["me"; "hello"]] ]};
      written := [] |}).

(** A table of text after a [delete(1, 7)] that failed at [7]: row [1] is
    gone from memory, the labels are not renumbered, and the file still
    holds the three rows. *)
Definition demo_text_hole : Self * World :=
  ({| self_csv := "towns.csv"; self_df := 0 |},
   {| heap := [{| columns := ["name"; "town"];
                  rows := [(0, [PyStr "ann"; PyStr "york"]);
                           (2, [PyStr "cy"; PyStr "bath"])] |}];
      disk := {[ "towns.csv" := [["name"; "town"]; ["ann"; "york"];
                                 ["bob"; "leeds"]; ["cy"; "bath"]] ]};
      written := [] |}).

(** ** Lemmas on the heap *)

Ltac run :=
  unfold update, register, delete, read, get_filtered_dataframe_with_key,
    __write_csv, __reset_index, __read_csv, copy, to_csv,
    raise, get_self, get_world, set_df, modify_world, new_object, lift,
    mbind, M_bind, mret, M_ret; simpl; cbn [fst snd].

Lemma deref_store (w : World) (ref : nat) (d : DataFrame) :
  (ref < length (heap w))%nat → deref (store ref d w) ref = d.
Proof.
  intros Hlt. unfold deref, store. simpl.
  by rewrite list_lookup_insert_eq.
Qed.

Lemma deref_alloc_new (w : World) (d : DataFrame) :
  deref {| heap := heap w ++ [d]; disk := disk w; written := written w |}
        (length (heap w)) = d.
Proof.
  unfold deref. simpl.
  rewrite lookup_app_r; [|lia]. by rewrite Nat.sub_diag.
Qed.

Lemma deref_alloc_old (w : World) (d : DataFrame) (ref : nat) :
  (ref < length (heap w))%nat →
  deref {| heap := heap w ++ [d]; disk := disk w; written := written w |} ref
  = deref w ref.
Proof.
  intros Hlt. unfold deref. simpl. by rewrite lookup_app_l.
Qed.

Lemma deref_grown (w : World) (more : list DataFrame)
    (files : gmap string csv_text) (log : list string) (ref : nat) :
  (ref < length (heap w))%nat →
  deref {| heap := heap w ++ more; disk := files; written := log |} ref
  = deref w ref.
Proof.
  intros Hlt. unfold deref. simpl. by rewrite lookup_app_l.
Qed.

Lemma lookup_deref (w : World) (ref : nat) :
  (ref < length (heap w))%nat → heap w !! ref = Some (deref w ref).
Proof.
  intros Hlt. unfold deref.
  destruct (lookup_lt_is_Some_2 (heap w) ref Hlt) as [d ->]. done.
Qed.

(** ** [min] and [max] *)

Lemma foldl_min_spec (l : list Z) (x : Z) :
  (foldl Z.min x l = x ∨ foldl Z.min x l ∈ l)
  ∧ foldl Z.min x l ≤ x ∧ ∀ y, y ∈ l → foldl Z.min x l ≤ y.
Proof.
  revert x. induction l as [|a l IH]; intros x; simpl.
  - split; [by left|]. split; [lia|]. intros y Hy. by apply elem_of_nil in Hy.
  - destruct (IH (Z.min x a)) as (Hin & Hle & Hall).
    split; [|split].
    + destruct Hin as [->|Hin].
      * destruct (Z.min_spec x a) as [[_ ->]|[_ ->]]; [by left|right; left].
      * right. by right.
    + lia.
    + intros y [->|Hy]%elem_of_cons; [lia|by apply Hall].
Qed.

Lemma foldl_max_spec (l : list Z) (x : Z) :
  (foldl Z.max x l = x ∨ foldl Z.max x l ∈ l)
  ∧ x ≤ foldl Z.max x l ∧ ∀ y, y ∈ l → y ≤ foldl Z.max x l.
Proof.
  revert x. induction l as [|a l IH]; intros x; simpl.
  - split; [by left|]. split; [lia|]. intros y Hy. by apply elem_of_nil in Hy.
  - destruct (IH (Z.max x a)) as (Hin & Hle & Hall).
    split; [|split].
    + destruct Hin as [->|Hin].
      * destruct (Z.max_spec x a) as [[_ ->]|[_ ->]]; [right; left|by left].
      * right. by right.
    + lia.
    + intros y [->|Hy]%elem_of_cons; [lia|by apply Hall].
Qed.

(** [py_min l] is the least element of a list that is not empty. *)
Lemma py_min_least (l : list Z) :
  l ≠ [] → py_min l ∈ l ∧ ∀ y, y ∈ l → py_min l ≤ y.
Proof.
  destruct l as [|x l]; [done|]. intros _. simpl.
  destruct (foldl_min_spec l x) as (Hin & Hle & Hall). split.
  - destruct Hin as [->|Hin]; [left|by right].
  - intros y [->|Hy]%elem_of_cons; [done|by apply Hall].
Qed.

(** [py_max l] is the greatest element of a list that is not empty. *)
Lemma py_max_greatest (l : list Z) :
  l ≠ [] → py_max l ∈ l ∧ ∀ y, y ∈ l → y ≤ py_max l.
Proof.
  destruct l as [|x l]; [done|]. intros _. simpl.
  destruct (foldl_max_spec l x) as (Hin & Hle & Hall). split.
  - destruct Hin as [->|Hin]; [left|by right].
  - intros y [->|Hy]%elem_of_cons; [done|by apply Hall].
Qed.

Lemma least_py_min (lo : Z) (l : list Z) : least lo l → lo = py_min l.
Proof.
  intros [Hin Hle].
  assert (l ≠ []) as Hne by (intros ->; by apply elem_of_nil in Hin).
  destruct (py_min_least l Hne) as [Hin' Hle'].
  specialize (Hle _ Hin'). specialize (Hle' _ Hin). lia.
Qed.

Lemma greatest_py_max (hi : Z) (l : list Z) : greatest hi l → hi = py_max l.
Proof.
  intros [Hin Hle].
  assert (l ≠ []) as Hne by (intros ->; by apply elem_of_nil in Hin).
  destruct (py_max_greatest l Hne) as [Hin' Hle'].
  specialize (Hle _ Hin'). specialize (Hle' _ Hin). lia.
Qed.

(** ** [update]: the checks *)

(** C3.  [update] raises [EmptyTableError] on a table without rows, whatever
    its arguments; on a table with rows it raises [IndexOutOfRangeError]
    when [row_index] is below the least or above the greatest row label;
    when neither holds it raises [KeyNotFoundError] for a [key] that is not
    a column.  The checks come in that order, and a call that fails one of
    them changes nothing. *)
Theorem update_checks_in_order (st : Self * World) (row_index : Z)
    (key : string) (value : scalar) :
  (rows (table st) = [] →
     update row_index key value st = (Raise EmptyTableError, st))
  ∧ (∀ lo hi,
       least lo (index (table st)) → greatest hi (index (table st)) →
       ¬ (lo ≤ row_index ≤ hi) →
       update row_index key value st
       = (Raise (IndexOutOfRangeError row_index), st))
  ∧ (∀ lo hi,
       least lo (index (table st)) → greatest hi (index (table st)) →
       lo ≤ row_index ≤ hi → key ∉ columns (table st) →
       update row_index key value st = (Raise (KeyNotFoundError key), st)).
Proof.
  destruct st as [self w]. unfold table. simpl. split; [|split].
  - intros Hrows. run. unfold index. rewrite Hrows. simpl.
    destruct (decide (0 = 0)%nat); done.
  - intros lo hi Hlo Hhi Hout. run.
    assert (index (deref w (self_df self)) ≠ []) as Hne.
    { destruct Hlo as [Hin _]. intros Heq. rewrite Heq in Hin.
      by apply elem_of_nil in Hin. }
    rewrite <- (least_py_min _ _ Hlo), <- (greatest_py_max _ _ Hhi).
    destruct (decide _) as [Hlen|_].
    { by apply nil_length_inv in Hlen. }
    destruct (bool_decide (lo ≤ row_index)) eqn:E1;
      destruct (bool_decide (row_index ≤ hi)) eqn:E2; simpl; try done.
    apply bool_decide_eq_true in E1, E2. lia.
  - intros lo hi Hlo Hhi Hin Hkey. run.
    assert (index (deref w (self_df self)) ≠ []) as Hne.
    { destruct Hlo as [Hin' _]. intros Heq. rewrite Heq in Hin'.
      by apply elem_of_nil in Hin'. }
    rewrite <- (least_py_min _ _ Hlo), <- (greatest_py_max _ _ Hhi).
    destruct (decide _) as [Hlen|_].
    { by apply nil_length_inv in Hlen. }
    rewrite !bool_decide_eq_true_2 by lia. simpl.
    destruct (decide _); done.
Qed.

(** The three failures of [update], on a table of no rows and on one of
    three. *)
Lemma update_checks_in_order_witness :
  update 0 "name" (PyStr "dan") demo_empty = (Raise EmptyTableError, demo_empty)
  ∧ update 3 "name" (PyStr "dan") demo
    = (Raise (IndexOutOfRangeError 3), demo)
  ∧ update 1 "town" (PyStr "york") demo
    = (Raise (KeyNotFoundError "town"), demo).
Proof.
  assert (least 0 (index (table demo))) as Hlo.
  { split; [by left|]. intros y Hy. vm_compute in Hy.
    repeat (apply elem_of_cons in Hy as [->|Hy]); try done.
    by apply elem_of_nil in Hy. }
  assert (greatest 2 (index (table demo))) as Hhi.
  { split; [by do 2 right; left|]. intros y Hy. vm_compute in Hy.
    repeat (apply elem_of_cons in Hy as [->|Hy]); try done.
    by apply elem_of_nil in Hy. }
  split; [|split].
  - by apply (update_checks_in_order demo_empty 0 "name" (PyStr "dan")).
  - apply (update_checks_in_order demo 3 "name" (PyStr "dan")) with 0 2;
      [done|done|lia].
  - apply (update_checks_in_order demo 1 "town" (PyStr "york")) with 0 2;
      [done|done|lia|].
    vm_compute. intros Hin.
    repeat (apply elem_of_cons in Hin as [Hin|Hin]; [done|]).
    by apply elem_of_nil in Hin.
Defined.

(** ** [register]: the check *)

(** [register] with keywords that cannot be bound. *)
Lemma register_unbound (st : Self * World)
    (key_and_values : list (string * scalar)) :
  ¬ keywords_ok key_and_values →
  register key_and_values st = (Raise TypeError, st).
Proof. intros Hnot. unfold register. by rewrite decide_False. Qed.

(** C5, for keyword arguments that Python can bind: names that are pairwise
    distinct, none of them [self].  [register] raises [SchemaMismatchError]
    as soon as one supplied name is not a column or one column is not
    supplied, and then leaves the object, the heap and the disk as they
    were. *)
Theorem register_rejects_other_keys (st : Self * World)
    (key_and_values : list (string * scalar)) :
  keywords_ok key_and_values →
  (∃ k, (k ∈ key_and_values.*1 ∧ k ∉ columns (table st))
        ∨ (k ∈ columns (table st) ∧ k ∉ key_and_values.*1)) →
  register key_and_values st = (Raise SchemaMismatchError, st).
Proof.
  intros Hbound [k Hk]. destruct st as [self w]. unfold table in Hk.
  simpl in Hk. unfold register. rewrite (decide_True _ _ Hbound).
  run. destruct (decide _) as [_|Heq]; [done|].
  exfalso. apply dec_stable in Heq.
  assert (k ∈ key_and_values.*1 ↔ k ∈ columns (deref w (self_df self))) as Hiff.
  { rewrite <- (elem_of_list_to_set (C := gset string)), Heq.
    apply elem_of_list_to_set. }
  tauto.
Qed.

(** A missing column ([age]) and an extra key ([town]). *)
Lemma register_rejects_other_keys_witness :
  register [("name", PyStr "dan")] demo = (Raise SchemaMismatchError, demo)
  ∧ register [("name", PyStr "dan"); ("age", PyInt 5); ("town", PyStr "york")]
      demo = (Raise SchemaMismatchError, demo).
Proof.
  split.
  - apply (register_rejects_other_keys demo [("name", PyStr "dan")]).
    { compute_done. }
    exists "age". right. split; vm_compute.
    + by right; left.
    + intros Hin. apply elem_of_cons in Hin as [Hin|Hin]; [done|].
      by apply elem_of_nil in Hin.
  - apply (register_rejects_other_keys demo
             [("name", PyStr "dan"); ("age", PyInt 5); ("town", PyStr "york")]).
    { compute_done. }
    exists "town". left. split; vm_compute.
    + by do 2 right; left.
    + intros Hin. repeat (apply elem_of_cons in Hin as [Hin|Hin]; [done|]).
      by apply elem_of_nil in Hin.
Defined.

(** C5 as it is written fails for a keyword named [self]: the names given
    are not the columns, but Python raises [TypeError] when it binds the
    arguments and the check of the names is not reached. *)
Lemma register_keyword_self :
  let key_and_values :=
    [("name", PyStr "dan"); ("age", PyInt 5); ("self", PyInt 1)] in
  ("self" ∈ key_and_values.*1 ∧ "self" ∉ columns (table demo))
  ∧ register key_and_values demo = (Raise TypeError, demo)
  ∧ register key_and_values demo ≠ (Raise SchemaMismatchError, demo).
Proof.
  split; [split|split].
  - vm_compute. by do 2 right; left.
  - vm_compute. intros Hin.
    repeat (apply elem_of_cons in Hin as [Hin|Hin]; [done|]).
    by apply elem_of_nil in Hin.
  - vm_compute. reflexivity.
  - vm_compute. discriminate.
Qed.

(** ** Relabelling and the common end of the mutating methods *)

Lemma length_range_index (n : nat) : length (range_index n) = n.
Proof. unfold range_index. by rewrite length_fmap, length_seq. Qed.

Lemma relabel_index (cells : list (list scalar)) :
  (relabel cells).*1 = range_index (length cells).
Proof. unfold relabel. apply fst_zip. by rewrite length_range_index. Qed.

Lemma relabel_values (cells : list (list scalar)) : (relabel cells).*2 = cells.
Proof. unfold relabel. apply snd_zip. by rewrite length_range_index. Qed.

Lemma length_relabel (cells : list (list scalar)) :
  length (relabel cells) = length cells.
Proof. by rewrite <- (length_fmap snd), relabel_values. Qed.

(** Relabelling rows that already carry [0, 1, ..., n-1] changes nothing. *)
Lemma relabel_range (d : DataFrame) :
  index d = range_index (length (rows d)) → relabel (values d) = rows d.
Proof.
  intros Hidx. unfold relabel, values.
  rewrite length_fmap, <- Hidx. apply zip_fst_snd.
Qed.

Lemma range_index_S (n : nat) :
  range_index (S n) = range_index n ++ [Z.of_nat n].
Proof. unfold range_index. by rewrite seq_S, fmap_app. Qed.

Lemma range_index_NoDup (n : nat) : NoDup (range_index n).
Proof.
  unfold range_index. apply NoDup_fmap_2; [|apply NoDup_seq].
  intros x y. lia.
Qed.

(** [__write_csv] followed by [read]: the file gets the whole table, and a
    new object with the content of the table is returned. *)
Lemma write_read_run (self : Self) (w : World) :
  (__write_csv mode_w;; read) (self, w)
  = (Ok (length (heap w)),
     (self,
      {| heap := heap w ++ [deref w (self_df self)];
         disk := <[self_csv self := pd.to_csv (deref w (self_df self))]> (disk w);
         written := self_csv self :: written w |})).
Proof. reflexivity. Qed.

(** What the state after [__write_csv mode_w;; read] looks like from outside. *)
Lemma write_read_end (st0 : Self * World) (self : Self) (w : World) :
  allocated (self, w) →
  (length (heap st0.2) ≤ length (heap w))%nat →
  written w = written st0.2 →
  self_csv self = self_csv st0.1 →
  let st' := ((__write_csv mode_w;; read) (self, w)).2 in
  table st' = deref w (self_df self)
  ∧ rewrote_file st0 st'
  ∧ fresh_copy st0 st' (length (heap w)).
Proof.
  intros Halloc Hlen Hwr Hcsv. rewrite write_read_run. simpl.
  unfold allocated in Halloc. simpl in Halloc.
  assert (table
    (self,
     {| heap := heap w ++ [deref w (self_df self)];
        disk := <[self_csv self := pd.to_csv (deref w (self_df self))]> (disk w);
        written := self_csv self :: written w |}) = deref w (self_df self))
    as Htable.
  { unfold table, deref. simpl. by rewrite lookup_app_l. }
  split; [done|]. split.
  - unfold rewrote_file. rewrite Htable. unfold file. simpl.
    rewrite lookup_insert_eq, Hwr, Hcsv. done.
  - unfold fresh_copy. rewrite Htable. simpl. split; [lia|]. split; [lia|].
    rewrite lookup_app_r; [|lia]. by rewrite Nat.sub_diag.
Qed.

(** ** [delete] *)

(** C10.  [delete] called without any row label raises nothing.  The table
    keeps its columns and the cells of its rows, in order; only the labels
    are renumbered, which leaves a table labelled [0, 1, ..., n-1] as it is.
    The file is written all the same, and a copy of the table is returned. *)
Theorem delete_nothing (st : Self * World) :
  allocated st →
  ∃ ref st',
    delete [] st = (Ok ref, st')
    ∧ columns (table st') = columns (table st)
    ∧ values (table st') = values (table st)
    ∧ (index (table st) = range_index (length (rows (table st))) →
       table st' = table st)
    ∧ rewrote_file st st'
    ∧ fresh_copy st st' ref.
Proof.
  destruct st as [self w]. intros Halloc.
  unfold allocated in Halloc. simpl in Halloc.
  set (w1 := store (self_df self) (pd.reset_index (deref w (self_df self))) w).
  assert (delete [] (self, w) = (__write_csv mode_w;; read) (self, w1)) as Hrun
    by reflexivity.
  destruct (write_read_end (self, w) self w1) as (Htable & Hfile & Hcopy);
    [unfold allocated, w1; simpl; by rewrite length_insert
    |unfold w1; simpl; by rewrite length_insert|done|done|].
  exists (length (heap w1)), ((__write_csv mode_w;; read) (self, w1)).2.
  rewrite Hrun. split; [by rewrite write_read_run|].
  rewrite Htable. unfold w1 at 1 2 3. rewrite deref_store by done.
  unfold table. simpl.
  split; [done|]. split; [apply relabel_values|]. split; [|done].
  intros Hidx. unfold pd.reset_index.
  rewrite (relabel_range _ Hidx). by destruct (deref w (self_df self)).
Qed.

(** [delete()] on the table of three rows. *)
Lemma delete_nothing_witness :
  ∃ ref st',
    delete [] demo = (Ok ref, st')
    ∧ columns (table st') = columns (table demo)
    ∧ values (table st') = values (table demo)
    ∧ (index (table demo) = range_index (length (rows (table demo))) →
       table st' = table demo)
    ∧ rewrote_file demo st'
    ∧ fresh_copy demo st' ref.
Proof. apply (delete_nothing demo). unfold allocated. simpl. lia. Defined.

Lemma filter_all {A} (P : A → Prop) `{∀ x, Decision (P x)} (l : list A) :
  Forall P l → filter P l = l.
Proof.
  induction 1 as [|x l Hx _ IH]; [done|].
  rewrite filter_cons_True by done. by rewrite IH.
Qed.

Lemma elem_of_index_dropped (i j : Z) (l : list (Z * list scalar)) :
  j ∈ (filter (λ r, r.1 ≠ i) l).*1 ↔ j ∈ l.*1 ∧ j ≠ i.
Proof.
  rewrite !list_elem_of_fmap. split.
  - intros (r & -> & [Hne Hin]%list_elem_of_filter). split; [|done].
    by exists r.
  - intros [(r & -> & Hin) Hne]. exists r. split; [done|].
    by apply list_elem_of_filter.
Qed.

(** [drop] succeeds on a label of the frame and takes away its rows. *)
Lemma drop_present (i : Z) (d : DataFrame) :
  i ∈ index d →
  pd.drop i d = Ok {| columns := columns d;
                      rows := filter (λ r, r.1 ≠ i) (rows d) |}.
Proof. intros Hin. unfold pd.drop. by rewrite decide_True. Qed.

Lemma drop_absent (i : Z) (d : DataFrame) :
  i ∉ index d → pd.drop i d = Raise (KeyError (Row i)).
Proof. intros Hin. unfold pd.drop. by rewrite decide_False. Qed.

(** The loop of [delete] when some label cannot be dropped: it stops at the
    first label [bad] that the frame no longer has, having dropped the
    labels [done_] before it; nothing is written. *)
Lemma drop_each_fails (row_index : list Z) :
  ∀ (idx : option Z) (self : Self) (w : World),
    (self_df self < length (heap w))%nat →
    (∃ i, i ∈ row_index ∧ i ∉ index (deref w (self_df self))) →
    ∃ done_ bad rest w',
      row_index = done_ ++ bad :: rest
      ∧ drop_each row_index idx (self, w)
        = (Some bad, (Raise (KeyError (Row bad)), (self, w')))
      ∧ disk w' = disk w ∧ written w' = written w
      ∧ Forall (λ i, i ∈ index (deref w (self_df self))) done_
      ∧ NoDup done_
      ∧ (bad ∉ index (deref w (self_df self)) ∨ bad ∈ done_)
      ∧ rows (deref w' (self_df self))
        = filter (λ r, r.1 ∉ done_) (rows (deref w (self_df self))).
Proof.
  induction row_index as [|i row_index IH]; intros idx self w Hlt [i0 [Hi0 Hmiss]].
  { by apply elem_of_nil in Hi0. }
  simpl. destruct (decide (i ∈ index (deref w (self_df self)))) as [Hin|Hout].
  - rewrite (drop_present _ _ Hin).
    set (d1 := {| columns := columns (deref w (self_df self));
                  rows := filter (λ r, r.1 ≠ i) (rows (deref w (self_df self))) |}).
    assert (deref (store (self_df self) d1 w) (self_df self) = d1) as Hd1
      by by apply deref_store.
    assert (∀ j, j ∈ index d1 ↔ j ∈ index (deref w (self_df self)) ∧ j ≠ i)
      as Hidx1.
    { intros j. unfold index, d1. simpl. apply elem_of_index_dropped. }
    destruct (IH (Some i) self (store (self_df self) d1 w))
      as (done_ & bad & rest & w' & Hsplit & Hrun & Hdisk & Hwr & Hall & Hnd
          & Hbad & Hrows).
    { simpl. by rewrite length_insert. }
    { exists i0. split.
      - apply elem_of_cons in Hi0 as [->|Hi0]; [done|done].
      - rewrite Hd1, Hidx1. tauto. }
    rewrite Hd1 in Hall, Hbad, Hrows.
    exists (i :: done_), bad, rest, w'. simpl in Hrun.
    split; [by rewrite Hsplit|]. split; [exact Hrun|].
    split; [done|]. split; [done|]. split; [|split; [|split]].
    + constructor; [done|]. eapply Forall_impl; [exact Hall|].
      intros j Hj. by apply Hidx1 in Hj as [Hj _].
    + constructor; [|done]. intros Hi.
      rewrite Forall_forall in Hall. apply Hall, Hidx1 in Hi. tauto.
    + destruct Hbad as [Hbad|Hbad]; [|right; by right].
      destruct (decide (bad = i)) as [->|Hne]; [right; by left|].
      left. intros Hb. apply Hbad, Hidx1. done.
    + rewrite Hrows. unfold d1. simpl. rewrite list_filter_filter.
      apply list_filter_iff. intros r. rewrite not_elem_of_cons. tauto.
  - rewrite (drop_absent _ _ Hout).
    exists [], i, row_index, w. simpl.
    split; [done|]. split; [done|]. split; [done|]. split; [done|].
    split; [constructor|]. split; [constructor|]. split; [by left|].
    symmetry. apply filter_all, Forall_forall. intros r _. apply not_elem_of_nil.
Qed.

(** C6.  When some requested label is not a label of the table, [delete]
    raises [IndexOutOfRangeError] and returns no table.  The label it names
    is the first request whose row is not there when its turn comes: every
    request before it was a label of the table, and it is no label of the
    table as the failed call leaves it.  It is either no label of the table
    the call started with or a repetition of an earlier request (so, for
    requests that are pairwise distinct, the first that is no label of the
    table).  The file is not written. *)
Theorem delete_missing_label (st : Self * World) (row_index : list Z) :
  allocated st →
  (∃ i, i ∈ row_index ∧ i ∉ index (table st)) →
  ∃ done_ bad rest st',
    row_index = done_ ++ bad :: rest
    ∧ delete row_index st = (Raise (IndexOutOfRangeError bad), st')
    ∧ Forall (λ i, i ∈ index (table st)) done_
    ∧ (bad ∉ index (table st'))
    ∧ (bad ∉ index (table st) ∨ bad ∈ done_)
    ∧ (NoDup row_index → bad ∉ index (table st))
    ∧ file st' = file st
    ∧ written st'.2 = written st.2.
Proof.
  destruct st as [self w]. intros Halloc Hmiss.
  destruct (drop_each_fails row_index None self w Halloc Hmiss)
    as (done_ & bad & rest & w' & Hsplit & Hrun & Hdisk & Hwr & Hall & Hnd
        & Hbad & Hrows).
  exists done_, bad, rest, (self, w').
  split; [done|]. split.
  { unfold delete. by rewrite Hrun. }
  split; [done|]. split.
  { unfold table, index. simpl. rewrite Hrows.
    intros (r & -> & [Hnot Hr]%list_elem_of_filter)%list_elem_of_fmap.
    destruct Hbad as [Hbad|Hbad]; [|done].
    apply Hbad. unfold table, index. simpl. by apply list_elem_of_fmap_2. }
  split; [done|]. split.
  { intros Hnodup. destruct Hbad as [Hbad|Hbad]; [done|].
    rewrite Hsplit in Hnodup. apply NoDup_app in Hnodup as (_ & Hdisj & _).
    exfalso. apply (Hdisj bad Hbad). by left. }
  unfold file. simpl. by rewrite Hdisk.
Qed.

(** [delete(1, 7, 2)] on the table of three rows stops at [7]. *)
Lemma delete_missing_label_witness :
  ∃ done_ bad rest st',
    [1; 7; 2] = done_ ++ bad :: rest
    ∧ delete [1; 7; 2] demo = (Raise (IndexOutOfRangeError bad), st')
    ∧ Forall (λ i, i ∈ index (table demo)) done_
    ∧ (bad ∉ index (table st'))
    ∧ (bad ∉ index (table demo) ∨ bad ∈ done_)
    ∧ (NoDup [1; 7; 2] → bad ∉ index (table demo))
    ∧ file st' = file demo
    ∧ written st'.2 = written demo.2.
Proof.
  apply (delete_missing_label demo [1; 7; 2]).
  - unfold allocated. simpl. lia.
  - exists 7. split; [by right; left|]. vm_compute. intros Hin.
    repeat (apply elem_of_cons in Hin as [Hin|Hin]; [done|]).
    by apply elem_of_nil in Hin.
Defined.

(** The rows of a frame around the one row that carries a given label. *)
Lemma rows_around (d : DataFrame) (i : Z) :
  NoDup (index d) → i ∈ index d →
  ∃ before row after,
    rows d = before ++ (i, row) :: after
    ∧ filter (λ r, r.1 ≠ i) (rows d) = before ++ after.
Proof.
  unfold index. intros Hnd Hin.
  apply list_elem_of_fmap in Hin as ([i' row] & -> & Hin). simpl in *.
  apply list_elem_of_split in Hin as (before & after & Hrows).
  exists before, row, after. split; [done|].
  rewrite Hrows in Hnd |- *. rewrite fmap_app, fmap_cons in Hnd. simpl in Hnd.
  apply NoDup_app in Hnd as (_ & Hdisj & [Hafter _]%NoDup_cons).
  rewrite filter_app, filter_cons_False by (simpl; tauto).
  rewrite !filter_all; [done| |].
  - apply Forall_forall. intros r Hr Heq. apply Hafter.
    rewrite <- Heq. by apply list_elem_of_fmap_2.
  - apply Forall_forall. intros r Hr Heq. apply (Hdisj r.1).
    + by apply list_elem_of_fmap_2.
    + rewrite Heq. by left.
Qed.

(** C2.  On a table that has a row labelled [i], [delete(i)] succeeds.  That
    row goes and the others stay, in order; there is one row less; the rows
    are relabelled [0, 1, ..., n-1]; the file is written with the whole
    table and a copy of the table is returned.  When no two rows of the
    table had the same cells, the cells of the deleted row are no longer a
    row of the table. *)
Theorem delete_one (st : Self * World) (i : Z) :
  state_ok st →
  i ∈ index (table st) →
  ∃ ref st' before row after,
    rows (table st) = before ++ (i, row) :: after
    ∧ delete [i] st = (Ok ref, st')
    ∧ columns (table st') = columns (table st)
    ∧ values (table st') = before.*2 ++ after.*2
    ∧ S (length (rows (table st'))) = length (rows (table st))
    ∧ index (table st') = range_index (length (rows (table st')))
    ∧ rewrote_file st st'
    ∧ fresh_copy st st' ref
    ∧ (NoDup (values (table st)) → row ∉ values (table st')).
Proof.
  destruct st as [self w]. intros [Halloc Hok] Hin. unfold allocated in Halloc. simpl in Halloc.
  unfold table in *. simpl in *.
  set (d := deref w (self_df self)) in *.
  destruct (rows_around d i (labels_distinct _ Hok) Hin)
    as (before & row & after & Hrows & Hfilter).
  set (d1 := {| columns := columns d; rows := before ++ after |}).
  set (w1 := store (self_df self) d1 w).
  set (w2 := store (self_df self) (pd.reset_index (deref w1 (self_df self))) w1).
  assert (delete [i] (self, w) = (__write_csv mode_w;; read) (self, w2)) as Hrun.
  { unfold delete. simpl. fold d. rewrite (drop_present _ _ Hin), Hfilter.
    reflexivity. }
  assert (deref w1 (self_df self) = d1) as Hd1 by by apply deref_store.
  assert (deref w2 (self_df self) = pd.reset_index d1) as Hd2.
  { unfold w2. rewrite Hd1. apply deref_store. unfold w1. simpl.
    by rewrite length_insert. }
  destruct (write_read_end (self, w) self w2) as (Htable & Hfile & Hcopy);
    [unfold allocated, w2, w1; simpl; by rewrite !length_insert
    |unfold w2, w1; simpl; by rewrite !length_insert|done|done|].
  exists (length (heap w2)), ((__write_csv mode_w;; read) (self, w2)).2,
    before, row, after.
  split; [done|]. rewrite Hrun. split; [by rewrite write_read_run|].
  unfold table in *. rewrite Htable, Hd2.
  assert (values (pd.reset_index d1) = before.*2 ++ after.*2) as Hvalues.
  { unfold values, pd.reset_index. simpl. rewrite relabel_values.
    unfold values. simpl. by rewrite fmap_app. }
  split; [done|]. split; [done|]. split.
  { unfold pd.reset_index. simpl. rewrite length_relabel. unfold values.
    simpl. rewrite length_fmap, Hrows, !length_app. simpl. lia. }
  split.
  { unfold index, pd.reset_index. simpl.
    by rewrite relabel_index, length_relabel. }
  split; [done|]. split; [done|].
  rewrite Hvalues. unfold values. rewrite Hrows, fmap_app, fmap_cons. simpl.
  intros Hnd Hrow.
  apply NoDup_app in Hnd as (_ & Hdisj & [Hafter _]%NoDup_cons).
  apply elem_of_app in Hrow as [Hrow|Hrow]; [|done].
  apply (Hdisj row Hrow). by left.
Qed.

(** [delete(1)] on the table of three rows. *)
Lemma demo_ok : state_ok demo.
Proof.
  split; [unfold allocated; simpl; lia|]. split; compute_done.
Qed.

Lemma delete_one_witness :
  ∃ ref st' before row after,
    rows (table demo) = before ++ (1, row) :: after
    ∧ delete [1] demo = (Ok ref, st')
    ∧ columns (table st') = columns (table demo)
    ∧ values (table st') = before.*2 ++ after.*2
    ∧ S (length (rows (table st'))) = length (rows (table demo))
    ∧ index (table st') = range_index (length (rows (table st')))
    ∧ rewrote_file demo st'
    ∧ fresh_copy demo st' ref
    ∧ (NoDup (values (table demo)) → row ∉ values (table st')).
Proof.
  apply (delete_one demo 1); [exact demo_ok|].
  vm_compute. by right; left.
Defined.

(** ** Columns by name *)

Lemma get_loc_Some (key : string) (names : list string) :
  key ∈ names →
  ∃ j, pd.get_loc key names = Some j ∧ names !! j = Some key.
Proof.
  induction names as [|name names IH]; intros Hin.
  { by apply elem_of_nil in Hin. }
  simpl. destruct (decide (name = key)) as [->|Hne].
  - by exists 0%nat.
  - apply elem_of_cons in Hin as [->|Hin]; [done|].
    destruct (IH Hin) as (j & -> & Hj). by exists (S j).
Qed.

Lemma get_loc_None (key : string) (names : list string) :
  key ∉ names → pd.get_loc key names = None.
Proof.
  induction names as [|name names IH]; intros Hin; [done|].
  apply not_elem_of_cons in Hin as [Hne Hin]. simpl.
  rewrite decide_False by done. by rewrite IH.
Qed.

(** Picking by a mask computed from the rows is filtering the rows. *)
Lemma mask_filter (f : Z * list scalar → bool) (l : list (Z * list scalar)) :
  (filter (λ p, p.1 = true) (zip (f <$> l) l)).*2 = filter (λ r, f r = true) l.
Proof.
  induction l as [|r l IH]; [done|]. simpl.
  destruct (f r) eqn:E.
  - rewrite !filter_cons_True by done. simpl. f_equal. exact IH.
  - rewrite !filter_cons_False by (simpl; congruence). exact IH.
Qed.

(** ** [get_filtered_dataframe_with_key] *)

(** The call on a column of the table: two new objects, the selection and
    its copy, and nothing else changes. *)
Lemma filter_run (self : Self) (w : World) (key : string) (value : scalar) :
  key ∈ columns (deref w (self_df self)) →
  get_filtered_dataframe_with_key key value (self, w)
  = (Ok (S (length (heap w))),
     (self,
      {| heap := (heap w
                  ++ [rows_equal_to key value (deref w (self_df self))])
                 ++ [rows_equal_to key value (deref w (self_df self))];
         disk := disk w; written := written w |})).
Proof.
  set (d := deref w (self_df self)). intros Hkey.
  destruct (get_loc_Some _ _ Hkey) as (j & Hloc & Hj).
  run. fold d. unfold pd.getitem. rewrite Hloc. simpl.
  assert (pd.getitem_mask
            (pd.eq_mask ((λ r, (r.1, default NaN (r.2 !! j))) <$> rows d)
               value) d = rows_equal_to key value d) as ->.
  { unfold pd.getitem_mask, pd.eq_mask, rows_equal_to. f_equal.
    assert (((λ c : Z * scalar, py_eq c.2 value)
             <$> ((λ r : Z * list scalar, (r.1, default NaN (r.2 !! j)))
                  <$> rows d))
            = (λ r, py_eq (default NaN (r.2 !! j)) value) <$> rows d) as ->
      by by rewrite <- list_fmap_compose.
    rewrite (mask_filter (λ r, py_eq (default NaN (r.2 !! j)) value)).
    apply list_filter_iff. intros r. unfold pd.cell. rewrite Hloc. done. }
  rewrite deref_alloc_new, length_app. simpl. do 2 f_equal. lia.
Qed.

(** C7.  For a [key] that is a column, the call returns a new object: the
    frame of the rows, in order and with their labels, whose cell under
    [key] is [== value]; the connector, its table and the disk stay as they
    were.  For a [key] that is no column it raises [KeyNotFoundError] and
    changes nothing.  [==] is the equality of Python: an integer cell never
    equals a text value, and two scalars that are [==] are the same scalar
    or the same number. *)
Theorem filter_by_key (st : Self * World) (key : string) (value : scalar) :
  allocated st →
  (key ∈ columns (table st) →
   ∃ ref st',
     get_filtered_dataframe_with_key key value st = (Ok ref, st')
     ∧ (length (heap st.2) ≤ ref)%nat
     ∧ ref ≠ self_df st'.1
     ∧ heap st'.2 !! ref = Some (rows_equal_to key value (table st))
     ∧ st'.1 = st.1
     ∧ table st' = table st
     ∧ disk st'.2 = disk st.2
     ∧ written st'.2 = written st.2)
  ∧ (key ∉ columns (table st) →
     get_filtered_dataframe_with_key key value st
     = (Raise (KeyNotFoundError key), st))
  ∧ (∀ z s, py_eq (PyInt z) (PyStr s) = false)
  ∧ (∀ a b, py_eq a b = true →
       a = b ∨ ∃ x, as_number a = Some x ∧ as_number b = Some x).
Proof.
  destruct st as [self w]. unfold allocated, table. simpl. intros Halloc.
  set (d := deref w (self_df self)).
  split; [|split; [|split]].
  - intros Hkey. eexists _, _. split; [by apply filter_run|]. simpl.
    split; [lia|]. split; [lia|]. split.
    { rewrite lookup_app_r; rewrite length_app; simpl; [|lia].
      by replace (S (length (heap w)) - (length (heap w) + 1))%nat
        with 0%nat by lia. }
    split; [done|]. split; [|done].
    unfold deref. simpl. by rewrite <- app_assoc, lookup_app_l.
  - intros Hkey. run. fold d. unfold pd.getitem.
    by rewrite (get_loc_None _ _ Hkey).
  - done.
  - intros [s|z|b|] [t|z'|b'|]; simpl; try done.
    + intros ->%bool_decide_eq_true. by left.
    + intros Heq%bool_decide_eq_true. right. exists z. by rewrite Heq.
    + intros Heq%bool_decide_eq_true. right. exists z. by rewrite Heq.
    + intros Heq%bool_decide_eq_true. right. eexists. by rewrite Heq.
    + intros Heq%bool_decide_eq_true. right. eexists. by rewrite Heq.
Qed.

(** The people aged 27, and a column that does not exist. *)
Lemma filter_by_key_witness :
  (∃ ref st',
     get_filtered_dataframe_with_key "age" (PyInt 27) demo = (Ok ref, st')
     ∧ heap st'.2 !! ref
       = Some {| columns := ["name"; "age"];
                 rows := [(1, [PyStr "bob"; PyInt 27])] |}
     ∧ table st' = table demo)
  ∧ get_filtered_dataframe_with_key "town" (PyInt 27) demo
    = (Raise (KeyNotFoundError "town"), demo).
Proof.
  assert (allocated demo) as Halloc by (unfold allocated; simpl; lia).
  destruct (filter_by_key demo "age" (PyInt 27) Halloc) as (Hyes & _).
  destruct (filter_by_key demo "town" (PyInt 27) Halloc) as (_ & Hno & _).
  split.
  - destruct Hyes as (ref & st' & Hrun & _ & _ & Hres & _ & Htable & _).
    { vm_compute. by right; left. }
    exists ref, st'. split; [done|]. split; [|done].
    rewrite Hres. reflexivity.
  - apply Hno. vm_compute. intros Hin.
    repeat (apply elem_of_cons in Hin as [Hin|Hin]; [done|]).
    by apply elem_of_nil in Hin.
Defined.

(** ** [register] *)

Lemma cell_cons_eq (name : string) (names : list string) (c : scalar)
    (cells : list scalar) :
  pd.cell (name :: names) (c :: cells) name = c.
Proof. unfold pd.cell. simpl. by rewrite decide_True. Qed.

Lemma cell_cons_ne (name key : string) (names : list string) (c : scalar)
    (cells : list scalar) :
  name ≠ key →
  pd.cell (name :: names) (c :: cells) key = pd.cell names cells key.
Proof.
  intros Hne. unfold pd.cell. simpl. rewrite decide_False by done.
  by destruct (pd.get_loc key names).
Qed.

(** Laying a row out along its own columns gives the row back. *)
Lemma reindex_same (names : list string) :
  ∀ cells : list scalar,
    NoDup names → length cells = length names →
    pd.cell names cells <$> names = cells.
Proof.
  induction names as [|name names IH]; intros cells Hnd Hlen.
  { by destruct cells. }
  destruct cells as [|c cells]; [done|]. simpl in Hlen.
  apply NoDup_cons in Hnd as [Hname Hnd].
  rewrite fmap_cons, cell_cons_eq. f_equal.
  etrans; [|apply (IH cells Hnd); lia].
  apply list_fmap_ext. intros _ key Hkey%list_elem_of_lookup_2.
  apply cell_cons_ne. by intros ->.
Qed.

(** Keyword arguments read back under their own names. *)
Lemma cells_of_keys (kv : list (string * scalar)) :
  NoDup kv.*1 → (λ k, (k, pd.cell kv.*1 kv.*2 k)) <$> kv.*1 = kv.
Proof.
  induction kv as [|[k v] kv IH]; intros Hnd; [done|].
  rewrite !fmap_cons in *. simpl in *.
  apply NoDup_cons in Hnd as [Hk Hnd].
  rewrite cell_cons_eq. f_equal.
  etrans; [|exact (IH Hnd)].
  apply list_fmap_ext. intros _ key Hkey%list_elem_of_lookup_2.
  f_equal. apply cell_cons_ne. by intros ->.
Qed.

Lemma zip_with_image {A B} (f : A → B) (l : list A) :
  zip l (f <$> l) = (λ x, (x, f x)) <$> l.
Proof. induction l as [|x l IH]; [done|]. simpl. f_equal. exact IH. Qed.

Lemma filter_nothing {A} (P : A → Prop) `{∀ x, Decision (P x)} (l : list A) :
  Forall (λ x, ¬ P x) l → filter P l = [].
Proof.
  induction 1 as [|x l Hx _ IH]; [done|].
  by rewrite filter_cons_False.
Qed.

Lemma relabel_snoc (cells : list (list scalar)) (c : list scalar) :
  relabel (cells ++ [c]) = relabel cells ++ [(Z.of_nat (length cells), c)].
Proof.
  unfold relabel. rewrite length_app. simpl.
  rewrite Nat.add_1_r, range_index_S.
  by rewrite (zip_with_app pair (range_index (length cells))
               [Z.of_nat (length cells)] cells [c])
    by apply length_range_index.
Qed.

(** Joining a frame with one row given under the same names: the row comes
    last, laid out along the columns of the frame. *)
Lemma concat_one_row (d : DataFrame) (kv : list (string * scalar)) :
  frame_ok d →
  (∀ k, k ∈ kv.*1 ↔ k ∈ columns d) →
  pd.concat_ignore_index d (pd.DataFrame_one_row kv)
  = {| columns := columns d;
       rows := relabel (values d)
               ++ [(Z.of_nat (length (rows d)),
                    pd.cell kv.*1 kv.*2 <$> columns d)] |}.
Proof.
  intros [Hcols _ Hfull] Hkeys. unfold pd.concat_ignore_index. simpl.
  rewrite (filter_nothing (λ c, c ∉ columns d)).
  2:{ apply Forall_forall. intros k Hk Hnot. by apply Hnot, Hkeys. }
  rewrite app_nil_r. f_equal. unfold pd.reindex_row, values. simpl.
  assert ((λ cells, pd.cell (columns d) cells <$> columns d) <$> (rows d).*2
          = (rows d).*2) as ->.
  { rewrite <- (list_fmap_id (rows d).*2) at 2.
    apply list_fmap_ext. intros _ cells Hcells%list_elem_of_lookup_2.
    apply reindex_same; [done|].
    apply list_elem_of_fmap in Hcells as (r & -> & Hr).
    rewrite Forall_forall in Hfull. by apply Hfull. }
  by rewrite relabel_snoc, length_fmap.
Qed.

(** C1, on a table without a column named [self] and for values that fit
    their columns.  For keyword arguments whose names are exactly the
    columns of the table, [register] succeeds.  The table keeps its columns,
    in order, and the cells of its rows, in order, and gets one more row at
    the end, labelled with the former number of rows; read along the
    columns, that row is the mapping given.  The file is written with the
    whole table and a copy of the table is returned.

    The values fit their columns: pandas then keeps every cell as it is,
    as [pd.concat_ignore_index] does throughout. *)
Theorem register_appends (st : Self * World)
    (key_and_values : list (string * scalar)) :
  state_ok st →
  NoDup key_and_values.*1 →
  (∀ k, k ∈ key_and_values.*1 ↔ k ∈ columns (table st)) →
  "self" ∉ columns (table st) →
  row_fits key_and_values (table st) →
  ∃ ref st' new_row,
    register key_and_values st = (Ok ref, st')
    ∧ zip (columns (table st)) new_row ≡ₚ key_and_values
    ∧ columns (table st') = columns (table st)
    ∧ rows (table st')
      = relabel (values (table st))
        ++ [(Z.of_nat (length (rows (table st))), new_row)]
    ∧ values (table st') = values (table st) ++ [new_row]
    ∧ length (rows (table st')) = S (length (rows (table st)))
    ∧ rewrote_file st st'
    ∧ fresh_copy st st' ref.
Proof.
  destruct st as [self w]. intros [Halloc Hok] Hnd Hkeys Hself _.
  unfold allocated in Halloc. simpl in Halloc.
  unfold table in *. simpl in *.
  set (d := deref w (self_df self)) in *.
  assert (keywords_ok key_and_values) as Hbound.
  { split; [|done]. intros Hin. by apply Hself, Hkeys. }
  set (new_row := pd.cell key_and_values.*1 key_and_values.*2 <$> columns d).
  set (joined := {| columns := columns d;
                    rows := relabel (values d)
                            ++ [(Z.of_nat (length (rows d)), new_row)] |}).
  set (w2 := {| heap := (heap w ++ [pd.DataFrame_one_row key_and_values])
                        ++ [joined];
                disk := disk w; written := written w |}).
  set (self2 := {| self_csv := self_csv self;
                   self_df := length (heap w
                                ++ [pd.DataFrame_one_row key_and_values]) |}).
  assert (register key_and_values (self, w) = (__write_csv mode_w;; read) (self2, w2))
    as Hrun.
  { unfold register. rewrite (decide_True _ _ Hbound).
    run. fold d. rewrite decide_False.
    2:{ intros Hne. apply Hne. apply set_eq. intros k.
        rewrite !elem_of_list_to_set. apply Hkeys. }
    rewrite !deref_alloc_new, !(deref_alloc_old _ _ _ Halloc). fold d.
    rewrite (concat_one_row d key_and_values Hok Hkeys). fold new_row joined.
    reflexivity. }
  assert (deref w2 (self_df self2) = joined) as Hjoined.
  { unfold deref, w2, self2. simpl.
    by rewrite lookup_app_r, Nat.sub_diag by lia. }
  destruct (write_read_end (self, w) self2 w2) as (Htable & Hfile & Hcopy);
    [unfold allocated, w2, self2; simpl; rewrite !length_app; simpl; lia
    |unfold w2; simpl; rewrite !length_app; simpl; lia|done|done|].
  exists (length (heap w2)), ((__write_csv mode_w;; read) (self2, w2)).2, new_row.
  rewrite Hrun. split; [by rewrite write_read_run|].
  unfold table in *. rewrite Htable, Hjoined. split.
  { unfold new_row. rewrite zip_with_image.
    trans ((λ k, (k, pd.cell key_and_values.*1 key_and_values.*2 k))
           <$> key_and_values.*1);
      [|by rewrite (cells_of_keys key_and_values Hnd)].
    apply fmap_Permutation, NoDup_Permutation;
      [apply (columns_distinct _ Hok)|done|].
    intros k. symmetry. apply Hkeys. }
  split; [done|]. split; [done|]. split.
  { unfold values, joined. simpl. by rewrite fmap_app, relabel_values. }
  split; [|done].
  unfold joined. simpl. rewrite length_app, length_relabel. unfold values.
  rewrite length_fmap. simpl. lia.
Qed.

(** A fourth person, the arguments given in the other order. *)
Lemma register_appends_witness :
  ∃ ref st' new_row,
    register [("age", PyInt 52); ("name", PyStr "dan")] demo = (Ok ref, st')
    ∧ zip (columns (table demo)) new_row
      ≡ₚ [("age", PyInt 52); ("name", PyStr "dan")]
    ∧ columns (table st') = columns (table demo)
    ∧ rows (table st')
      = relabel (values (table demo))
        ++ [(Z.of_nat (length (rows (table demo))), new_row)]
    ∧ values (table st') = values (table demo) ++ [new_row]
    ∧ length (rows (table st')) = S (length (rows (table demo)))
    ∧ rewrote_file demo st'
    ∧ fresh_copy demo st' ref.
Proof.
  apply (register_appends demo [("age", PyInt 52); ("name", PyStr "dan")]).
  - exact demo_ok.
  - compute_done.
  - intros k. vm_compute. split; intros Hin;
      repeat (apply elem_of_cons in Hin as [->|Hin]; [set_solver|]);
      by apply elem_of_nil in Hin.
  - compute_done.
  - unfold row_fits, fits. compute_done.
Defined.

(** C1 as it is written fails on a table that has a column named [self]:
    the mapping must name that column, and Python cannot bind a keyword
    named [self].  The call raises [TypeError] and appends nothing. *)
Lemma register_column_named_self :
  let key_and_values := [("self", PyStr "you"); ("note", PyStr "hi")] in
  (∀ k, k ∈ key_and_values.*1 ↔ k ∈ columns (table demo_self))
  ∧ register key_and_values demo_self = (Raise TypeError, demo_self).
Proof.
  split.
  - intros k. vm_compute. split; intros Hin;
      repeat (apply elem_of_cons in Hin as [->|Hin]; [set_solver|]);
      by apply elem_of_nil in Hin.
  - vm_compute. reflexivity.
Qed.

(** ** [update] *)

(** Setting a cell that exists: the rows labelled [i] get [value] at the
    position of [key]; nothing is appended. *)
Lemma loc_setitem_present (d : DataFrame) (i : Z) (key : string)
    (value : scalar) (j : nat) :
  i ∈ index d → pd.get_loc key (columns d) = Some j →
  pd.loc_setitem i key value d
  = {| columns := columns d;
       rows := (λ r, if decide (r.1 = i) then (r.1, <[j := value]> r.2)
                     else r) <$> rows d |}.
Proof.
  intros Hi Hj. unfold pd.loc_setitem.
  assert (key ∈ columns d) as Hkey.
  { destruct (decide (key ∈ columns d)) as [|Hnot]; [done|].
    by rewrite (get_loc_None _ _ Hnot) in Hj. }
  rewrite (decide_True _ _ Hkey), (decide_True _ _ Hi), Hj. done.
Qed.

(** A value a typed column takes equals itself. *)
Lemma storable_eq (v : scalar) : storable v = true → py_eq v v = true.
Proof.
  destruct v as [s|z|b|]; [| | |done]; intros _; unfold py_eq; simpl;
    by apply bool_decide_eq_true_2.
Qed.

(** C8, for a value that fits the column: text, an integer or a boolean of
    the kind of the cells the column holds, which leaves the missing value
    [NaN] out.  On a table with a row labelled [i] and a column [k],
    [update(i, k, v)] succeeds.  The table keeps its columns, its rows in
    order with their labels, and every cell except the one of row [i] under
    column [k], which becomes [v].  The file is written with the whole table
    and a copy of the table is returned.  A filter on [k] and [v] afterwards
    finds row [i].

    The value fits the column: pandas then keeps every other cell as it
    is, as [pd.loc_setitem] does throughout. *)
Theorem update_sets_cell (st : Self * World) (i : Z) (k : string)
    (v : scalar) :
  state_ok st →
  i ∈ index (table st) →
  k ∈ columns (table st) →
  fits k v (table st) →
  ∃ ref st' j,
    update i k v st = (Ok ref, st')
    ∧ pd.get_loc k (columns (table st)) = Some j
    ∧ columns (table st') = columns (table st)
    ∧ rows (table st')
      = (λ r, if decide (r.1 = i) then (r.1, <[j := v]> r.2) else r)
        <$> rows (table st)
    ∧ index (table st') = index (table st)
    ∧ (∀ cells, (i, cells) ∈ rows (table st') →
         pd.cell (columns (table st')) cells k = v)
    ∧ rewrote_file st st'
    ∧ fresh_copy st st' ref
    ∧ ∃ ref2 st'' found,
        get_filtered_dataframe_with_key k v st' = (Ok ref2, st'')
        ∧ heap st''.2 !! ref2 = Some found
        ∧ i ∈ index found.
Proof.
  destruct st as [self w]. intros [Halloc Hok] Hi Hk [Hself%storable_eq _].
  unfold allocated in Halloc. simpl in Halloc.
  unfold table in *. simpl in *.
  set (d := deref w (self_df self)) in *.
  destruct (get_loc_Some _ _ Hk) as (j & Hloc & Hj).
  set (d1 := {| columns := columns d;
                rows := (λ r, if decide (r.1 = i)
                              then (r.1, <[j := v]> r.2) else r)
                        <$> rows d |}).
  set (w1 := store (self_df self) d1 w).
  assert (index d ≠ []) as Hne.
  { intros Heq. rewrite Heq in Hi. by apply elem_of_nil in Hi. }
  assert (update i k v (self, w) = (__write_csv mode_w;; read) (self, w1)) as Hrun.
  { run. fold d.
    destruct (py_min_least _ Hne) as [_ Hlo].
    destruct (py_max_greatest _ Hne) as [_ Hhi].
    rewrite decide_False by (by intros ?%nil_length_inv).
    rewrite !bool_decide_eq_true_2 by auto. simpl.
    rewrite decide_False by (by intros Hnot).
    cbn [fst snd]. fold d.
    rewrite (loc_setitem_present d i k v j Hi Hloc). reflexivity. }
  assert (deref w1 (self_df self) = d1) as Hd1 by by apply deref_store.
  destruct (write_read_end (self, w) self w1) as (Htable & Hfile & Hcopy);
    [unfold allocated, w1; simpl; by rewrite length_insert
    |unfold w1; simpl; by rewrite length_insert|done|done|].
  assert (∀ cells, (i, cells) ∈ rows d1 → pd.cell (columns d) cells k = v)
    as Hcell.
  { intros cells Hin. unfold d1 in Hin. simpl in Hin.
    apply list_elem_of_fmap in Hin as ([i' cells'] & Heq & Hin).
    simpl in Heq. destruct (decide (i' = i)) as [->|Hne'];
      [|by injection Heq as -> _].
    injection Heq as ->. unfold pd.cell. rewrite Hloc. simpl.
    rewrite list_lookup_insert_eq; [done|].
    pose proof (rows_full _ Hok) as Hfull. rewrite Forall_forall in Hfull.
    specialize (Hfull _ Hin). simpl in Hfull. rewrite Hfull.
    by apply lookup_lt_Some in Hj. }
  assert (index d1 = index d) as Hindex.
  { unfold index, d1. simpl. rewrite <- list_fmap_compose.
    apply list_fmap_ext. intros _ r _. simpl. by destruct (decide (r.1 = i)). }
  exists (length (heap w1)), ((__write_csv mode_w;; read) (self, w1)).2, j.
  rewrite Hrun. split; [by rewrite write_read_run|].
  unfold table in *. rewrite Htable, Hd1.
  split; [done|]. split; [done|]. split; [done|]. split; [done|].
  split; [exact Hcell|]. split; [done|]. split; [done|].
  rewrite write_read_run. cbn [snd].
  match goal with
  | |- context [get_filtered_dataframe_with_key k v (self, ?w')] =>
      set (w3 := w')
  end.
  assert (deref w3 (self_df self) = d1) as Hd3.
  { unfold w3. rewrite deref_grown, Hd1 by
      (unfold w1; simpl; by rewrite length_insert). done. }
  exists (S (length (heap w3))),
    (self, {| heap := (heap w3 ++ [rows_equal_to k v d1])
                      ++ [rows_equal_to k v d1];
              disk := disk w3; written := written w3 |}),
    (rows_equal_to k v d1).
  split; [|split].
  - rewrite <- Hd3. apply filter_run. by rewrite Hd3.
  - cbn [heap snd]. rewrite lookup_app_r; rewrite !length_app; simpl; [|lia].
    match goal with |- [_] !! ?n = _ => replace n with 0%nat by lia end.
    done.
  - 
    rewrite <- Hindex in Hi. unfold index in Hi.
    apply list_elem_of_fmap in Hi as ([i' cells] & -> & Hin). simpl in *.
    unfold index, rows_equal_to. simpl.
    apply list_elem_of_fmap. exists (i', cells). split; [done|].
    apply list_elem_of_filter. split; [|done]. simpl.
    by rewrite (Hcell _ Hin).
Qed.

(** Bob turns 28, and a filter on the new age finds him. *)
Lemma update_sets_cell_witness :
  ∃ ref st' j,
    update 1 "age" (PyInt 28) demo = (Ok ref, st')
    ∧ pd.get_loc "age" (columns (table demo)) = Some j
    ∧ columns (table st') = columns (table demo)
    ∧ rows (table st')
      = (λ r, if decide (r.1 = 1) then (r.1, <[j := PyInt 28]> r.2) else r)
        <$> rows (table demo)
    ∧ index (table st') = index (table demo)
    ∧ (∀ cells, (1, cells) ∈ rows (table st') →
         pd.cell (columns (table st')) cells "age" = PyInt 28)
    ∧ rewrote_file demo st'
    ∧ fresh_copy demo st' ref
    ∧ ∃ ref2 st'' found,
        get_filtered_dataframe_with_key "age" (PyInt 28) st' = (Ok ref2, st'')
        ∧ heap st''.2 !! ref2 = Some found
        ∧ 1 ∈ index found.
Proof.
  apply (update_sets_cell demo 1 "age" (PyInt 28)).
  - exact demo_ok.
  - vm_compute. by right; left.
  - vm_compute. by right; left.
  - unfold fits. compute_done.
Defined.

(** C8 as it is written fails for the missing value: [NaN] is not equal to
    itself, so after [update(1, "name", NaN)] the cell holds [NaN] and the
    filter on [name] and [NaN] finds no row.  The column [name] holds text,
    which stays as it is when [NaN] joins it. *)
Lemma update_nan_filter_misses :
  let st' := (update 1 "name" NaN demo).2 in
  let st'' := (get_filtered_dataframe_with_key "name" NaN st').2 in
  (update 1 "name" NaN demo).1 = Ok 1%nat
  ∧ rows (table st')
    = [(0, [PyStr "ann"; PyInt 31]); (1, [NaN; PyInt 27]);
       (2, [PyStr "cy"; PyInt 45])]
  ∧ (get_filtered_dataframe_with_key "name" NaN st').1 = Ok 3%nat
  ∧ heap st''.2 !! 3%nat = Some {| columns := ["name"; "age"]; rows := [] |}.
Proof. vm_compute. done. Qed.

(** ** [__init__] *)

(** Names that are pairwise distinct need no renaming. *)
Lemma dedup_names_distinct (header names : list string) :
  ∀ seen : list string,
    NoDup names → (∀ x, x ∈ names → x ∉ seen) →
    pd.dedup_names header seen names = Some names.
Proof.
  induction names as [|col names IH]; intros seen Hnd Hseen; [done|].
  apply NoDup_cons in Hnd as [Hcol Hnd]. simpl.
  rewrite (filter_nothing (λ c, c = col)).
  2:{ apply Forall_forall. intros x Hx ->. apply (Hseen col); [by left|done]. }
  simpl. rewrite IH; [done|done|].
  intros x Hx. apply not_elem_of_cons. split.
  - by intros ->.
  - apply Hseen. by right.
Qed.

(** A file that holds a header line only: no rows, the columns of the
    header. *)
Lemma read_csv_header_only (names : list string) :
  header_ok names → pd.read_csv [names] = Ok (pd.DataFrame_empty names).
Proof.
  intros [Hsome Hnd Hfilled Hvisible]. unfold pd.read_csv.
  simpl. rewrite Hvisible. simpl.
  rewrite filter_cons_True by done. rewrite filter_nil.
  rewrite decide_False by done. simpl.
  rewrite dedup_names_distinct; [|done|intros x _; apply not_elem_of_nil].
  rewrite (mapM_Some_2 _ _ (replicate (length names) pd.object)); [done|].
  apply Forall2_same_length_lookup_2.
  { by rewrite length_seq, length_replicate. }
  intros j n t _ [-> _]%lookup_replicate. done.
Qed.

(** C9, for column names that a header gives back as they are.  When no
    file exists at the path: without initial columns, or with an empty list
    of them, [__init__] raises [NotFoundError] and creates nothing; with
    initial columns that are pairwise distinct and not empty, it creates a
    file that holds the header line only and returns a connector whose
    table has these columns, in order, and no row. *)
Theorem init_without_file (csv_file : string)
    (initial_keys : option (list string)) (w : World) :
  disk w !! csv_file = None →
  (initial_keys = None ∨ initial_keys = Some [] →
   __init__ csv_file initial_keys w = (Raise (NotFoundError csv_file), w))
  ∧ (∀ keys,
       initial_keys = Some keys → header_ok keys →
       ∃ self w',
         __init__ csv_file initial_keys w = (Ok self, w')
         ∧ self_csv self = csv_file
         ∧ disk w' = <[csv_file := [keys]]> (disk w)
         ∧ file (self, w') = Some [keys]
         ∧ allocated (self, w')
         ∧ table (self, w') = pd.DataFrame_empty keys
         ∧ rows (table (self, w')) = []).
Proof.
  intros Hnone. split.
  - intros [->| ->]; unfold __init__; by rewrite Hnone.
  - intros keys -> Hok.
    assert (keys ≠ []) as Hsome by apply (names_some _ Hok).
    destruct keys as [|key keys]; [done|].
    unfold __init__. rewrite Hnone. simpl.
    run. rewrite lookup_insert_eq. simpl.
    rewrite deref_alloc_new. simpl.
    change (pd.to_csv (pd.DataFrame_empty (key :: keys))) with [key :: keys].
    rewrite (read_csv_header_only _ Hok). simpl.
    eexists _, _. split; [done|]. split; [done|]. split; [done|].
    unfold file, allocated, table, deref. simpl.
    rewrite lookup_insert_eq. split; [done|].
    rewrite lookup_app_r, Nat.sub_diag by lia. simpl.
    split; [|done]. rewrite (length_app (_ ++ _)). simpl. lia.
Qed.

(** A new file with two columns, and a call that has nothing to go by. *)
Lemma init_without_file_witness :
  __init__ "t.csv" None empty_world
  = (Raise (NotFoundError "t.csv"), empty_world)
  ∧ ∃ self w',
      __init__ "t.csv" (Some ["a"; "b"]) empty_world = (Ok self, w')
      ∧ file (self, w') = Some [["a"; "b"]]
      ∧ table (self, w') = pd.DataFrame_empty ["a"; "b"].
Proof.
  assert (disk empty_world !! "t.csv" = None) as Hnone by done.
  split.
  - apply (init_without_file "t.csv" None empty_world Hnone). by left.
  - destruct (init_without_file "t.csv" (Some ["a"; "b"]) empty_world Hnone)
      as [_ Hsome].
    destruct (Hsome ["a"; "b"]) as (self & w' & Hrun & _ & _ & Hfile & _
                                      & Htable & _); [done| |].
    { split; [done|compute_done| |done].
      intros Hin. repeat (apply elem_of_cons in Hin as [Hin|Hin]; [done|]).
      by apply elem_of_nil in Hin. }
    by exists self, w'.
Defined.

(** C9 as it is written fails for a name given twice: the file gets the
    header [a,a], and read back its second column is called [a.1], which is
    none of the initial columns. *)
Lemma init_repeated_name :
  let outcome := __init__ "t.csv" (Some ["a"; "a"]) empty_world in
  outcome.1 = Ok {| self_csv := "t.csv"; self_df := 1 |}
  ∧ disk outcome.2 !! "t.csv" = Some [["a"; "a"]]
  ∧ columns (deref outcome.2 1) = ["a"; "a.1"]
  ∧ "a.1" ∉ ["a"; "a"].
Proof.
  vm_compute. split; [done|]. split; [done|]. split; [done|].
  intros Hin. repeat (apply elem_of_cons in Hin as [Hin|Hin]; [done|]).
  by apply elem_of_nil in Hin.
Qed.

(** ** Cells as text, and back *)

Lemma int_of_str_of_int (z : Z) : int_of_str (str_of_int z) = Some z.
Proof.
  unfold int_of_str, str_of_int. rewrite NilZero.isi.
  - simpl. by rewrite DecimalZ.of_to.
  - destruct z; simpl; try done.
    intros [= Hnil]. by apply DecimalPos.Unsigned.to_uint_nonnil in Hnil.
  - destruct z; simpl; try done.
    intros [= Hnil]. by apply DecimalPos.Unsigned.to_uint_nonnil in Hnil.
Qed.











(** ** Writing the table and opening the file again *)








(** ** The invariant

    [state_ok] is what the theorems above assume of a state.  It holds of
    the connector [__init__] returns and every method keeps it, whether the
    call returns or raises. *)

Lemma frame_ok_reset_index (d : DataFrame) :
  frame_ok d → frame_ok (pd.reset_index d).
Proof.
  intros [Hcols _ Hfull]. split; simpl.
  - done.
  - unfold index. simpl. rewrite relabel_index. apply range_index_NoDup.
  - apply Forall_forall. intros r Hr.
    assert (r.2 ∈ values d) as Hin.
    { rewrite <- (relabel_values (values d)). by apply list_elem_of_fmap_2. }
    apply list_elem_of_fmap in Hin as (r' & -> & Hr').
    rewrite Forall_forall in Hfull. by apply Hfull.
Qed.

Lemma frame_ok_filter (d : DataFrame) (P : Z * list scalar → Prop)
    `{∀ r, Decision (P r)} :
  frame_ok d → frame_ok {| columns := columns d; rows := filter P (rows d) |}.
Proof.
  intros [Hcols Hidx Hfull]. split; simpl.
  - done.
  - unfold index in *. simpl.
    eapply sublist_NoDup; [exact Hidx|].
    apply fmap_sublist, sublist_filter.
  - rewrite Forall_forall in Hfull. apply Forall_forall.
    intros r [_ Hr]%list_elem_of_filter. by apply Hfull.
Qed.

Lemma frame_ok_drop (d d' : DataFrame) (i : Z) :
  frame_ok d → pd.drop i d = Ok d' → frame_ok d'.
Proof.
  intros Hok. unfold pd.drop. destruct (decide _); [|done].
  intros [= <-]. by apply (frame_ok_filter d (λ r, r.1 ≠ i)).
Qed.

Lemma length_reindex_row (names : list string) (d : DataFrame)
    (cells : list scalar) :
  length (pd.reindex_row names d cells) = length names.
Proof. unfold pd.reindex_row. by rewrite length_fmap. Qed.

Lemma frame_ok_concat (a b : DataFrame) :
  frame_ok a → (∀ k, k ∈ columns b → k ∈ columns a) →
  frame_ok (pd.concat_ignore_index a b).
Proof.
  intros [Hcols _ _] Hkeys. unfold pd.concat_ignore_index.
  rewrite (filter_nothing (λ c, c ∉ columns a)).
  2:{ apply Forall_forall. intros k Hk Hnot. by apply Hnot, Hkeys. }
  rewrite app_nil_r. split; simpl.
  - done.
  - unfold index. simpl. rewrite relabel_index. apply range_index_NoDup.
  - apply Forall_forall. intros r Hr.
    assert (r.2 ∈ (relabel ((pd.reindex_row (columns a) a <$> values a)
                            ++ (pd.reindex_row (columns a) b <$> values b))).*2)
      as Hin by by apply list_elem_of_fmap_2.
    rewrite relabel_values in Hin.
    apply elem_of_app in Hin as [Hin|Hin];
      apply list_elem_of_fmap in Hin as (cells & -> & _);
      apply length_reindex_row.
Qed.

Lemma frame_ok_loc_setitem (d : DataFrame) (i : Z) (key : string)
    (value : scalar) :
  frame_ok d → key ∈ columns d → frame_ok (pd.loc_setitem i key value d).
Proof.
  intros [Hcols Hidx Hfull] Hkey. unfold pd.loc_setitem.
  rewrite (decide_True _ _ Hkey).
  destruct (get_loc_Some _ _ Hkey) as (j & -> & Hj). simpl.
  destruct (decide (i ∈ index d)) as [Hi|Hi]; split; simpl.
  - done.
  - unfold index in *. simpl. rewrite <- list_fmap_compose.
    erewrite list_fmap_ext; [exact Hidx|].
    intros _ r _. simpl. by destruct (decide (r.1 = i)).
  - apply Forall_fmap. eapply Forall_impl; [exact Hfull|].
    intros r Hr. simpl. destruct (decide (r.1 = i)); [|done].
    simpl. by rewrite length_insert.
  - done.
  - unfold index in *. simpl. rewrite fmap_app. simpl.
    apply NoDup_app. split; [done|]. split; [|apply NoDup_singleton].
    intros x Hx ->%list_elem_of_singleton. done.
  - apply Forall_app. split; [done|]. constructor; [|done]. simpl.
    by rewrite length_insert, length_replicate.
Qed.

(** A state is live whenever its reference is allocated and the frame it
    points at is in order. *)
Lemma state_ok_intro (self : Self) (w : World) (d : DataFrame) :
  (self_df self < length (heap w))%nat →
  deref w (self_df self) = d → frame_ok d → state_ok (self, w).
Proof. intros Hlt <- Hok. by split. Qed.

Lemma state_ok_store (self : Self) (w : World) (d : DataFrame) :
  (self_df self < length (heap w))%nat → frame_ok d →
  state_ok (self, store (self_df self) d w).
Proof.
  intros Hlt Hok. apply (state_ok_intro _ _ d); [|by apply deref_store|done].
  simpl. by rewrite length_insert.
Qed.

Lemma state_ok_write_read (self : Self) (w : World) :
  state_ok (self, w) → state_ok ((__write_csv mode_w;; read) (self, w)).2.
Proof.
  intros [Halloc Hok]. unfold allocated in Halloc. simpl in Halloc. rewrite write_read_run.
  apply (state_ok_intro _ _ (deref w (self_df self))); [| |done].
  - simpl. rewrite length_app. lia.
  - cbn [fst snd]. by apply deref_grown.
Qed.

(** [read] and the filter only add objects. *)
Lemma read_keeps_ok (st : Self * World) : state_ok st → state_ok (read st).2.
Proof.
  destruct st as [self w]. intros [Halloc Hok]. unfold allocated in Halloc. simpl in Halloc.
  apply (state_ok_intro _ _ (deref w (self_df self))); [| |done].
  - simpl. rewrite length_app. lia.
  - simpl. by apply deref_alloc_old.
Qed.

Lemma filter_keeps_ok (st : Self * World) (key : string) (value : scalar) :
  state_ok st → state_ok (get_filtered_dataframe_with_key key value st).2.
Proof.
  destruct st as [self w]. intros Hst.
  destruct (decide (key ∈ columns (deref w (self_df self)))) as [Hkey|Hkey].
  - rewrite (filter_run _ _ _ _ Hkey). destruct Hst as [Halloc Hok].
    unfold allocated in Halloc. simpl in Halloc.
    apply (state_ok_intro _ _ (deref w (self_df self))); [| |done].
    + simpl. rewrite !length_app. lia.
    + cbn [fst snd]. rewrite <- app_assoc. by apply deref_grown.
  - run. unfold pd.getitem. by rewrite (get_loc_None _ _ Hkey).
Qed.

(** [register] past its check: two new objects, the one-row frame and the
    joint frame, then the common end on the joint frame. *)
Lemma register_run (self : Self) (w : World)
    (key_and_values : list (string * scalar)) :
  (self_df self < length (heap w))%nat →
  keywords_ok key_and_values →
  (list_to_set key_and_values.*1 : gset string)
  = list_to_set (columns (deref w (self_df self))) →
  register key_and_values (self, w)
  = (__write_csv mode_w;; read)
      ({| self_csv := self_csv self;
          self_df := length (heap w
                             ++ [pd.DataFrame_one_row key_and_values]) |},
       {| heap := (heap w ++ [pd.DataFrame_one_row key_and_values])
                  ++ [pd.concat_ignore_index (deref w (self_df self))
                        (pd.DataFrame_one_row key_and_values)];
          disk := disk w; written := written w |}).
Proof.
  intros Halloc Hbound Heq. unfold register.
  rewrite (decide_True _ _ Hbound). run.
  rewrite decide_False by (by intros Hne).
  rewrite !deref_alloc_new, !(deref_alloc_old _ _ _ Halloc). reflexivity.
Qed.

Lemma register_keeps_ok (st : Self * World)
    (key_and_values : list (string * scalar)) :
  state_ok st → state_ok (register key_and_values st).2.
Proof.
  destruct st as [self w]. intros Hst. pose proof Hst as [Halloc Hok].
  unfold allocated in Halloc. simpl in Halloc. unfold table in Hok. simpl in Hok.
  destruct (decide (keywords_ok key_and_values)) as [Hbound|Hnot];
    [|by rewrite register_unbound].
  destruct (decide ((list_to_set key_and_values.*1 : gset string)
                    = list_to_set (columns (deref w (self_df self)))))
    as [Heq|Hne].
  - rewrite (register_run _ _ _ Halloc Hbound Heq).
    apply state_ok_write_read.
    apply (state_ok_intro _ _
             (pd.concat_ignore_index (deref w (self_df self))
                (pd.DataFrame_one_row key_and_values))).
    + simpl. rewrite (length_app (_ ++ _)). simpl. lia.
    + unfold deref. simpl. by rewrite lookup_app_r, Nat.sub_diag by lia.
    + apply frame_ok_concat; [done|]. intros k Hk.
      rewrite <- (elem_of_list_to_set (C := gset string)), <- Heq.
      by apply elem_of_list_to_set.
  - unfold register. rewrite (decide_True _ _ Hbound).
    run. by rewrite decide_True.
Qed.

(** The loop of [delete] keeps the state live and the object the same. *)
Lemma drop_each_keeps_ok (row_index : list Z) :
  ∀ (idx : option Z) (self : Self) (w : World),
    state_ok (self, w) →
    state_ok (drop_each row_index idx (self, w)).2.2
    ∧ (drop_each row_index idx (self, w)).2.2.1 = self.
Proof.
  induction row_index as [|i row_index IH]; intros idx self w Hst; [done|].
  simpl. destruct (pd.drop i (deref w (self_df self))) as [d'|e] eqn:Hdrop.
  - apply IH. destruct Hst as [Halloc Hok].
    apply state_ok_store; [done|]. by apply (frame_ok_drop _ _ _ Hok Hdrop).
  - done.
Qed.

Lemma delete_keeps_ok (st : Self * World) (row_index : list Z) :
  state_ok st → state_ok (delete row_index st).2.
Proof.
  destruct st as [self w]. intros Hst.
  destruct (drop_each_keeps_ok row_index None self w Hst) as [Hst1 Hself].
  unfold delete.
  destruct (drop_each row_index None (self, w)) as [idx [[[]|e] [self1 w1]]].
  - simpl in Hself. subst self1. destruct Hst1 as [Halloc Hok].
    unfold allocated in Halloc. simpl in Halloc. unfold table in Hok. simpl in Hok.
    change (state_ok
      ((__write_csv mode_w;; read)
         (self, store (self_df self)
                  (pd.reset_index (deref w1 (self_df self))) w1)).2).
    apply state_ok_write_read, state_ok_store; [done|].
    by apply frame_ok_reset_index.
  - simpl in Hst1. by destruct e as [| | |k| | | |], idx.
Qed.

Lemma update_keeps_ok (st : Self * World) (row_index : Z) (key : string)
    (value : scalar) :
  state_ok st → state_ok (update row_index key value st).2.
Proof.
  destruct st as [self w]. intros Hst. pose proof Hst as [Halloc Hok].
  unfold allocated in Halloc. simpl in Halloc. unfold table in Hok. simpl in Hok.
  unfold update. unfold mbind at 1 2, M_bind at 1 2, get_self, get_world.
  cbn [fst snd].
  destruct (decide _); [done|].
  destruct (negb _); [done|].
  destruct (decide (key ∉ _)) as [|Hkey%dec_stable]; [done|].
  change (state_ok
    ((__write_csv mode_w;; read)
       (self, store (self_df self)
                (pd.loc_setitem row_index key value (deref w (self_df self)))
                w)).2).
  apply state_ok_write_read, state_ok_store; [done|].
  by apply frame_ok_loc_setitem.
Qed.

(** *** Header names after the renaming *)

Lemma append_nil (s : string) : "" +:+ s = s.
Proof. reflexivity. Qed.

Lemma append_cons (c : ascii) (s t : string) :
  String c s +:+ t = String c (s +:+ t).
Proof. reflexivity. Qed.

Lemma no_dot_before_dot (x y : string) :
  ¬ Forall (λ c, c ≠ "."%char) (list_ascii_of_string (x +:+ "." +:+ y)).
Proof.
  induction x as [|c x IH];
    repeat first [rewrite append_nil | rewrite append_cons]; simpl.
  - by intros [Hc _]%Forall_cons.
  - by intros [_ Hrest]%Forall_cons.
Qed.

(** A name and its number are read off a renamed name at the last dot. *)
Lemma rename_split (s1 : string) :
  ∀ s2 d1 d2 : string,
    Forall (λ c, c ≠ "."%char) (list_ascii_of_string d1) →
    Forall (λ c, c ≠ "."%char) (list_ascii_of_string d2) →
    s1 +:+ "." +:+ d1 = s2 +:+ "." +:+ d2 → s1 = s2 ∧ d1 = d2.
Proof.
  induction s1 as [|c s1 IH]; intros [|c2 s2] d1 d2 H1 H2 Heq;
    repeat first [rewrite append_nil in Heq | rewrite append_cons in Heq].
  - injection Heq as ->. done.
  - injection Heq as <- ->. by apply no_dot_before_dot in H1.
  - injection Heq as -> <-. by apply no_dot_before_dot in H2.
  - injection Heq as -> Heq. by destruct (IH _ _ _ H1 H2 Heq) as [-> ->].
Qed.

Lemma uint_no_dot (d : Decimal.uint) :
  Forall (λ c, c ≠ "."%char)
         (list_ascii_of_string (NilEmpty.string_of_uint d)).
Proof. induction d; simpl; by constructor. Qed.

Lemma str_of_nat_no_dot (n : nat) :
  Forall (λ c, c ≠ "."%char)
         (list_ascii_of_string (str_of_int (Z.of_nat n))).
Proof.
  unfold str_of_int. destruct (Z.of_nat n) as [|p|p] eqn:Hn; [| |lia].
  - simpl. by repeat constructor.
  - simpl. unfold NilZero.string_of_uint.
    destruct (Pos.to_uint p) eqn:Hp; try apply uint_no_dot.
    by apply DecimalPos.Unsigned.to_uint_nonnil in Hp.
Qed.

Lemma rename_inj (col1 col2 : string) (k1 k2 : nat) :
  col1 +:+ "." +:+ str_of_int (Z.of_nat k1)
  = col2 +:+ "." +:+ str_of_int (Z.of_nat k2) →
  col1 = col2 ∧ k1 = k2.
Proof.
  intros Heq.
  apply rename_split in Heq as [-> Heq]; try apply str_of_nat_no_dot.
  split; [done|].
  assert (Some (Z.of_nat k1) = Some (Z.of_nat k2)) as Hk.
  { rewrite <- !int_of_str_of_int. by rewrite Heq. }
  injection Hk as Hk. lia.
Qed.

Lemma count_zero (col : string) (seen : list string) :
  length (filter (λ c, c = col) seen) = 0%nat → col ∉ seen.
Proof.
  intros Hlen Hin. apply nil_length_inv in Hlen.
  assert (col ∈ filter (λ c, c = col) seen) as Hcol
    by by apply list_elem_of_filter.
  rewrite Hlen in Hcol. by apply elem_of_nil in Hcol.
Qed.

Lemma count_cons (col x : string) (seen : list string) :
  (length (filter (λ c, c = col) seen)
   ≤ length (filter (λ c, c = col) (x :: seen)))%nat
  ∧ length (filter (λ c, c = col) (col :: seen))
    = S (length (filter (λ c, c = col) seen)).
Proof.
  split.
  - destruct (decide (x = col)).
    + rewrite filter_cons_True by done. simpl. lia.
    + by rewrite filter_cons_False.
  - by rewrite filter_cons_True.
Qed.

(** The names the renaming gives out are pairwise distinct: each is a name
    of the header met for the first time, or a renamed name, which is no
    name of the header and carries the number of earlier occurrences. *)
Lemma dedup_names_spec (header names : list string) :
  ∀ seen out : list string,
    pd.dedup_names header seen names = Some out →
    (∀ x, x ∈ names → x ∈ header) →
    length out = length names
    ∧ NoDup out
    ∧ ∀ x, x ∈ out →
        (x ∈ names ∧ x ∉ seen)
        ∨ ((x ∉ header)
           ∧ (∃ col k, x = col +:+ "." +:+ str_of_int (Z.of_nat k)
                       ∧ (length (filter (λ c, c = col) seen) ≤ k)%nat)).
Proof.
  induction names as [|col names IH]; intros seen out Hrun Hsub.
  { injection Hrun as <-. split; [done|]. split; [constructor|].
    intros x Hx. by apply elem_of_nil in Hx. }
  simpl in Hrun.
  assert (∀ x, x ∈ names → x ∈ header) as Hsub'
    by (intros x Hx; apply Hsub; by right).
  assert (col ∈ header) as Hcol by (apply Hsub; by left).
  destruct (count_cons col col seen) as [_ Hcount].
  destruct (decide (length (filter (λ c, c = col) seen) = 0%nat)) as [Hz|Hnz].
  - destruct (pd.dedup_names header (col :: seen) names) as [out'|] eqn:Hrest;
      [|done].
    injection Hrun as <-.
    destruct (IH _ _ Hrest Hsub') as (Hlen & Hnd & Hchar).
    split; [simpl; by rewrite Hlen|]. split.
    + constructor; [|done]. intros Hin.
      destruct (Hchar _ Hin) as [[_ Hnot]|[Hnot _]]; [|done].
      apply Hnot. by left.
    + intros x [->|Hx]%elem_of_cons.
      * left. split; [by left|]. by apply count_zero.
      * destruct (Hchar _ Hx) as [[Hin Hnot]|(Hnot & c & k & -> & Hk)].
        -- left. split; [by right|]. intros Hseen. apply Hnot. by right.
        -- right. split; [done|]. exists c, k. split; [done|].
           destruct (count_cons c col seen) as [Hle _]. lia.
  - destruct (decide (_ ∈ header)) as [|Hfresh]; [done|].
    destruct (pd.dedup_names header (col :: seen) names) as [out'|] eqn:Hrest;
      [|done].
    injection Hrun as <-.
    destruct (IH _ _ Hrest Hsub') as (Hlen & Hnd & Hchar).
    split; [simpl; by rewrite Hlen|]. split.
    + constructor; [|done]. intros Hin.
      destruct (Hchar _ Hin) as [[Hnames _]|(_ & c & k & Heq & Hk)].
      * by apply Hfresh, Hsub'.
      * apply rename_inj in Heq as [<- <-]. lia.
    + intros x [->|Hx]%elem_of_cons.
      * right. split; [done|]. by eexists _, _.
      * destruct (Hchar _ Hx) as [[Hin Hnot]|(Hnot & c & k & -> & Hk)].
        -- left. split; [by right|]. intros Hseen. apply Hnot. by right.
        -- right. split; [done|]. exists c, k. split; [done|].
           destruct (count_cons c col seen) as [Hle _]. lia.
Qed.

(** Every frame [read_csv] gives is in order. *)
Lemma read_csv_frame_ok (text : csv_text) (d : DataFrame) :
  pd.read_csv text = Ok d → frame_ok d.
Proof.
  unfold pd.read_csv. destruct (existsb _ _); [done|].
  destruct (filter _ text) as [|header body]; [done|].
  destruct (decide _); [done|].
  destruct (forallb _ body) eqn:Hwidth; [|done]. simpl.
  destruct (pd.dedup_names header [] header) as [names|] eqn:Hnames; [|done].
  destruct (mapM _ _) as [dtypes|] eqn:Htypes; [|done].
  intros [= <-].
  destruct (dedup_names_spec _ _ _ _ Hnames) as (Hlen & Hnd & _); [done|].
  apply length_mapM in Htypes. rewrite length_seq in Htypes.
  split; simpl.
  - done.
  - unfold index. simpl. rewrite relabel_index. apply range_index_NoDup.
  - apply Forall_forall. intros r Hr.
    assert (r.2 ∈ (relabel (zip_with pd.parse dtypes <$> body)).*2) as Hin
      by by apply list_elem_of_fmap_2.
    rewrite relabel_values in Hin.
    apply list_elem_of_fmap in Hin as (record & -> & Hrecord).
    rewrite forallb_forall in Hwidth.
    apply list_elem_of_In, Hwidth, bool_decide_eq_true in Hrecord.
    rewrite length_zip_with. lia.
Qed.

(** The connector [__init__] returns is live. *)
Lemma init_gives_ok (csv_file : string) (initial_keys : option (list string))
    (w w' : World) (self : Self) :
  __init__ csv_file initial_keys w = (Ok self, w') → state_ok (self, w').
Proof.
  unfold __init__.
  assert (∀ w1, __read_csv ({| self_csv := csv_file;
                               self_df := length (heap w1) |}, w1)
               = match disk w1 !! csv_file with
                 | None => (Raise (FileNotFoundError csv_file),
                            ({| self_csv := csv_file;
                                self_df := length (heap w1) |}, w1))
                 | Some text =>
                     match pd.read_csv text with
                     | Ok d => (Ok (length (heap w1)),
                                ({| self_csv := csv_file;
                                    self_df := length (heap w1) |},
                                 {| heap := heap w1 ++ [d]; disk := disk w1;
                                    written := written w1 |}))
                     | Raise e => (Raise e,
                                   ({| self_csv := csv_file;
                                       self_df := length (heap w1) |}, w1))
                     end
                 end) as Hread.
  { intros w1. run. destruct (disk w1 !! csv_file); [|done]. run.
    by destruct (pd.read_csv _). }
  assert (∀ w1,
            (let (r, p) := __read_csv ({| self_csv := csv_file;
                                          self_df := length (heap w1) |}, w1) in
             match r with
             | Ok ref =>
                 let (_, w2) := p in
                 (Ok {| self_csv := csv_file; self_df := ref |}, w2)
             | Raise e => let (_, w2) := p in (Raise e, w2)
             end) = (Ok self, w') → state_ok (self, w')) as Hend.
  { intros w1. rewrite Hread. destruct (disk w1 !! csv_file); [|done].
    destruct (pd.read_csv _) as [d|e] eqn:Hd; [|done].
    intros [= <- <-]. apply (state_ok_intro _ _ d).
    - simpl. rewrite length_app. simpl. lia.
    - apply deref_alloc_new.
    - by apply (read_csv_frame_ok _ _ Hd). }
  destruct (disk w !! csv_file) as [text|].
  - cbn iota beta zeta. apply Hend.
  - destruct initial_keys as [[|key keys]|]; [done| |done].
    unfold alloc. cbn iota beta zeta. apply Hend.
Qed.

(** ** A run of the class

    A new file with the columns [a] and [b]; one row is registered, one of
    its cells replaced, and the row deleted.  Each step leaves the table and
    the file in step. *)
Example run_of_the_class :
  let opened := __init__ "t.csv" (Some ["a"; "b"]) empty_world in
  let st0 := ({| self_csv := "t.csv"; self_df := 1 |}, opened.2) in
  let st1 := (register [("a", PyInt 1); ("b", PyStr "x")] st0).2 in
  let st2 := (update 0 "b" (PyStr "y") st1).2 in
  let st3 := (delete [0] st2).2 in
  opened.1 = Ok st0.1
  ∧ rows (table st0) = [] ∧ file st0 = Some [["a"; "b"]]
  ∧ rows (table st1) = [(0, [PyInt 1; PyStr "x"])]
  ∧ file st1 = Some [["a"; "b"]; ["1"; "x"]]
  ∧ rows (table st2) = [(0, [PyInt 1; PyStr "y"])]
  ∧ file st2 = Some [["a"; "b"]; ["1"; "y"]]
  ∧ rows (table st3) = [] ∧ file st3 = Some [["a"; "b"]].
Proof. vm_compute. done. Qed.


(** ** What the calls do in general

    The lemmas of this part describe the three mutating methods whatever
    their arguments: a call raises and changes no file, or it reaches the
    common end, [__write_csv] followed by [read]. *)

(** The loop of [delete], whatever the requests: it drops the labels
    [done_], one after the other, and then ends or stops at a label the
    frame no longer has.  Only the connector's frame changes. *)
Lemma drop_each_outcome (row_index : list Z) :
  ∀ (idx : option Z) (self : Self) (w : World),
    (self_df self < length (heap w))%nat →
    ∃ idx' r w' done_,
      drop_each row_index idx (self, w) = (idx', (r, (self, w')))
      ∧ disk w' = disk w ∧ written w' = written w
      ∧ length (heap w') = length (heap w)
      ∧ (∀ ref, ref ≠ self_df self → heap w' !! ref = heap w !! ref)
      ∧ columns (deref w' (self_df self)) = columns (deref w (self_df self))
      ∧ rows (deref w' (self_df self))
        = filter (λ r, r.1 ∉ done_) (rows (deref w (self_df self)))
      ∧ NoDup done_
      ∧ Forall (λ i, i ∈ index (deref w (self_df self))) done_
      ∧ match r with
        | Ok _ => done_ = row_index
        | Raise e =>
            ∃ bad rest,
              row_index = done_ ++ bad :: rest
              ∧ e = KeyError (Row bad) ∧ idx' = Some bad
              ∧ (bad ∉ index (deref w (self_df self)) ∨ bad ∈ done_)
        end.
Proof.
  induction row_index as [|i row_index IH]; intros idx self w Hlt.
  { exists idx, (Ok ()), w, []. simpl.
    split; [done|]. split; [done|]. split; [done|]. split; [done|].
    split; [done|]. split; [done|]. split.
    { symmetry. apply filter_all, Forall_forall. intros r _.
      apply not_elem_of_nil. }
    split; [constructor|]. split; [constructor|]. done. }
  simpl. destruct (decide (i ∈ index (deref w (self_df self)))) as [Hin|Hout].
  - rewrite (drop_present _ _ Hin).
    set (d1 := {| columns := columns (deref w (self_df self));
                  rows := filter (λ r, r.1 ≠ i) (rows (deref w (self_df self))) |}).
    assert (deref (store (self_df self) d1 w) (self_df self) = d1) as Hd1
      by by apply deref_store.
    assert (∀ j, j ∈ index d1 ↔ j ∈ index (deref w (self_df self)) ∧ j ≠ i)
      as Hidx1.
    { intros j. unfold index, d1. simpl. apply elem_of_index_dropped. }
    destruct (IH (Some i) self (store (self_df self) d1 w))
      as (idx' & r & w' & done_ & Hrun & Hdisk & Hwr & Hlen & Hothers & Hcols
          & Hrows & Hnd & Hall & Hr).
    { simpl. by rewrite length_insert. }
    rewrite Hd1 in Hcols, Hrows, Hall, Hr.
    exists idx', r, w', (i :: done_). simpl in Hrun, Hlen, Hothers.
    split; [exact Hrun|]. split; [done|]. split; [done|].
    split; [by rewrite Hlen, length_insert|]. split.
    { intros ref Href. rewrite (Hothers ref Href).
      apply list_lookup_insert_ne. congruence. }
    split; [done|]. split.
    { rewrite Hrows. unfold d1. simpl. rewrite list_filter_filter.
      apply list_filter_iff. intros row. rewrite not_elem_of_cons. tauto. }
    split.
    { constructor; [|done]. intros Hi.
      rewrite Forall_forall in Hall. apply Hall, Hidx1 in Hi. tauto. }
    split.
    { constructor; [done|]. eapply Forall_impl; [exact Hall|].
      intros j Hj. by apply Hidx1 in Hj as [Hj _]. }
    destruct r as [u|e].
    + by rewrite Hr.
    + destruct Hr as (bad & rest & -> & -> & -> & Hbad).
      exists bad, rest. split; [done|]. split; [done|]. split; [done|].
      destruct Hbad as [Hbad|Hbad]; [|right; by right].
      destruct (decide (bad = i)) as [->|Hne]; [right; by left|].
      left. intros Hb. apply Hbad, Hidx1. done.
  - rewrite (drop_absent _ _ Hout).
    exists (Some i), (Raise (KeyError (Row i))), w, []. simpl.
    split; [done|]. split; [done|]. split; [done|]. split; [done|].
    split; [done|]. split; [done|]. split.
    { symmetry. apply filter_all, Forall_forall. intros r _.
      apply not_elem_of_nil. }
    split; [constructor|]. split; [constructor|].
    exists i, row_index. split; [done|]. split; [done|]. split; [done|].
    by left.
Qed.

(** [delete] after its loop: the loop ended and the call reaches the common
    end on the relabelled frame, or the loop stopped at [bad] and the call
    raises [IndexError] for it. *)
Lemma delete_after_loop (row_index : list Z) (self : Self) (w w' : World)
    (idx' : option Z) (r : result ()) :
  drop_each row_index None (self, w) = (idx', (r, (self, w'))) →
  match r with
  | Ok _ =>
      delete row_index (self, w)
      = (__write_csv mode_w;; read)
          (self, store (self_df self)
                   (pd.reset_index (deref w' (self_df self))) w')
  | Raise e =>
      ∀ bad, e = KeyError (Row bad) → idx' = Some bad →
             delete row_index (self, w) = (Raise (IndexError bad), (self, w'))
  end.
Proof.
  intros Hrun. unfold delete. rewrite Hrun. destruct r as [u|e].
  - reflexivity.
  - by intros bad -> ->.
Qed.

(** [update] past its three checks. *)
Lemma update_run (self : Self) (w : World) (row_index : Z) (key : string)
    (value : scalar) :
  index (deref w (self_df self)) ≠ [] →
  py_min (index (deref w (self_df self))) ≤ row_index
  ≤ py_max (index (deref w (self_df self))) →
  key ∈ columns (deref w (self_df self)) →
  update row_index key value (self, w)
  = (__write_csv mode_w;; read)
      (self, store (self_df self)
               (pd.loc_setitem row_index key value (deref w (self_df self)))
               w).
Proof.
  intros Hne Hrange Hkey. run.
  rewrite decide_False by (by intros ?%nil_length_inv).
  rewrite !bool_decide_eq_true_2 by lia. simpl.
  rewrite decide_False by (by intros Hnot). reflexivity.
Qed.

(** [update] raises and changes nothing, or it passed its checks. *)
Lemma update_outcome (st : Self * World) (row_index : Z) (key : string)
    (value : scalar) :
  (∃ e, update row_index key value st = (Raise e, st))
  ∨ (index (table st) ≠ []
     ∧ py_min (index (table st)) ≤ row_index ≤ py_max (index (table st))
     ∧ key ∈ columns (table st)).
Proof.
  destruct st as [self w]. unfold table. simpl.
  destruct (decide (index (deref w (self_df self)) = [])) as [Hnil|Hne].
  { left. exists ValueError. run. rewrite Hnil. simpl.
    by destruct (decide (0 = 0)%nat). }
  destruct (decide (py_min (index (deref w (self_df self))) ≤ row_index
                    ≤ py_max (index (deref w (self_df self))))) as [Hin|Hout].
  2:{ left. exists (IndexError row_index). run.
      rewrite decide_False by (by intros ?%nil_length_inv).
      destruct (bool_decide (_ ≤ row_index)) eqn:E1;
        destruct (bool_decide (row_index ≤ _)) eqn:E2; simpl; try done.
      apply bool_decide_eq_true in E1, E2. lia. }
  destruct (decide (key ∈ columns (deref w (self_df self)))) as [Hkey|Hkey].
  - by right.
  - left. exists (KeyError (Column key)). run.
    rewrite decide_False by (by intros ?%nil_length_inv).
    rewrite !bool_decide_eq_true_2 by lia. simpl. by rewrite decide_True.
Qed.

(** [register] raises and changes nothing, or its keywords are bound and
    its names are the columns. *)
Lemma register_outcome (st : Self * World)
    (key_and_values : list (string * scalar)) :
  (∃ e, register key_and_values st = (Raise e, st))
  ∨ (keywords_ok key_and_values
     ∧ (list_to_set key_and_values.*1 : gset string)
       = list_to_set (columns (table st))).
Proof.
  destruct (decide (keywords_ok key_and_values)) as [Hbound|Hnot].
  2:{ left. exists TypeError. by apply register_unbound. }
  destruct st as [self w]. unfold table. simpl.
  destruct (decide ((list_to_set key_and_values.*1 : gset string)
                    = list_to_set (columns (deref w (self_df self)))))
    as [Heq|Hne]; [by right|].
  left. exists ValueError. unfold register. rewrite (decide_True _ _ Hbound).
  run. by rewrite decide_True.
Qed.

(** The common end leaves the objects of the heap in their places. *)
Lemma write_read_old (self : Self) (w : World) (ref : nat) :
  (ref < length (heap w))%nat →
  heap ((__write_csv mode_w;; read) (self, w)).2.2 !! ref = heap w !! ref.
Proof. intros Hlt. rewrite write_read_run. simpl. by apply lookup_app_l. Qed.

(** Dropping labels that are pairwise distinct and all present takes away
    as many rows as there are labels. *)
Lemma length_without_labels (l : list (Z * list scalar)) (labels : list Z) :
  NoDup l.*1 → NoDup labels → Forall (λ i, i ∈ l.*1) labels →
  (length (filter (λ r, r.1 ∉ labels) l) + length labels = length l)%nat.
Proof.
  intros Hl Hlabels Hall.
  rewrite <- (Permutation_length (filter_app_complement (λ r, r.1 ∉ labels) l)).
  rewrite length_app. f_equal.
  rewrite <- (length_fmap fst). apply Permutation_length.
  apply NoDup_Permutation; [done| |].
  - eapply sublist_NoDup; [exact Hl|]. apply fmap_sublist, sublist_filter.
  - intros i. rewrite list_elem_of_fmap. split.
    + intros Hi. rewrite Forall_forall in Hall.
      pose proof (Hall _ Hi) as Hin.
      apply list_elem_of_fmap in Hin as (r & Hr1 & Hr).
      exists r. split; [done|]. apply list_elem_of_filter. split; [|done].
      intros Hnot. apply Hnot. by rewrite <- Hr1.
    + intros (r & -> & [Hin _]%list_elem_of_filter).
      by apply dec_stable in Hin.
Qed.

(** The loop of [delete] on labels that are pairwise distinct and all
    present: it ends, with exactly the rows of these labels gone. *)
Lemma drop_each_succeeds (row_index : list Z) (idx : option Z) (self : Self)
    (w : World) :
  (self_df self < length (heap w))%nat →
  NoDup row_index →
  Forall (λ i, i ∈ index (deref w (self_df self))) row_index →
  ∃ idx' u w',
    drop_each row_index idx (self, w) = (idx', (Ok u, (self, w')))
    ∧ disk w' = disk w ∧ written w' = written w
    ∧ length (heap w') = length (heap w)
    ∧ (∀ ref, ref ≠ self_df self → heap w' !! ref = heap w !! ref)
    ∧ columns (deref w' (self_df self)) = columns (deref w (self_df self))
    ∧ rows (deref w' (self_df self))
      = filter (λ r, r.1 ∉ row_index) (rows (deref w (self_df self))).
Proof.
  intros Hlt Hnd Hall.
  destruct (drop_each_outcome row_index idx self w Hlt)
    as (idx' & r & w' & done_ & Hrun & Hdisk & Hwr & Hlen & Hothers & Hcols
        & Hrows & _ & _ & Hr).
  destruct r as [u|e].
  - subst done_. by exists idx', u, w'.
  - exfalso. destruct Hr as (bad & rest & -> & _ & _ & [Hbad|Hbad]).
    + apply Hbad. rewrite Forall_forall in Hall. apply Hall.
      apply elem_of_app. right. by left.
    + apply NoDup_app in Hnd as (_ & Hdisj & _).
      apply (Hdisj bad Hbad). by left.
Qed.

(** ** [read] *)

(** [read] returns a copy and changes nothing: a new object with the content
    of the table, the connector, its table, the disk and every other object
    as they were.  Whatever the caller then does to the copy, the table
    stays as it is. *)
Theorem read_gives_copy (st : Self * World) :
  allocated st →
  ∃ ref st',
    read st = (Ok ref, st')
    ∧ fresh_copy st st' ref
    ∧ st'.1 = st.1
    ∧ table st' = table st
    ∧ disk st'.2 = disk st.2
    ∧ written st'.2 = written st.2
    ∧ (∀ old, (old < length (heap st.2))%nat →
              heap st'.2 !! old = heap st.2 !! old)
    ∧ (∀ d, table (st'.1, store ref d st'.2) = table st).
Proof.
  destruct st as [self w]. unfold allocated. simpl. intros Halloc.
  exists (length (heap w)),
    (self, {| heap := heap w ++ [deref w (self_df self)];
              disk := disk w; written := written w |}).
  assert (table (self, {| heap := heap w ++ [deref w (self_df self)];
                          disk := disk w; written := written w |})
          = deref w (self_df self)) as Htable.
  { unfold table. simpl. by apply deref_alloc_old. }
  split; [reflexivity|]. split.
  { unfold fresh_copy. rewrite Htable. simpl. split; [lia|]. split; [lia|].
    by rewrite lookup_app_r, Nat.sub_diag by lia. }
  split; [done|]. split; [exact Htable|]. split; [done|]. split; [done|].
  split.
  { intros old Hold. simpl. by apply lookup_app_l. }
  intros d. unfold table, deref, store. simpl.
  rewrite list_lookup_insert_ne by lia. by rewrite lookup_app_l.
Qed.

(** [read] on the table of three rows. *)
Lemma read_gives_copy_witness :
  ∃ ref st',
    read demo = (Ok ref, st')
    ∧ fresh_copy demo st' ref
    ∧ table st' = table demo
    ∧ (∀ d, table (st'.1, store ref d st'.2) = table demo).
Proof.
  destruct (read_gives_copy demo) as (ref & st' & Hrun & Hcopy & _ & Htable
                                        & _ & _ & _ & Hstore).
  { unfold allocated. simpl. lia. }
  by exists ref, st'.
Defined.

(** ** [delete], any number of labels *)

(** [delete] with labels that are pairwise distinct and all present
    succeeds.  The rows of these labels go, whatever the order of the
    requests, and the others stay, in order; the labels are renumbered once,
    at the end; the file is written and a copy returned. *)
Theorem delete_many (st : Self * World) (row_index : list Z) :
  state_ok st →
  NoDup row_index →
  Forall (λ i, i ∈ index (table st)) row_index →
  ∃ ref st',
    delete row_index st = (Ok ref, st')
    ∧ columns (table st') = columns (table st)
    ∧ values (table st')
      = (filter (λ r, r.1 ∉ row_index) (rows (table st))).*2
    ∧ contiguous (table st')
    ∧ (length (rows (table st')) + length row_index
       = length (rows (table st)))%nat
    ∧ rewrote_file st st'
    ∧ fresh_copy st st' ref.
Proof.
  destruct st as [self w]. intros [Halloc Hok] Hnd Hall.
  unfold allocated in Halloc. unfold table in *. simpl in *.
  destruct (drop_each_succeeds row_index None self w Halloc Hnd Hall)
    as (idx' & u & w' & Hrun & Hdisk & Hwr & Hlen & _ & Hcols & Hrows).
  pose proof (delete_after_loop _ _ _ _ _ _ Hrun) as Hdelete. simpl in Hdelete.
  set (d' := deref w' (self_df self)) in *.
  set (w2 := store (self_df self) (pd.reset_index d') w') in *.
  assert (deref w2 (self_df self) = pd.reset_index d') as Hd2.
  { apply deref_store. by rewrite Hlen. }
  destruct (write_read_end (self, w) self w2) as (Htable & Hfile & Hcopy);
    [unfold allocated, w2; simpl; by rewrite length_insert, Hlen
    |unfold w2; simpl; by rewrite length_insert, Hlen
    |unfold w2; simpl; done|done|].
  exists (length (heap w2)), ((__write_csv mode_w;; read) (self, w2)).2.
  rewrite Hdelete. split; [by rewrite write_read_run|].
  unfold table in *. rewrite Htable, Hd2.
  split; [done|]. split.
  { unfold values at 1, pd.reset_index. simpl. rewrite relabel_values.
    unfold values. by rewrite Hrows. }
  split.
  { unfold contiguous, index, pd.reset_index. simpl.
    by rewrite relabel_index, length_relabel. }
  split; [|done].
  unfold pd.reset_index. simpl. rewrite length_relabel. unfold values.
  rewrite length_fmap, Hrows.
  apply length_without_labels; [apply (labels_distinct _ Hok)|done|done].
Qed.

(** [delete(2, 0)] on the table of three rows. *)
Lemma delete_many_witness :
  ∃ ref st',
    delete [2; 0] demo = (Ok ref, st')
    ∧ values (table st') = [[PyStr "bob"; PyInt 27]]
    ∧ contiguous (table st')
    ∧ rewrote_file demo st'.
Proof.
  destruct (delete_many demo [2; 0]) as (ref & st' & Hrun & _ & Hvalues
                                           & Hcont & _ & Hfile & _).
  - exact demo_ok.
  - compute_done.
  - compute_done.
  - exists ref, st'. split; [done|]. split; [|done].
    rewrite Hvalues. reflexivity.
Defined.

(** [delete] returns exactly when its labels are pairwise distinct and all
    labels of the table: a label given twice makes the call raise although
    the table has it. *)
Theorem delete_succeeds_iff (st : Self * World) (row_index : list Z) :
  allocated st →
  (∃ ref st', delete row_index st = (Ok ref, st'))
  ↔ NoDup row_index ∧ Forall (λ i, i ∈ index (table st)) row_index.
Proof.
  destruct st as [self w]. unfold allocated, table. simpl. intros Halloc.
  split.
  - intros (ref & st' & Hdelete).
    destruct (drop_each_outcome row_index None self w Halloc)
      as (idx' & r & w' & done_ & Hrun & _ & _ & _ & _ & _ & _ & Hnd & Hall
          & Hr).
    pose proof (delete_after_loop _ _ _ _ _ _ Hrun) as Hafter.
    destruct r as [u|e].
    + by subst done_.
    + destruct Hr as (bad & rest & _ & -> & -> & _).
      by rewrite (Hafter bad) in Hdelete.
  - intros [Hnd Hall].
    destruct (drop_each_succeeds row_index None self w Halloc Hnd Hall)
      as (idx' & u & w' & Hrun & _).
    pose proof (delete_after_loop _ _ _ _ _ _ Hrun) as Hdelete.
    simpl in Hdelete. rewrite Hdelete, write_read_run. by eexists _, _.
Qed.

(** [delete(1, 1)] raises on the table of three rows; [delete(1)] does
    not. *)
Lemma delete_succeeds_iff_witness :
  (∃ ref st', delete [1] demo = (Ok ref, st'))
  ∧ ¬ (∃ ref st', delete [1; 1] demo = (Ok ref, st')).
Proof.
  assert (allocated demo) as Halloc by (unfold allocated; simpl; lia).
  split.
  - apply (delete_succeeds_iff demo [1] Halloc). split; compute_done.
  - intros [Hnd _]%(delete_succeeds_iff demo [1; 1] Halloc).
    apply NoDup_cons in Hnd as [Hnot _]. apply Hnot. by left.
Defined.

(** A [delete] that raises has dropped, in memory, the rows of the labels
    before the one it names, without renumbering, and has left the file
    alone.  So when the file held the table and at least one label came
    before the bad one, the file no longer holds the table. *)
Theorem delete_failure_out_of_step (st st' : Self * World)
    (row_index : list Z) (e : exn) :
  allocated st →
  delete row_index st = (Raise e, st') →
  ∃ done_ bad rest,
    row_index = done_ ++ bad :: rest
    ∧ e = IndexError bad
    ∧ st'.1 = st.1
    ∧ columns (table st') = columns (table st)
    ∧ rows (table st') = filter (λ r, r.1 ∉ done_) (rows (table st))
    ∧ file st' = file st
    ∧ written st'.2 = written st.2
    ∧ (in_step st → done_ ≠ [] → ¬ in_step st').
Proof.
  destruct st as [self w]. unfold allocated, table. simpl.
  intros Halloc Hdelete.
  destruct (drop_each_outcome row_index None self w Halloc)
    as (idx' & r & w' & done_ & Hrun & Hdisk & Hwr & _ & _ & Hcols & Hrows
        & _ & Hall & Hr).
  pose proof (delete_after_loop _ _ _ _ _ _ Hrun) as Hafter.
  destruct r as [u|e'].
  { simpl in Hafter. by rewrite Hafter, write_read_run in Hdelete. }
  destruct Hr as (bad & rest & Hsplit & -> & -> & _).
  rewrite (Hafter bad) in Hdelete by done. injection Hdelete as <- <-.
  exists done_, bad, rest. unfold table, file, in_step. simpl.
  split; [done|]. split; [done|]. split; [done|]. split; [done|].
  split; [done|]. split; [by rewrite Hdisk|]. split; [done|].
  intros Hstep Hdone Hstep'. unfold file, table in Hstep, Hstep'.
  simpl in Hstep, Hstep'. rewrite Hdisk, Hstep in Hstep'.
  injection Hstep' as _ Hbody.
  apply (f_equal length) in Hbody. unfold values in Hbody.
  rewrite !length_fmap, Hrows in Hbody.
  destruct done_ as [|i done_]; [done|].
  apply Forall_cons in Hall as [Hi _].
  apply list_elem_of_fmap in Hi as (row & Hrow & Hin).
  pose proof (length_filter_lt (λ r : Z * list scalar, r.1 ∉ i :: done_)
                _ row Hin) as Hlt.
  rewrite Hbody in Hlt. apply Nat.lt_irrefl in Hlt; [done|].
  intros Hnot. apply Hnot. rewrite <- Hrow. by left.
Qed.

(** [delete(1, 7)] on the table of three rows: row [1] is gone from memory
    and the file still has it. *)
Lemma delete_failure_out_of_step_witness :
  ∃ done_ bad rest,
    [1; 7] = done_ ++ bad :: rest
    ∧ IndexError 7 = IndexError bad
    ∧ rows (table demo_hole) = filter (λ r, r.1 ∉ done_) (rows (table demo))
    ∧ file demo_hole = file demo
    ∧ (in_step demo → done_ ≠ [] → ¬ in_step demo_hole).
Proof.
  destruct (delete_failure_out_of_step demo demo_hole [1; 7] (IndexError 7))
    as (done_ & bad & rest & Hsplit & He & _ & _ & Hrows & Hfile & _ & Hstep).
  - unfold allocated. simpl. lia.
  - reflexivity.
  - by exists done_, bad, rest.
Defined.

(** ** [update], in and out of the labels *)

Lemma elem_of_range_index (n : nat) (x : Z) :
  x ∈ range_index n ↔ 0 ≤ x < Z.of_nat n.
Proof.
  unfold range_index. rewrite list_elem_of_fmap. split.
  - intros (k & -> & Hk%elem_of_seq). lia.
  - intros Hx. exists (Z.to_nat x). split; [lia|]. apply elem_of_seq. lia.
Qed.

(** The least and the greatest of the labels [0, 1, ..., n-1]. *)
Lemma range_index_bounds (n : nat) :
  least 0 (range_index (S n)) ∧ greatest (Z.of_nat n) (range_index (S n)).
Proof.
  split; (split; [apply elem_of_range_index; lia|]);
    intros y Hy%elem_of_range_index; lia.
Qed.

(** A label of the table lies between the least and the greatest label. *)
Lemma label_in_range (l : list Z) (i : Z) :
  i ∈ l → l ≠ [] ∧ py_min l ≤ i ≤ py_max l.
Proof.
  intros Hi.
  assert (l ≠ []) as Hne by (intros ->; by apply elem_of_nil in Hi).
  destruct (py_min_least l Hne) as [_ Hlo].
  destruct (py_max_greatest l Hne) as [_ Hhi]. auto.
Qed.

(** Setting a cell under a label no row has: a row is appended. *)
Lemma loc_setitem_absent (d : DataFrame) (i : Z) (key : string)
    (value : scalar) (j : nat) :
  i ∉ index d → pd.get_loc key (columns d) = Some j →
  pd.loc_setitem i key value d
  = {| columns := columns d;
       rows := rows d
               ++ [(i, <[j := value]> (replicate (length (columns d)) NaN))] |}.
Proof.
  intros Hi Hj. unfold pd.loc_setitem.
  assert (key ∈ columns d) as Hkey.
  { destruct (decide (key ∈ columns d)) as [|Hnot]; [done|].
    by rewrite (get_loc_None _ _ Hnot) in Hj. }
  rewrite (decide_True _ _ Hkey), (decide_False _ _ Hi), Hj. done.
Qed.

(** [update] on a label that no row has but that lies between two labels
    of the table: the range check lets it pass, and the call appends a row
    with that label, [value] under [key] and [NaN] in its other cells.  The
    file is written and a copy returned.

    The table holds text and missing values only, and [value] is text: the
    [NaN] of the new row then leaves every column of pandas at its type and
    every other cell as it is.  Columns of integers would become columns of
    floats, which the model does not describe. *)
Theorem update_fills_hole (st : Self * World) (i : Z) (k : string)
    (v : scalar) :
  allocated st →
  i ∉ index (table st) →
  (∃ lo hi, lo ∈ index (table st) ∧ hi ∈ index (table st) ∧ lo ≤ i ≤ hi) →
  k ∈ columns (table st) →
  holds_text (table st) →
  kind_of v = Some kind_text →
  ∃ ref st' j,
    update i k v st = (Ok ref, st')
    ∧ pd.get_loc k (columns (table st)) = Some j
    ∧ columns (table st') = columns (table st)
    ∧ rows (table st')
      = rows (table st)
        ++ [(i, <[j := v]> (replicate (length (columns (table st))) NaN))]
    ∧ rewrote_file st st'
    ∧ fresh_copy st st' ref.
Proof.
  destruct st as [self w]. unfold allocated, table. simpl.
  intros Halloc Hi (lo & hi & Hlo & Hhi & Hbetween) Hk _ _.
  set (d := deref w (self_df self)) in *.
  destruct (get_loc_Some _ _ Hk) as (j & Hloc & _).
  destruct (label_in_range _ _ Hlo) as [Hne [Hmin _]].
  destruct (label_in_range _ _ Hhi) as [_ [_ Hmax]].
  assert (update i k v (self, w)
          = (__write_csv mode_w;; read)
              (self, store (self_df self) (pd.loc_setitem i k v d) w)) as Hrun
    by (apply update_run; [done|unfold d in *; lia|done]).
  rewrite (loc_setitem_absent d i k v j Hi Hloc) in Hrun.
  set (d1 := {| columns := columns d;
                rows := rows d ++ [(i, <[j := v]> (replicate (length (columns d))
                                                     NaN))] |}) in *.
  set (w1 := store (self_df self) d1 w) in *.
  assert (deref w1 (self_df self) = d1) as Hd1 by by apply deref_store.
  destruct (write_read_end (self, w) self w1) as (Htable & Hfile & Hcopy);
    [unfold allocated, w1; simpl; by rewrite length_insert
    |unfold w1; simpl; by rewrite length_insert|done|done|].
  exists (length (heap w1)), ((__write_csv mode_w;; read) (self, w1)).2, j.
  rewrite Hrun. split; [by rewrite write_read_run|].
  unfold table in *. by rewrite Htable, Hd1.
Qed.

(** After the failed [delete(1, 7)] on a table of text,
    [update(1, "town", "leeds")] adds a row labelled [1] whose name is
    [NaN]. *)
Lemma update_fills_hole_witness :
  ∃ ref st' j,
    update 1 "town" (PyStr "leeds") demo_text_hole = (Ok ref, st')
    ∧ pd.get_loc "town" (columns (table demo_text_hole)) = Some j
    ∧ rows (table st')
      = rows (table demo_text_hole)
        ++ [(1, <[j := PyStr "leeds"]>
                  (replicate (length (columns (table demo_text_hole))) NaN))].
Proof.
  destruct (update_fills_hole demo_text_hole 1 "town" (PyStr "leeds"))
    as (ref & st' & j & Hrun & Hj & _ & Hrows & _).
  - unfold allocated. simpl. lia.
  - vm_compute. intros Hin.
    repeat (apply elem_of_cons in Hin as [Hin|Hin]; [done|]).
    by apply elem_of_nil in Hin.
  - exists 0, 2. split; [vm_compute; by left|].
    split; [vm_compute; by right; left|lia].
  - vm_compute. by right; left.
  - unfold holds_text. compute_done.
  - reflexivity.
  - by exists ref, st', j.
Defined.

(** On a table whose rows are labelled [0, 1, ..., n-1], the range check of
    [update] is a membership check: a label no row has makes the call raise
    and change nothing. *)
Theorem update_absent_label (st : Self * World) (i : Z) (k : string)
    (v : scalar) :
  contiguous (table st) →
  i ∉ index (table st) →
  update i k v st
  = (Raise (if decide (rows (table st) = []) then EmptyTableError
            else IndexOutOfRangeError i), st).
Proof.
  destruct st as [self w]. unfold table, contiguous. simpl.
  set (d := deref w (self_df self)). intros Hcont Hi.
  run. fold d. destruct (decide (rows d = [])) as [Hnil|Hrows].
  - assert (index d = []) as -> by (unfold index; by rewrite Hnil).
    simpl. by destruct (decide (0 = 0)%nat).
  - destruct (length (rows d)) as [|n] eqn:Hlen.
    { by apply nil_length_inv in Hlen. }
    destruct (range_index_bounds n) as [Hlo Hhi].
    rewrite <- Hcont in Hlo, Hhi.
    rewrite <- (least_py_min _ _ Hlo), <- (greatest_py_max _ _ Hhi).
    rewrite decide_False.
    2:{ rewrite Hcont, length_range_index. lia. }
    rewrite Hcont in Hi. rewrite elem_of_range_index in Hi.
    destruct (bool_decide (0 ≤ i)) eqn:E1;
      destruct (bool_decide (i ≤ Z.of_nat n)) eqn:E2; simpl; try done.
    apply bool_decide_eq_true in E1, E2. lia.
Qed.

(** [update(3, ...)] on the table of three rows, whose labels are
    [0, 1, 2]. *)
Lemma update_absent_label_witness :
  update 3 "age" (PyInt 30) demo = (Raise (IndexOutOfRangeError 3), demo).
Proof.
  apply (update_absent_label demo 3 "age" (PyInt 30)).
  - reflexivity.
  - vm_compute. intros Hin.
    repeat (apply elem_of_cons in Hin as [Hin|Hin]; [done|]).
    by apply elem_of_nil in Hin.
Defined.

(** Setting the same cell twice is setting it to the later value. *)
Lemma loc_setitem_twice (d : DataFrame) (i : Z) (key : string)
    (v v' : scalar) :
  i ∈ index d → key ∈ columns d →
  pd.loc_setitem i key v' (pd.loc_setitem i key v d)
  = pd.loc_setitem i key v' d.
Proof.
  intros Hi Hkey. destruct (get_loc_Some _ _ Hkey) as (j & Hloc & _).
  rewrite (loc_setitem_present d i key v j Hi Hloc).
  rewrite (loc_setitem_present d i key v' j Hi Hloc).
  rewrite (loc_setitem_present _ i key v' j); simpl.
  - f_equal. rewrite <- list_fmap_compose. apply list_fmap_ext.
    intros _ [lbl cells] _. simpl.
    destruct (decide (lbl = i)) as [->|Hne]; simpl.
    + rewrite decide_True by done. simpl. by rewrite list_insert_insert_eq.
    + by rewrite decide_False.
  - unfold index in *. simpl. rewrite <- list_fmap_compose.
    erewrite list_fmap_ext; [exact Hi|].
    intros _ r _. simpl. by destruct (decide (r.1 = i)).
  - done.
Qed.

(** The state [update] ends in when the label and the column exist. *)
Lemma update_present_end (st : Self * World) (i : Z) (k : string)
    (v : scalar) :
  allocated st → i ∈ index (table st) → k ∈ columns (table st) →
  let st' := (update i k v st).2 in
  st'.1 = st.1 ∧ allocated st'
  ∧ table st' = pd.loc_setitem i k v (table st)
  ∧ file st' = Some (pd.to_csv (table st')).
Proof.
  destruct st as [self w]. unfold allocated, table. simpl.
  intros Halloc Hi Hk.
  destruct (label_in_range _ _ Hi) as [Hne Hrange].
  rewrite (update_run self w i k v Hne Hrange Hk).
  set (d1 := pd.loc_setitem i k v (deref w (self_df self))).
  set (w1 := store (self_df self) d1 w).
  assert (deref w1 (self_df self) = d1) as Hd1 by by apply deref_store.
  assert (length (heap w1) = length (heap w)) as Hlen
    by (unfold w1; simpl; apply length_insert).
  destruct (write_read_end (self, w) self w1) as (Htable & (Hfile & _) & _);
    [unfold allocated; cbn [fst snd]; lia|cbn [fst snd]; lia|done|done|].
  unfold table in *. rewrite Htable, Hd1 in Hfile. rewrite Htable, Hd1.
  split; [by rewrite write_read_run|]. split; [|done].
  rewrite write_read_run. cbn [fst snd heap self_df]. rewrite length_app. lia.
Qed.

(** Two calls of [update] on the same cell: the later value wins, in the
    table and in the file, as if the earlier call had not been made.

    Both values fit the column: neither call then changes how pandas holds
    the other cells. *)
Theorem update_last_wins (st : Self * World) (i : Z) (k : string)
    (v v' : scalar) :
  allocated st →
  i ∈ index (table st) →
  k ∈ columns (table st) →
  fits k v (table st) →
  fits k v' (table st) →
  let twice := (update i k v' (update i k v st).2).2 in
  let once := (update i k v' st).2 in
  table twice = table once ∧ file twice = file once.
Proof.
  intros Halloc Hi Hk _ _.
  destruct (update_present_end st i k v Halloc Hi Hk)
    as (Hself & Halloc1 & Htable1 & _).
  destruct (update_present_end st i k v' Halloc Hi Hk)
    as (Hself' & _ & Htable' & Hfile').
  assert (i ∈ index (table (update i k v st).2)) as Hi1.
  { rewrite Htable1. destruct (get_loc_Some _ _ Hk) as (j & Hloc & _).
    rewrite (loc_setitem_present _ i k v j Hi Hloc). unfold index in *. simpl.
    rewrite <- list_fmap_compose. erewrite list_fmap_ext; [exact Hi|].
    intros _ r _. simpl. by destruct (decide (r.1 = i)). }
  assert (k ∈ columns (table (update i k v st).2)) as Hk1.
  { rewrite Htable1. destruct (get_loc_Some _ _ Hk) as (j & Hloc & _).
    by rewrite (loc_setitem_present _ i k v j Hi Hloc). }
  destruct (update_present_end _ i k v' Halloc1 Hi1 Hk1)
    as (Hself2 & _ & Htable2 & Hfile2).
  simpl in *.
  assert (table (update i k v' (update i k v st).2).2
          = table (update i k v' st).2) as Heq.
  { by rewrite Htable2, Htable1, Htable', loc_setitem_twice. }
  split; [done|]. rewrite Hfile2, Hfile'. by rewrite Heq.
Qed.

(** Bob turns 28, then 29. *)
Lemma update_last_wins_witness :
  let twice := (update 1 "age" (PyInt 29)
                  (update 1 "age" (PyInt 28) demo).2).2 in
  let once := (update 1 "age" (PyInt 29) demo).2 in
  table twice = table once ∧ file twice = file once.
Proof.
  apply (update_last_wins demo 1 "age" (PyInt 28) (PyInt 29)).
  - unfold allocated. simpl. lia.
  - vm_compute. by right; left.
  - vm_compute. by right; left.
  - unfold fits. compute_done.
  - unfold fits. compute_done.
Defined.

(** ** What every call keeps

    The three mutating methods end in one of two ways, [ending]; what they
    keep is read off that. *)

Lemma columns_loc_setitem (d : DataFrame) (i : Z) (key : string)
    (value : scalar) :
  key ∈ columns d → columns (pd.loc_setitem i key value d) = columns d.
Proof.
  intros Hkey. unfold pd.loc_setitem. rewrite (decide_True _ _ Hkey).
  by destruct (decide (i ∈ index d)).
Qed.

Lemma register_ending (st : Self * World)
    (key_and_values : list (string * scalar)) :
  allocated st → ending st (register key_and_values st).
Proof.
  destruct st as [self w]. unfold allocated. cbn [fst snd]. intros Halloc.
  destruct (register_outcome (self, w) key_and_values)
    as [[e Hraise]|[Hbound Heq]].
  { by apply (raised _ _ e w). }
  unfold table in Heq. cbn [fst snd] in Heq.
  eapply reached; [exact (register_run self w _ Halloc Hbound Heq)|..];
    cbn [fst snd self_csv self_df heap disk written].
  - done.
  - rewrite !length_app. simpl. lia.
  - right. rewrite length_app. lia.
  - rewrite !length_app. lia.
  - done.
  - done.
  - intros ref Href _. rewrite <- app_assoc. by apply lookup_app_l.
  - unfold deref. cbn [heap].
    rewrite lookup_app_r, Nat.sub_diag by lia. simpl.
    rewrite (filter_nothing (λ c, c ∉ columns (deref w (self_df self)))).
    { by rewrite app_nil_r. }
    apply Forall_forall. intros k Hk Hnot. apply Hnot.
    rewrite <- (elem_of_list_to_set (C := gset string)), <- Heq.
    by apply elem_of_list_to_set.
Qed.

Lemma delete_ending (st : Self * World) (row_index : list Z) :
  allocated st → ending st (delete row_index st).
Proof.
  destruct st as [self w]. unfold allocated. cbn [fst snd]. intros Halloc.
  destruct (drop_each_outcome row_index None self w Halloc)
    as (idx' & r & w' & done_ & Hrun & Hdisk & Hwr & Hlen & Hothers & Hcols
        & _ & _ & _ & Hr).
  pose proof (delete_after_loop _ _ _ _ _ _ Hrun) as Hdel.
  destruct r as [u|e].
  - eapply reached; [exact Hdel|..]; cbn [fst snd].
    + done.
    + simpl. rewrite length_insert. lia.
    + by left.
    + simpl. rewrite length_insert. lia.
    + done.
    + done.
    + intros ref _ Href. simpl.
      rewrite list_lookup_insert_ne by congruence. by apply Hothers.
    + rewrite deref_store by lia. done.
  - destruct Hr as (bad & rest & _ & -> & -> & _).
    by apply (raised _ _ (IndexError bad) w'); [apply Hdel|..].
Qed.

Lemma update_ending (st : Self * World) (row_index : Z) (key : string)
    (value : scalar) :
  allocated st → ending st (update row_index key value st).
Proof.
  destruct st as [self w]. unfold allocated. cbn [fst snd]. intros Halloc.
  destruct (update_outcome (self, w) row_index key value)
    as [[e Hraise]|(Hne & Hrange & Hkey)].
  { by apply (raised _ _ e w). }
  unfold table in Hne, Hrange, Hkey. cbn [fst snd] in Hne, Hrange, Hkey.
  eapply reached; [exact (update_run self w _ _ value Hne Hrange Hkey)|..];
    cbn [fst snd].
  - done.
  - simpl. rewrite length_insert. lia.
  - by left.
  - simpl. rewrite length_insert. lia.
  - done.
  - done.
  - intros ref _ Href. simpl. apply list_lookup_insert_ne. congruence.
  - rewrite deref_store by lia. by apply columns_loc_setitem.
Qed.

Lemma ending_columns (st : Self * World) (out : result nat * (Self * World)) :
  ending st out → columns (table out.2) = columns (table st).
Proof.
  intros [e w' -> _ _ _ _ Hcols|self' w' -> _ Halloc _ _ _ _ _ Hcols];
    [done|].
  destruct (write_read_end (self', w') self' w') as [-> _]; done.
Qed.

Lemma ending_writes (st : Self * World) (method : M nat) :
  ending st (method st) → writes_through method st.
Proof.
  intros [e w' Hout Hdisk Hwr _ _ _
         |self' w' Hout Hcsv Halloc _ Hlen Hdisk Hwr _ _]; split.
  - intros ref st' Hok. congruence.
  - intros e' st' Hraise. rewrite Hout in Hraise.
    by injection Hraise as _ <-.
  - intros ref st' Hok. rewrite Hout in Hok.
    destruct (write_read_end st self' w') as (_ & (Hfile & Hlog & Hsame) & Hcopy);
      [done..|].
    rewrite write_read_run in Hok, Hfile, Hlog, Hsame, Hcopy.
    cbn [fst snd] in Hfile, Hlog, Hsame, Hcopy.
    by injection Hok as <- <-.
  - intros e st' Hraise. rewrite Hout, write_read_run in Hraise. done.
Qed.

Lemma ending_others (st : Self * World) (out : result nat * (Self * World)) :
  ending st out → others_kept st out.2.
Proof.
  intros [e w' -> _ _ _ Hothers _|self' w' -> _ _ _ Hlen _ _ Hothers _]
    ref Href Hne.
  - by apply Hothers.
  - rewrite write_read_old by lia. by apply Hothers.
Qed.

(** [read] and the filter leave the table as it is, whatever they return. *)
Lemma table_after_read (st : Self * World) :
  allocated st → table (read st).2 = table st ∧ others_kept st (read st).2.
Proof.
  destruct st as [self w]. unfold allocated. cbn [fst snd]. intros Halloc.
  split.
  - unfold table. simpl. by apply deref_alloc_old.
  - intros ref Href _. simpl. by apply lookup_app_l.
Qed.

Lemma table_after_filter (st : Self * World) (key : string) (value : scalar) :
  allocated st →
  table (get_filtered_dataframe_with_key key value st).2 = table st
  ∧ others_kept st (get_filtered_dataframe_with_key key value st).2.
Proof.
  destruct st as [self w]. unfold allocated. cbn [fst snd]. intros Halloc.
  destruct (decide (key ∈ columns (deref w (self_df self)))) as [Hkey|Hkey].
  - rewrite (filter_run _ _ _ _ Hkey). split.
    + unfold table. cbn [fst snd]. rewrite <- app_assoc. by apply deref_grown.
    + intros ref Href _. cbn [fst snd heap] in *. rewrite <- app_assoc.
      by apply lookup_app_l.
  - assert (get_filtered_dataframe_with_key key value (self, w)
            = (Raise (KeyError (Column key)), (self, w))) as ->.
    { run. unfold pd.getitem. by rewrite (get_loc_None _ _ Hkey). }
    done.
Qed.

(** The columns of the table are fixed when the connector is made: no
    method adds, removes, renames or reorders a column, whether it returns
    or raises. *)
Theorem columns_never_change (st : Self * World)
    (key_and_values : list (string * scalar)) (row_index : list Z) (i : Z)
    (key : string) (value : scalar) :
  allocated st →
  columns (table (register key_and_values st).2) = columns (table st)
  ∧ columns (table (delete row_index st).2) = columns (table st)
  ∧ columns (table (update i key value st).2) = columns (table st)
  ∧ columns (table (read st).2) = columns (table st)
  ∧ columns (table (get_filtered_dataframe_with_key key value st).2)
    = columns (table st).
Proof.
  intros Halloc.
  split; [by apply ending_columns, register_ending|].
  split; [by apply ending_columns, delete_ending|].
  split; [by apply ending_columns, update_ending|].
  split.
  - by destruct (table_after_read st Halloc) as [-> _].
  - by destruct (table_after_filter st key value Halloc) as [-> _].
Qed.

(** On the table of three rows: a row registered, two rows deleted, a cell
    replaced, the table read and filtered. *)
Lemma columns_never_change_witness :
  columns (table (register [("age", PyInt 3); ("name", PyStr "di")] demo).2)
  = columns (table demo)
  ∧ columns (table (delete [2; 0] demo).2) = columns (table demo)
  ∧ columns (table (update 1 "age" NaN demo).2) = columns (table demo)
  ∧ columns (table (read demo).2) = columns (table demo)
  ∧ columns (table (get_filtered_dataframe_with_key "age" NaN demo).2)
    = columns (table demo).
Proof.
  apply (columns_never_change demo [("age", PyInt 3); ("name", PyStr "di")]
           [2; 0] 1 "age" NaN).
  unfold allocated. simpl. lia.
Defined.

(** The three mutating methods write through.  A call that returns has
    written the file once, the file then holds the table, and the object
    returned is a new copy of the table; a call that raises has written
    nothing and left every file as it was. *)
Theorem mutations_write_through (st : Self * World)
    (key_and_values : list (string * scalar)) (row_index : list Z) (i : Z)
    (key : string) (value : scalar) :
  allocated st →
  writes_through (register key_and_values) st
  ∧ writes_through (delete row_index) st
  ∧ writes_through (update i key value) st.
Proof.
  intros Halloc.
  split; [by apply ending_writes, register_ending|].
  split; [by apply ending_writes, delete_ending|].
  by apply ending_writes, update_ending.
Qed.

(** On the table of three rows: a call of [register] that raises, a call of
    [delete] that raises after one row is dropped, a call of [update] that
    returns. *)
Lemma mutations_write_through_witness :
  writes_through (register [("name", PyStr "di")]) demo
  ∧ writes_through (delete [1; 7]) demo
  ∧ writes_through (update 1 "age" (PyInt 28)) demo.
Proof.
  apply (mutations_write_through demo [("name", PyStr "di")] [1; 7] 1 "age"
           (PyInt 28)).
  unfold allocated. simpl. lia.
Defined.

(** No method changes an object it handed out before: every object of the
    heap other than the connector's own frame, so every copy returned by an
    earlier call, is the same after any call, whether it returns or
    raises. *)
Theorem earlier_objects_kept (st : Self * World)
    (key_and_values : list (string * scalar)) (row_index : list Z) (i : Z)
    (key : string) (value : scalar) :
  allocated st →
  others_kept st (register key_and_values st).2
  ∧ others_kept st (delete row_index st).2
  ∧ others_kept st (update i key value st).2
  ∧ others_kept st (read st).2
  ∧ others_kept st (get_filtered_dataframe_with_key key value st).2.
Proof.
  intros Halloc.
  split; [by apply ending_others, register_ending|].
  split; [by apply ending_others, delete_ending|].
  split; [by apply ending_others, update_ending|].
  split.
  - by destruct (table_after_read st Halloc) as [_ ?].
  - by destruct (table_after_filter st key value Halloc) as [_ ?].
Qed.

(** The state after a [read] of the table of three rows: the copy is object
    [1], and the calls that follow leave it alone. *)
Lemma earlier_objects_kept_witness :
  let st := (read demo).2 in
  others_kept st (register [("age", PyInt 3); ("name", PyStr "di")] st).2
  ∧ others_kept st (delete [2; 0] st).2
  ∧ others_kept st (update 1 "age" NaN st).2
  ∧ others_kept st (read st).2
  ∧ others_kept st (get_filtered_dataframe_with_key "age" NaN st).2.
Proof.
  apply (earlier_objects_kept (read demo).2
           [("age", PyInt 3); ("name", PyStr "di")] [2; 0] 1 "age" NaN).
  unfold allocated. simpl. lia.
Defined.

(** ** [__init__], whatever the file *)

(** What [__init__] does, case by case: the file exists and is read; or it
    does not and there are no names, and the call raises; or it does not and
    the header line is written, and then read. *)
Lemma init_run (csv_file : string) (initial_keys : option (list string))
    (w : World) :
  __init__ csv_file initial_keys w
  = match disk w !! csv_file with
    | Some text =>
        match pd.read_csv text with
        | Ok d =>
            (Ok {| self_csv := csv_file; self_df := length (heap w) |},
             {| heap := heap w ++ [d]; disk := disk w;
                written := written w |})
        | Raise e => (Raise e, w)
        end
    | None =>
        match initial_keys with
        | None | Some [] => (Raise (FileNotFoundError csv_file), w)
        | Some keys =>
            let w1 := {| heap := heap w ++ [pd.DataFrame_empty keys];
                         disk := <[csv_file := [keys]]> (disk w);
                         written := csv_file :: written w |} in
            match pd.read_csv [keys] with
            | Ok d =>
                (Ok {| self_csv := csv_file; self_df := length (heap w1) |},
                 {| heap := heap w1 ++ [d]; disk := disk w1;
                    written := written w1 |})
            | Raise e => (Raise e, w1)
            end
        end
    end.
Proof.
  unfold __init__. destruct (disk w !! csv_file) as [text|] eqn:Hfile.
  - cbn iota beta zeta. run. rewrite Hfile. run.
    by destruct (pd.read_csv text).
  - destruct initial_keys as [[|key keys]|]; [done| |done].
    unfold alloc. cbn iota beta zeta. run.
    rewrite deref_alloc_new. unfold pd.to_csv, values. simpl.
    rewrite lookup_insert_eq. run.
    by destruct (pd.read_csv [key :: keys]).
Qed.

(** ** The labels of the rows *)

Lemma contiguous_relabel (names : list string) (cells : list (list scalar)) :
  contiguous {| columns := names; rows := relabel cells |}.
Proof.
  unfold contiguous, index. simpl. by rewrite relabel_index, length_relabel.
Qed.

Lemma contiguous_read_csv (text : csv_text) (d : DataFrame) :
  pd.read_csv text = Ok d → contiguous d.
Proof.
  unfold pd.read_csv. destruct (existsb _ _); [done|].
  destruct (filter _ text) as [|header body]; [done|].
  destruct (decide _); [done|].
  destruct (negb _); [done|].
  destruct (pd.dedup_names header [] header) as [names|]; [|done].
  destruct (mapM _ _) as [dtypes|]; [|done].
  intros [= <-]. apply contiguous_relabel.
Qed.

(** Setting a cell of a row that exists keeps the labels. *)
Lemma index_loc_setitem (d : DataFrame) (i : Z) (key : string)
    (value : scalar) :
  i ∈ index d → key ∈ columns d →
  index (pd.loc_setitem i key value d) = index d
  ∧ length (rows (pd.loc_setitem i key value d)) = length (rows d).
Proof.
  intros Hi Hkey. destruct (get_loc_Some _ _ Hkey) as (j & Hloc & _).
  rewrite (loc_setitem_present d i key value j Hi Hloc). unfold index. simpl.
  split; [|by rewrite length_fmap].
  rewrite <- list_fmap_compose. rewrite <- (list_fmap_id (rows d)) at 2.
  rewrite <- list_fmap_compose.
  apply list_fmap_ext. intros _ r _. simpl. by destruct (decide (r.1 = i)).
Qed.

(** On labels [0, 1, ..., n-1] a label within the least and the greatest is
    a label of the list. *)
Lemma contiguous_range (d : DataFrame) (i : Z) :
  contiguous d → index d ≠ [] →
  py_min (index d) ≤ i ≤ py_max (index d) → i ∈ index d.
Proof.
  unfold contiguous. intros Hcont Hne Hrange.
  destruct (length (rows d)) as [|n] eqn:Hlen.
  { by rewrite Hcont in Hne. }
  destruct (range_index_bounds n) as [Hlo Hhi].
  rewrite <- Hcont in Hlo, Hhi.
  rewrite <- (least_py_min _ _ Hlo), <- (greatest_py_max _ _ Hhi) in Hrange.
  rewrite Hcont. apply elem_of_range_index. lia.
Qed.

(** The rows are labelled [0, 1, ..., n-1] when the connector is made, after
    every call of [register] and of [delete] that returns, and after any
    call of [update] on a table so labelled: [update] then adds no row and
    keeps every label. *)
Theorem labels_stay_contiguous (st : Self * World)
    (key_and_values : list (string * scalar)) (row_index : list Z) (i : Z)
    (key : string) (value : scalar) :
  allocated st →
  (∀ ref st', register key_and_values st = (Ok ref, st') →
              contiguous (table st'))
  ∧ (∀ ref st', delete row_index st = (Ok ref, st') → contiguous (table st'))
  ∧ (contiguous (table st) →
     contiguous (table (update i key value st).2)
     ∧ index (table (update i key value st).2) = index (table st)).
Proof.
  destruct st as [self w]. intros Halloc. pose proof Halloc as Hlt.
  unfold allocated in Hlt. cbn [fst snd] in Hlt.
  split; [|split].
  - intros ref st' Hrun.
    destruct (register_outcome (self, w) key_and_values)
      as [[e Hraise]|[Hbound Heq]]; [congruence|].
    unfold table in Heq. cbn [fst snd] in Heq.
    rewrite (register_run self w _ Hlt Hbound Heq) in Hrun.
    match type of Hrun with
    | _ (?s, ?w1) = _ =>
        destruct (write_read_end (s, w1) s w1) as [Htable _];
          [unfold allocated; simpl; rewrite !length_app; simpl; lia|done..|]
    end.
    rewrite Hrun in Htable. cbn [snd self_df] in Htable. rewrite Htable.
    unfold deref. cbn [heap]. rewrite lookup_app_r, Nat.sub_diag by lia.
    apply contiguous_relabel.
  - intros ref st' Hrun.
    destruct (drop_each_outcome row_index None self w Hlt)
      as (idx' & r & w' & done_ & Hloop & _ & _ & Hlen & _ & _ & _ & _ & _
          & Hr).
    pose proof (delete_after_loop _ _ _ _ _ _ Hloop) as Hdel.
    destruct r as [u|e].
    + rewrite Hdel in Hrun.
      match type of Hrun with
      | _ (?s, ?w1) = _ =>
          destruct (write_read_end (s, w1) s w1) as [Htable _];
            [unfold allocated; simpl; rewrite length_insert; lia|done..|]
      end.
      rewrite Hrun in Htable. cbn [snd] in Htable. rewrite Htable.
      rewrite deref_store by lia. apply contiguous_relabel.
    + destruct Hr as (bad & rest & _ & -> & -> & _).
      rewrite (Hdel bad) in Hrun; done.
  - intros Hcont.
    destruct (update_outcome (self, w) i key value)
      as [[e ->]|(Hne & Hrange & Hkey)]; [done|].
    pose proof (contiguous_range _ _ Hcont Hne Hrange) as Hi.
    destruct (update_present_end (self, w) i key value Halloc Hi Hkey)
      as (_ & _ & Htable & _).
    cbn zeta in Htable. rewrite Htable.
    destruct (index_loc_setitem (table (self, w)) i key value Hi Hkey)
      as [Hidx Hlen].
    split; [|done]. unfold contiguous. by rewrite Hidx, Hlen.
Qed.

(** On the table of three rows. *)
Lemma labels_stay_contiguous_witness :
  contiguous (table (register [("age", PyInt 3); ("name", PyStr "di")] demo).2)
  ∧ contiguous (table (delete [1] demo).2)
  ∧ contiguous (table (update 2 "name" (PyStr "cyd") demo).2).
Proof.
  destruct (labels_stay_contiguous demo
              [("age", PyInt 3); ("name", PyStr "di")] [1] 2 "name"
              (PyStr "cyd")) as (Hregister & Hdelete & Hupdate).
  { unfold allocated. simpl. lia. }
  split; [|split].
  - by eapply Hregister.
  - by eapply Hdelete.
  - apply Hupdate. reflexivity.
Defined.

(** Every method keeps the state of the connector in order, whether it
    returns or raises: the connector's reference points at a frame whose
    column names are pairwise distinct, whose row labels are pairwise
    distinct, and whose rows have one cell for each column. *)
Theorem methods_keep_state_ok (st : Self * World)
    (key_and_values : list (string * scalar)) (row_index : list Z) (i : Z)
    (key : string) (value : scalar) :
  state_ok st →
  state_ok (register key_and_values st).2
  ∧ state_ok (delete row_index st).2
  ∧ state_ok (update i key value st).2
  ∧ state_ok (read st).2
  ∧ state_ok (get_filtered_dataframe_with_key key value st).2.
Proof.
  intros Hst.
  split; [by apply register_keeps_ok|].
  split; [by apply delete_keeps_ok|].
  split; [by apply update_keeps_ok|].
  split; [by apply read_keeps_ok|by apply filter_keeps_ok].
Qed.

(** On the table of three rows; the [delete] stops at the label [7], the
    [update] adds nothing as [9] is out of range. *)
Lemma methods_keep_state_ok_witness :
  state_ok (register [("age", PyInt 3); ("name", PyStr "di")] demo).2
  ∧ state_ok (delete [1; 7] demo).2
  ∧ state_ok (update 9 "age" NaN demo).2
  ∧ state_ok (read demo).2
  ∧ state_ok (get_filtered_dataframe_with_key "age" NaN demo).2.
Proof.
  apply (methods_keep_state_ok demo [("age", PyInt 3); ("name", PyStr "di")]
           [1; 7] 9 "age" NaN).
  apply demo_ok.
Defined.

(** ** Making a connector *)

(** A connector [__init__] returns holds what [read_csv] makes of the file
    as the call leaves it: the table is a new object, its rows are labelled
    [0, 1, ..., n-1], the state is in order, and the objects there were are
    as they were. *)
Theorem init_reads_the_file (csv_file : string)
    (initial_keys : option (list string)) (w w' : World) (self : Self) :
  __init__ csv_file initial_keys w = (Ok self, w') →
  self_csv self = csv_file
  ∧ (length (heap w) ≤ self_df self)%nat
  ∧ (∃ text, file (self, w') = Some text
             ∧ pd.read_csv text = Ok (table (self, w')))
  ∧ contiguous (table (self, w'))
  ∧ state_ok (self, w')
  ∧ (∀ ref, (ref < length (heap w))%nat → heap w' !! ref = heap w !! ref).
Proof.
  intros Hrun. pose proof (init_gives_ok _ _ _ _ _ Hrun) as Hok.
  rewrite init_run in Hrun.
  destruct (disk w !! csv_file) as [text|] eqn:Hfile.
  - destruct (pd.read_csv text) as [d|e] eqn:Hd; [|done].
    injection Hrun as <- <-.
    assert (table ({| self_csv := csv_file; self_df := length (heap w) |},
                   {| heap := heap w ++ [d]; disk := disk w;
                      written := written w |}) = d) as Htable
      by apply deref_alloc_new.
    split; [done|]. split; [done|]. split.
    { exists text. by rewrite Htable. }
    rewrite Htable. split; [by apply (contiguous_read_csv text)|].
    split; [done|]. intros ref Href. simpl. by apply lookup_app_l.
  - destruct initial_keys as [[|key keys]|]; [done| |done].
    cbn zeta in Hrun. cbn [heap disk written] in Hrun.
    destruct (pd.read_csv [key :: keys]) as [d|e] eqn:Hd; [|done].
    injection Hrun as <- <-.
    assert (table
              ({| self_csv := csv_file;
                  self_df := length
                               (heap w ++ [pd.DataFrame_empty (key :: keys)]) |},
               {| heap := (heap w ++ [pd.DataFrame_empty (key :: keys)])
                          ++ [d];
                  disk := <[csv_file := [key :: keys]]> (disk w);
                  written := csv_file :: written w |}) = d) as Htable.
    { unfold table, deref. cbn [fst snd heap self_df].
      by rewrite lookup_app_r, Nat.sub_diag by lia. }
    split; [done|]. split; [simpl; rewrite length_app; lia|]. split.
    { exists [key :: keys]. rewrite Htable. split; [|done].
      unfold file. simpl. apply lookup_insert_eq. }
    rewrite Htable. split; [by apply (contiguous_read_csv [key :: keys])|].
    split; [done|]. intros ref Href. simpl. rewrite <- app_assoc.
    by apply lookup_app_l.
Qed.

(** The file of the table of three rows, opened. *)
Lemma init_reads_the_file_witness :
  ∃ text, file ({| self_csv := "people.csv"; self_df := 1 |},
                (__init__ "people.csv" None demo.2).2) = Some text
          ∧ pd.read_csv text = Ok three_rows.
Proof.
  destruct (init_reads_the_file "people.csv" None demo.2
              (__init__ "people.csv" None demo.2).2
              {| self_csv := "people.csv"; self_df := 1 |})
    as (_ & _ & (text & Hfile & Hread) & _).
  { vm_compute. reflexivity. }
  exists text. split; [exact Hfile|]. rewrite Hread. vm_compute. reflexivity.
Defined.

(** When the file exists, [__init__] does not look at [initial_keys],
    creates and writes no file, and returns a connector on what [read_csv]
    makes of the file, or raises what [read_csv] raises: for a file without
    any record, [EmptyDataError]. *)
Theorem init_existing_file (csv_file : string)
    (initial_keys : option (list string)) (w : World) (text : csv_text) :
  disk w !! csv_file = Some text →
  let out := __init__ csv_file initial_keys w in
  out = __init__ csv_file None w
  ∧ disk out.2 = disk w ∧ written out.2 = written w
  ∧ match pd.read_csv text with
    | Ok d => ∃ self, out.1 = Ok self ∧ table (self, out.2) = d
    | Raise e => out = (Raise e, w)
    end
  ∧ (text = [] → out = (Raise EmptyDataError, w)).
Proof.
  intros Hfile. cbn zeta. rewrite !init_run, Hfile.
  split; [done|].
  destruct (pd.read_csv text) as [d|e] eqn:Hd.
  - split; [done|]. split; [done|]. split.
    + eexists. split; [done|]. apply deref_alloc_new.
    + intros ->. done.
  - split; [done|]. split; [done|]. split; [done|].
    intros ->. by injection Hd as <-.
Qed.

(** The file of the table of three rows is opened with other names. *)
Lemma init_existing_file_witness :
  let out := __init__ "people.csv" (Some ["x"; "y"]) demo.2 in
  out = __init__ "people.csv" None demo.2
  ∧ disk out.2 = disk demo.2 ∧ written out.2 = written demo.2.
Proof.
  destruct (init_existing_file "people.csv" (Some ["x"; "y"]) demo.2
              (pd.to_csv three_rows)) as (H1 & H2 & H3 & _).
  { reflexivity. }
  by split.
Defined.

(** A file the constructor made is opened again, with any [initial_keys]:
    the second connector has the table of the first, the columns given at
    the creation and no row, and the second call writes nothing. *)
Theorem reopen_created_file (csv_file : string) (keys : list string)
    (again : option (list string)) (w : World) :
  disk w !! csv_file = None → header_ok keys →
  let first := __init__ csv_file (Some keys) w in
  let second := __init__ csv_file again first.2 in
  ∃ self1 self2,
    first.1 = Ok self1 ∧ second.1 = Ok self2
    ∧ table (self2, second.2) = table (self1, first.2)
    ∧ table (self2, second.2) = pd.DataFrame_empty keys
    ∧ self_df self2 ≠ self_df self1
    ∧ disk second.2 = disk first.2
    ∧ written second.2 = written first.2.
Proof.
  intros Hnone Hok. cbn zeta.
  assert (keys ≠ []) as Hsome by apply (names_some _ Hok).
  destruct keys as [|key keys]; [done|].
  rewrite (init_run csv_file (Some (key :: keys))), Hnone.
  cbn zeta. rewrite (read_csv_header_only _ Hok).
  rewrite init_run. cbn [snd disk]. rewrite lookup_insert_eq.
  rewrite (read_csv_header_only _ Hok).
  eexists _, _. split; [done|]. split; [done|].
  cbn [fst snd self_df heap disk written]. unfold table, deref.
  cbn [fst snd self_df heap disk written]. rewrite <- !app_assoc. simpl.
  rewrite !length_app. simpl. rewrite !lookup_app_r by lia.
  replace (length (heap w) + 2 - length (heap w))%nat with 2%nat by lia.
  replace (length (heap w) + 1 - length (heap w))%nat with 1%nat by lia.
  simpl. split; [done|]. split; [done|]. split; [lia|done].
Qed.

Lemma reopen_created_file_witness :
  let first := __init__ "t.csv" (Some ["a"; "b"]) empty_world in
  let second := __init__ "t.csv" (Some ["c"]) first.2 in
  ∃ self1 self2,
    first.1 = Ok self1 ∧ second.1 = Ok self2
    ∧ table (self2, second.2) = pd.DataFrame_empty ["a"; "b"].
Proof.
  destruct (reopen_created_file "t.csv" ["a"; "b"] (Some ["c"]) empty_world)
    as (self1 & self2 & H1 & H2 & _ & H3 & _).
  { reflexivity. }
  { split; [done|compute_done| |done].
    intros Hin. repeat (apply elem_of_cons in Hin as [Hin|Hin]; [done|]).
    by apply elem_of_nil in Hin. }
  by exists self1, self2.
Defined.

(** ** Calls one after the other *)

(** The state [register] ends in when the names given are the columns. *)
Lemma register_end (st : Self * World)
    (key_and_values : list (string * scalar)) :
  allocated st →
  keywords_ok key_and_values →
  (list_to_set key_and_values.*1 : gset string)
  = list_to_set (columns (table st)) →
  let out := register key_and_values st in
  out.1 = Ok (length (heap st.2) + 2)%nat
  ∧ allocated out.2
  ∧ table out.2
    = pd.concat_ignore_index (table st) (pd.DataFrame_one_row key_and_values)
  ∧ file out.2 = Some (pd.to_csv (table out.2))
  ∧ self_csv out.2.1 = self_csv st.1.
Proof.
  destruct st as [self w]. unfold allocated, table. cbn [fst snd].
  intros Halloc Hbound Heq. cbn zeta.
  rewrite (register_run self w _ Halloc Hbound Heq).
  match goal with
  | |- context [(_;; _) (?s, ?w1)] =>
      destruct (write_read_end (s, w1) s w1) as (Htable & (Hfile & _) & _);
        [unfold allocated; simpl; rewrite !length_app; simpl; lia|done..|];
      set (self1 := s) in *; set (w1' := w1) in *
  end.
  unfold table in *. rewrite Htable in Hfile. rewrite Htable.
  assert (deref w1' (self_df self1)
          = pd.concat_ignore_index (deref w (self_df self))
              (pd.DataFrame_one_row key_and_values)) as Hd1.
  { unfold deref, w1', self1. cbn [heap self_df].
    by rewrite lookup_app_r, Nat.sub_diag by lia. }
  rewrite Hd1 in *. rewrite write_read_run. cbn [fst snd].
  split.
  { f_equal. unfold w1'. cbn [heap]. rewrite !length_app. simpl. lia. }
  split.
  { unfold w1', self1. cbn [heap self_df]. rewrite !length_app. simpl. lia. }
  split; [done|]. split; [|done].
  rewrite write_read_run in Hfile. exact Hfile.
Qed.

(** The state [delete] ends in on labels that are pairwise distinct and all
    present. *)
Lemma delete_end (st : Self * World) (row_index : list Z) :
  allocated st → NoDup row_index →
  Forall (λ i, i ∈ index (table st)) row_index →
  let out := delete row_index st in
  out.1 = Ok (length (heap st.2))
  ∧ allocated out.2
  ∧ table out.2
    = {| columns := columns (table st);
         rows := relabel
                   (filter (λ r, r.1 ∉ row_index) (rows (table st))).*2 |}
  ∧ file out.2 = Some (pd.to_csv (table out.2)).
Proof.
  destruct st as [self w]. unfold allocated, table. cbn [fst snd].
  intros Halloc Hnd Hall. cbn zeta.
  destruct (drop_each_succeeds row_index None self w Halloc Hnd Hall)
    as (idx' & u & w' & Hrun & Hdisk & Hwr & Hlen & _ & Hcols & Hrows).
  pose proof (delete_after_loop _ _ _ _ _ _ Hrun) as Hdelete.
  cbn iota in Hdelete. rewrite Hdelete.
  set (d' := deref w' (self_df self)) in *.
  set (w2 := store (self_df self) (pd.reset_index d') w') in *.
  assert (deref w2 (self_df self) = pd.reset_index d') as Hd2.
  { apply deref_store. by rewrite Hlen. }
  assert (length (heap w2) = length (heap w)) as Hlen2.
  { unfold w2. simpl. by rewrite length_insert. }
  destruct (write_read_end (self, w2) self w2) as (Htable & (Hfile & _) & _);
    [unfold allocated; cbn [fst snd]; lia|done..|].
  unfold table in *. rewrite Htable in Hfile. rewrite Htable, Hd2.
  rewrite Hd2 in Hfile. rewrite write_read_run in Hfile |- *.
  cbn [fst snd] in *.
  split; [by rewrite Hlen2|]. split.
  { cbn [heap self_df]. rewrite length_app. lia. }
  split; [|done].
  unfold pd.reset_index, values. by rewrite Hcols, Hrows.
Qed.

(** [register] followed by [delete] of the label of the new row, the former
    number of rows: both calls return, and the table has the columns and the
    cells it had before; it is the table it was when its rows were labelled
    [0, 1, ..., n-1].  The file then holds what the table of before is
    written as.

    The keywords are such as Python can bind, and the values fit their
    columns: the row that comes and goes then leaves the other cells as
    they are in pandas too. *)
Theorem register_then_delete_last (st : Self * World)
    (key_and_values : list (string * scalar)) :
  state_ok st →
  keywords_ok key_and_values →
  (list_to_set key_and_values.*1 : gset string)
  = list_to_set (columns (table st)) →
  row_fits key_and_values (table st) →
  let registered := register key_and_values st in
  let deleted :=
    delete [Z.of_nat (length (rows (table st)))] registered.2 in
  (∃ ref, registered.1 = Ok ref) ∧ (∃ ref, deleted.1 = Ok ref)
  ∧ columns (table deleted.2) = columns (table st)
  ∧ values (table deleted.2) = values (table st)
  ∧ (contiguous (table st) → table deleted.2 = table st)
  ∧ file deleted.2 = Some (pd.to_csv (table st)).
Proof.
  intros [Halloc Hok] Hbound Heq _. cbn zeta.
  destruct (register_end st key_and_values Halloc Hbound Heq)
    as (Hret & Halloc1 & Htable1 & _).
  cbn zeta in Hret, Halloc1, Htable1.
  rewrite concat_one_row in Htable1; [|done|].
  2:{ intros k. rewrite <- !(elem_of_list_to_set (C := gset string)).
      by rewrite Heq. }
  set (n := Z.of_nat (length (rows (table st)))) in *.
  set (st1 := (register key_and_values st).2) in *.
  assert (filter (λ r : Z * list scalar, r.1 ∉ [n]) (rows (table st1))
          = relabel (values (table st))) as Hfilter.
  { rewrite Htable1. cbn [rows]. rewrite filter_app.
    rewrite filter_cons_False, filter_nil, app_nil_r.
    2:{ cbn [fst]. intros Hnot. apply Hnot. by left. }
    apply filter_all, Forall_forall. intros r Hr.
    assert (r.1 ∈ (relabel (values (table st))).*1) as Hin
      by by apply list_elem_of_fmap_2.
    rewrite relabel_index in Hin. apply elem_of_range_index in Hin.
    unfold values in Hin. rewrite length_fmap in Hin.
    intros Hrn%list_elem_of_singleton. rewrite Hrn in Hin.
    unfold n in Hin. lia. }
  destruct (delete_end st1 [n] Halloc1) as (Hret2 & _ & Htable2 & Hfile2).
  { apply NoDup_singleton. }
  { constructor; [|done]. rewrite Htable1. unfold index. cbn [rows].
    rewrite fmap_app. apply elem_of_app. right. by left. }
  cbn zeta in Hret2, Htable2, Hfile2.
  rewrite Hfilter, relabel_values in Htable2.
  rewrite Htable1 in Htable2. cbn [columns] in Htable2.
  assert (values (table (delete [n] st1).2) = values (table st)) as Hvalues.
  { rewrite Htable2. unfold values at 1. cbn [rows].
    apply relabel_values. }
  split; [by eexists|]. split; [by eexists|].
  split; [by rewrite Htable2|]. split; [done|]. split.
  - intros Hcont. rewrite Htable2, (relabel_range _ Hcont).
    by destruct (table st).
  - rewrite Hfile2. unfold pd.to_csv. rewrite Hvalues. by rewrite Htable2.
Qed.

(** Di is registered in the table of three rows, and row [3] deleted. *)
Lemma register_then_delete_last_witness :
  let registered := register [("age", PyInt 3); ("name", PyStr "di")] demo in
  let deleted := delete [3] registered.2 in
  table deleted.2 = table demo ∧ file deleted.2 = file demo.
Proof.
  destruct (register_then_delete_last demo
              [("age", PyInt 3); ("name", PyStr "di")])
    as (_ & _ & _ & _ & Htable & Hfile).
  - exact demo_ok.
  - compute_done.
  - vm_compute. reflexivity.
  - unfold row_fits, fits. compute_done.
  - split; [by apply Htable|exact Hfile].
Defined.

(** A keyword argument is read back under its name, whatever its place. *)
Lemma cell_of_key (kv : list (string * scalar)) (k : string) (v : scalar) :
  NoDup kv.*1 → (k, v) ∈ kv → pd.cell kv.*1 kv.*2 k = v.
Proof.
  induction kv as [|[k0 v0] kv IH]; intros Hnd Hin.
  { by apply elem_of_nil in Hin. }
  rewrite !fmap_cons in *. cbn [fst snd] in *.
  apply NoDup_cons in Hnd as [Hk0 Hnd].
  destruct (decide (k0 = k)) as [->|Hne].
  - rewrite cell_cons_eq.
    apply elem_of_cons in Hin as [[= ->]|Hin]; [done|].
    exfalso. apply Hk0. by apply (list_elem_of_fmap_2 fst) in Hin.
  - rewrite cell_cons_ne by done.
    apply elem_of_cons in Hin as [[= -> ->]|Hin]; [done|]. by apply IH.
Qed.

Lemma cell_of_no_key (kv : list (string * scalar)) (k : string) :
  k ∉ kv.*1 → pd.cell kv.*1 kv.*2 k = NaN.
Proof.
  intros Hk. unfold pd.cell. by rewrite (get_loc_None _ _ Hk).
Qed.

Lemma cell_permuted (kv kv' : list (string * scalar)) (k : string) :
  NoDup kv.*1 → kv ≡ₚ kv' →
  pd.cell kv.*1 kv.*2 k = pd.cell kv'.*1 kv'.*2 k.
Proof.
  intros Hnd Hperm.
  assert (NoDup kv'.*1) as Hnd' by by rewrite <- Hperm.
  destruct (decide (k ∈ kv.*1)) as [Hk|Hk].
  - apply list_elem_of_fmap in Hk as ([k0 v] & -> & Hin). cbn [fst].
    rewrite (cell_of_key kv k0 v Hnd Hin).
    rewrite Hperm in Hin. by rewrite (cell_of_key kv' k0 v Hnd' Hin).
  - rewrite (cell_of_no_key kv k Hk).
    rewrite Hperm in Hk. by rewrite (cell_of_no_key kv' k Hk).
Qed.

(** [register] with names that are not the columns. *)
Lemma register_raises (st : Self * World)
    (key_and_values : list (string * scalar)) :
  keywords_ok key_and_values →
  (list_to_set key_and_values.*1 : gset string)
  ≠ list_to_set (columns (table st)) →
  register key_and_values st = (Raise ValueError, st).
Proof.
  destruct st as [self w]. unfold table. cbn [fst snd]. intros Hbound Hne.
  unfold register. rewrite (decide_True _ _ Hbound).
  run. by rewrite decide_True.
Qed.

(** The order of the keyword arguments of [register] does not count: the
    same arguments in another order give the same outcome, the same table
    and the same file.  Python lets a name be given once only. *)
Theorem register_order_irrelevant (st : Self * World)
    (kv kv' : list (string * scalar)) :
  allocated st → NoDup kv.*1 → kv ≡ₚ kv' →
  (register kv st).1 = (register kv' st).1
  ∧ table (register kv st).2 = table (register kv' st).2
  ∧ file (register kv st).2 = file (register kv' st).2.
Proof.
  intros Halloc Hnd Hperm.
  assert ((list_to_set kv.*1 : gset string) = list_to_set kv'.*1) as Hset.
  { apply set_eq. intros k. rewrite !elem_of_list_to_set. by rewrite Hperm. }
  assert (keywords_ok kv ↔ keywords_ok kv') as Hsame_keys.
  { unfold keywords_ok. by rewrite Hperm. }
  destruct (decide (keywords_ok kv)) as [Hbound|Hnot].
  2:{ rewrite (register_unbound st kv Hnot).
      rewrite Hsame_keys in Hnot. by rewrite (register_unbound st kv' Hnot). }
  pose proof Hbound as Hbound'. rewrite Hsame_keys in Hbound'.
  destruct (decide ((list_to_set kv.*1 : gset string)
                    = list_to_set (columns (table st)))) as [Heq|Hne].
  - assert ((list_to_set kv'.*1 : gset string)
            = list_to_set (columns (table st))) as Heq' by by rewrite <- Hset.
    destruct (register_end st kv Halloc Hbound Heq)
      as (Hret & _ & Htable & Hfile & _).
    destruct (register_end st kv' Halloc Hbound' Heq')
      as (Hret' & _ & Htable' & Hfile' & _).
    cbn zeta in *.
    assert (table (register kv st).2 = table (register kv' st).2) as Hsame.
    { rewrite Htable, Htable'. unfold pd.concat_ignore_index.
      cbn [columns values rows pd.DataFrame_one_row fmap list_fmap].
      rewrite !(filter_nothing (λ c, c ∉ columns (table st))).
      2,3: apply Forall_forall; intros k Hk Hnot; apply Hnot;
           rewrite <- (elem_of_list_to_set (C := gset string)) in Hk |- *;
           congruence.
      f_equal. f_equal. f_equal. unfold pd.reindex_row. cbn [columns].
      f_equal. apply list_fmap_ext. intros _ k _.
      by apply cell_permuted. }
    split; [by rewrite Hret, Hret'|]. split; [done|].
    by rewrite Hfile, Hfile', Hsame.
  - assert ((list_to_set kv'.*1 : gset string)
            ≠ list_to_set (columns (table st))) as Hne' by by rewrite <- Hset.
    by rewrite (register_raises st kv Hbound Hne),
         (register_raises st kv' Hbound' Hne').
Qed.

(** Di is registered, the age first and the name first. *)
Lemma register_order_irrelevant_witness :
  table (register [("age", PyInt 3); ("name", PyStr "di")] demo).2
  = table (register [("name", PyStr "di"); ("age", PyInt 3)] demo).2.
Proof.
  destruct (register_order_irrelevant demo
              [("age", PyInt 3); ("name", PyStr "di")]
              [("name", PyStr "di"); ("age", PyInt 3)]) as (_ & Htable & _).
  - unfold allocated. simpl. lia.
  - compute_done.
  - apply perm_swap.
  - exact Htable.
Defined.

(** ** Two connectors on one file *)

(** Where a call of a mutating method leaves the connector: at a frame of
    the heap, the one it had or a new one, and on the same file. *)
Lemma ending_allocated (st : Self * World)
    (out : result nat * (Self * World)) :
  allocated st → ending st out →
  allocated out.2
  ∧ (self_df out.2.1 = self_df st.1
     ∨ (length (heap st.2) ≤ self_df out.2.1)%nat)
  ∧ self_csv out.2.1 = self_csv st.1.
Proof.
  unfold allocated.
  intros Halloc [e w' -> _ _ Hlen _ _|self' w' -> Hcsv Hlt Hnew _ _ _ _ _].
  - cbn [fst snd]. split; [lia|]. split; [by left|done].
  - rewrite write_read_run. cbn [fst snd heap].
    split; [rewrite length_app; lia|done].
Qed.

(** Two connectors opened on the same file do not see each other.  What
    one of them registers does not reach the table of the other; and when
    the other then calls [update], the table of the first stays as it is
    and the file, if the call returns, holds the table of the second: its
    own former table with the one cell replaced, and nothing of the row
    that was registered. *)
Theorem second_connector_is_stale (a b : Self) (w : World)
    (key_and_values : list (string * scalar)) (i : Z) (key : string)
    (value : scalar) :
  allocated (a, w) → allocated (b, w) →
  self_df a ≠ self_df b → self_csv b = self_csv a →
  let st_a := (register key_and_values (a, w)).2 in
  let st_b := (update i key value (b, st_a.2)).2 in
  table (b, st_a.2) = table (b, w)
  ∧ table (st_a.1, st_b.2) = table st_a
  ∧ (i ∈ index (table (b, w)) → key ∈ columns (table (b, w)) →
     table st_b = pd.loc_setitem i key value (table (b, w))
     ∧ file (st_a.1, st_b.2)
       = Some (pd.to_csv (pd.loc_setitem i key value (table (b, w))))).
Proof.
  intros Ha Hb Hne Hcsv. cbn zeta.
  pose proof (register_ending (a, w) key_and_values Ha) as Hend.
  pose proof (ending_others _ _ Hend) as Hkept.
  destruct (ending_allocated _ _ Ha Hend) as (Ha1 & Hwhere & Hcsv1).
  set (st_a := (register key_and_values (a, w)).2) in *.
  destruct st_a as [a1 w1] eqn:Hst_a. cbn [fst snd] in *.
  assert (heap w1 !! self_df b = heap w !! self_df b) as Hlookup.
  { apply (Hkept (self_df b)); [exact Hb|]. cbn [fst]. congruence. }
  assert (table (b, w1) = table (b, w)) as Htable_b.
  { unfold table, deref. cbn [fst snd]. by rewrite Hlookup. }
  assert (allocated (b, w1)) as Hb1.
  { unfold allocated in *. cbn [fst snd] in *.
    apply lookup_lt_is_Some. rewrite Hlookup. by apply lookup_lt_is_Some. }
  pose proof (update_ending (b, w1) i key value Hb1) as Hend_b.
  pose proof (ending_others _ _ Hend_b) as Hkept_b.
  assert (table (a1, (update i key value (b, w1)).2.2) = table (a1, w1))
    as Htable_a.
  { unfold table, deref. cbn [fst snd].
    rewrite (Hkept_b (self_df a1)); [done|exact Ha1|].
    cbn [fst]. unfold allocated in Hb. cbn [fst snd] in Hb.
    destruct Hwhere as [->|Hnew]; [done|lia]. }
  split; [done|]. split; [done|].
  intros Hi Hkey. rewrite <- Htable_b in Hi, Hkey.
  destruct (update_present_end (b, w1) i key value Hb1 Hi Hkey)
    as (Hself & _ & Htable & Hfile).
  cbn zeta in Hself, Htable, Hfile. rewrite Htable_b in Htable.
  split; [done|]. rewrite <- Htable, <- Hfile. unfold file. cbn [fst snd].
  rewrite Hself. cbn [fst]. by rewrite Hcsv1, Hcsv.
Qed.

(** Two connectors on the file of the table of three rows, each with its
    own frame: Di is registered through the first, Bob turns 28 through the
    second, and the file then holds three rows, none of them Di's. *)
Lemma second_connector_is_stale_witness :
  let a := {| self_csv := "people.csv"; self_df := 0 |} in
  let b := {| self_csv := "people.csv"; self_df := 1 |} in
  let w := (read demo).2.2 in
  let st_a := (register [("age", PyInt 3); ("name", PyStr "di")] (a, w)).2 in
  let st_b := (update 1 "age" (PyInt 28) (b, st_a.2)).2 in
  length (rows (table (st_a.1, st_b.2))) = 4%nat
  ∧ file (st_a.1, st_b.2)
    = Some [["name"; "age"]; ["ann"; "31"]; ["bob"; "28"]; ["cy"; "45"]].
Proof.
  destruct (second_connector_is_stale
              {| self_csv := "people.csv"; self_df := 0 |}
              {| self_csv := "people.csv"; self_df := 1 |}
              (read demo).2.2
              [("age", PyInt 3); ("name", PyStr "di")] 1 "age" (PyInt 28))
    as (_ & Htable & Hupdate).
  - unfold allocated. simpl. lia.
  - unfold allocated. simpl. lia.
  - done.
  - done.
  - destruct Hupdate as [_ Hfile].
    + vm_compute. by right; left.
    + vm_compute. by right; left.
    + cbn zeta. split; [rewrite Htable; vm_compute; reflexivity|].
      rewrite Hfile. vm_compute. reflexivity.
Defined.

(** A [delete] that raised after it dropped some rows has lost them for
    good once another call returns: the file was left alone by the failure,
    and the next [register] writes the table of the memory, which is the
    former table without the rows dropped, followed by the new row.

    The keywords are such as Python can bind, and the values fit their
    columns, so that the new row leaves the other cells as they are. *)
Theorem failed_delete_persists_later (st st1 : Self * World)
    (row_index : list Z) (e : exn)
    (key_and_values : list (string * scalar)) :
  state_ok st →
  delete row_index st = (Raise e, st1) →
  keywords_ok key_and_values →
  (list_to_set key_and_values.*1 : gset string)
  = list_to_set (columns (table st)) →
  row_fits key_and_values (table st) →
  ∃ done_ bad rest,
    row_index = done_ ++ bad :: rest
    ∧ file st1 = file st
    ∧ let st2 := (register key_and_values st1).2 in
      values (table st2)
      = (filter (λ r, r.1 ∉ done_) (rows (table st))).*2
        ++ [pd.cell key_and_values.*1 key_and_values.*2
              <$> columns (table st)]
      ∧ file st2 = Some (pd.to_csv (table st2)).
Proof.
  intros Hst Hdelete Hbound Heq _.
  pose proof (delete_keeps_ok st row_index Hst) as Hst1.
  rewrite Hdelete in Hst1. cbn [snd] in Hst1.
  destruct st as [self w]. pose proof Hst as [Halloc _].
  unfold allocated in Halloc. unfold table in *. cbn [fst snd] in *.
  destruct (drop_each_outcome row_index None self w Halloc)
    as (idx' & r & w' & done_ & Hrun & Hdisk & _ & _ & _ & Hcols & Hrows
        & _ & _ & Hr).
  pose proof (delete_after_loop _ _ _ _ _ _ Hrun) as Hdel.
  destruct r as [u|e'].
  { rewrite Hdel, write_read_run in Hdelete. done. }
  destruct Hr as (bad & rest & -> & -> & -> & _).
  rewrite (Hdel bad eq_refl eq_refl) in Hdelete.
  injection Hdelete as <- <-.
  exists done_, bad, rest. split; [done|]. split.
  { unfold file. cbn [fst snd]. by rewrite Hdisk. }
  cbn zeta. destruct Hst1 as [Halloc1 Hok1].
  destruct (register_end (self, w') key_and_values Halloc1 Hbound)
    as (_ & _ & Htable & Hfile & _).
  { unfold table. cbn [fst snd]. by rewrite Hcols. }
  cbn zeta in Htable, Hfile. split; [|exact Hfile].
  unfold table in Htable, Hok1 |- *. cbn [fst snd] in Htable, Hok1.
  rewrite Htable, concat_one_row; [|done|].
  2:{ intros k. rewrite Hcols.
      rewrite <- !(elem_of_list_to_set (C := gset string)).
      by rewrite Heq. }
  unfold values at 1. cbn [rows]. rewrite fmap_app, relabel_values.
  unfold values. by rewrite Hcols, Hrows.
Qed.

(** [delete(1, 7)] on the table of three rows drops Bob and raises; Di is
    then registered, and the file holds Ann, Cy and Di. *)
Lemma failed_delete_persists_later_witness :
  let st1 := (delete [1; 7] demo).2 in
  let st2 := (register [("age", PyInt 3); ("name", PyStr "di")] st1).2 in
  file st1 = file demo
  ∧ file st2 = Some [["name"; "age"]; ["ann"; "31"]; ["cy"; "45"];
                     ["di"; "3"]].
Proof.
  destruct (failed_delete_persists_later demo (delete [1; 7] demo).2 [1; 7]
              (IndexError 7) [("age", PyInt 3); ("name", PyStr "di")])
    as (done_ & bad & rest & _ & Hfile1 & _ & Hfile2).
  - exact demo_ok.
  - vm_compute. reflexivity.
  - compute_done.
  - vm_compute. reflexivity.
  - unfold row_fits, fits. compute_done.
  - cbn zeta. split; [exact Hfile1|]. rewrite Hfile2. vm_compute.
    reflexivity.
Defined.
